(** * Vertex result protocol of [langflow.graph.vertex.types]

    A shallow embedding of [ComponentVertex], [InterfaceVertex] and
    [StateVertex] (file [backend/base/langflow/graph/vertex/types.py]) and the
    properties of the build / result-handoff contract that the specification
    states about them.

    Python objects are embedded as the inductive [value]; a method of a vertex
    is a computation in the monad [M], which threads the vertex ([self]),
    may raise an exception, and records what it sends to the logging and
    monitoring sinks and what a generator yields. *)

From Stdlib Require Import ZArith Ascii String List Bool Lia DecimalPos DecimalZ.
From stdpp Require Import base option list gmap strings.
Import ListNotations.
Open Scope string_scope.
Open Scope list_scope.

(** ** Python values *)

(** [ArtifactType] of [langflow.schema.artifact]; only the two members that
    [types.py] uses. *)
Inductive ArtifactType := OBJECT | STREAM.

(** The objects that flow through a vertex.  A Python [dict] is an association
    list in insertion order (the order in which [json.dumps] and [.items()]
    walk it); keys are strings. *)
#[warnings="-register-all"] Inductive value : Type :=
| VNone
| VBool (b : bool)
| VInt (n : Z)
| VStr (s : string)
| VList (l : list value)
| VTuple (l : list value)
| VDict (d : list (string * value))
| VArtifactType (t : ArtifactType)
(** [UnbuiltObject()], the placeholder of a vertex that has not been built *)
| VUnbuilt
(** [AIMessage] / [AIMessageChunk] ([chunk = true]) with its [content] *)
| VAIMessage (chunk : bool) (content : value)
(** [Record]: its text, its raw data, and the attributes assigned later *)
| VRecord (text : value) (data : value) (extra : list (string * value))
(** an [Iterator] ([is_async = false]) or [AsyncIterator] over [items] *)
| VIter (is_async : bool) (items : list value)
(** [RecordOutputResponse(records=...)] *)
| VRecordOutputResponse (records : list value)
(** any other object, given by its attributes *)
| VObject (attrs : list (string * value)).

Abbreviation pydict := (list (string * value)).

(** [d.get(k)] / [k in d] / [d[k]] on an insertion-ordered dict. *)
Fixpoint pydict_get (d : pydict) (k : string) : option value :=
  match d with
  | [] => None
  | (k', v) :: d' => if String.eqb k' k then Some v else pydict_get d' k
  end.

(** [d[k] = v]: overwrite in place when the key exists, else append. *)
Fixpoint pydict_set (d : pydict) (k : string) (v : value) : pydict :=
  match d with
  | [] => [(k, v)]
  | (k', v') :: d' =>
      if String.eqb k' k then (k', v) :: d' else (k', v') :: pydict_set d' k v
  end.

(** Fragments of an f-string, kept unrendered: literal text, [{x}] and
    [{type(x)}]. *)
Inductive fpart :=
| Lit (s : string)
| Fmt (v : value)
| FmtType (v : value).

Inductive exn :=
| ValueError (msg : list fpart)
| KeyError (key : string)
| AttributeError (obj : value) (attr : string)
| TypeError (msg : list fpart)
| UnboundLocalError (var : string).

(** ** Graph, edges, vertices *)

Record SourceHandle := { name : string }.

Record ContractEdge := {
  target_id : string;
  source_handle : SourceHandle
}.

Record Graph := {
  flow_id : string;
  successor_map : gmap string (list string);
  activated_vertices : list string
}.

Record Vertex := {
  vertex_id : string;               (* self.id *)
  display_name : string;
  graph : Graph;
  edges : list ContractEdge;
  _built : bool;
  params : gmap string value;
  results : pydict;
  artifacts : value;
  _built_object : value;
  _built_result : value;
  _custom_component : value;
  will_stream : bool
}.

(** [params.get(k, dflt)] on the parameter bag. *)
Definition params_get (p : gmap string value) (k : string) (dflt : value)
    : value :=
  default dflt (p !! k).
Global Arguments params_get : simpl never.

Definition set_built (b : bool) (v : Vertex) : Vertex :=
  {| vertex_id := vertex_id v; display_name := display_name v; graph := graph v;
     edges := edges v; _built := b; params := params v; results := results v;
     artifacts := artifacts v; _built_object := _built_object v;
     _built_result := _built_result v; _custom_component := _custom_component v;
     will_stream := will_stream v |}.

Definition set_params (p : gmap string value) (v : Vertex) : Vertex :=
  {| vertex_id := vertex_id v; display_name := display_name v; graph := graph v;
     edges := edges v; _built := _built v; params := p; results := results v;
     artifacts := artifacts v; _built_object := _built_object v;
     _built_result := _built_result v; _custom_component := _custom_component v;
     will_stream := will_stream v |}.

Definition set_results (r : pydict) (v : Vertex) : Vertex :=
  {| vertex_id := vertex_id v; display_name := display_name v; graph := graph v;
     edges := edges v; _built := _built v; params := params v; results := r;
     artifacts := artifacts v; _built_object := _built_object v;
     _built_result := _built_result v; _custom_component := _custom_component v;
     will_stream := will_stream v |}.

Definition set_artifacts (a : value) (v : Vertex) : Vertex :=
  {| vertex_id := vertex_id v; display_name := display_name v; graph := graph v;
     edges := edges v; _built := _built v; params := params v; results := results v;
     artifacts := a; _built_object := _built_object v;
     _built_result := _built_result v; _custom_component := _custom_component v;
     will_stream := will_stream v |}.

Definition set_built_object (o : value) (v : Vertex) : Vertex :=
  {| vertex_id := vertex_id v; display_name := display_name v; graph := graph v;
     edges := edges v; _built := _built v; params := params v; results := results v;
     artifacts := artifacts v; _built_object := o;
     _built_result := _built_result v; _custom_component := _custom_component v;
     will_stream := will_stream v |}.

Definition set_built_result (o : value) (v : Vertex) : Vertex :=
  {| vertex_id := vertex_id v; display_name := display_name v; graph := graph v;
     edges := edges v; _built := _built v; params := params v; results := results v;
     artifacts := artifacts v; _built_object := _built_object v;
     _built_result := o; _custom_component := _custom_component v;
     will_stream := will_stream v |}.

Definition set_custom_component (o : value) (v : Vertex) : Vertex :=
  {| vertex_id := vertex_id v; display_name := display_name v; graph := graph v;
     edges := edges v; _built := _built v; params := params v; results := results v;
     artifacts := artifacts v; _built_object := _built_object v;
     _built_result := _built_result v; _custom_component := o;
     will_stream := will_stream v |}.

Definition set_will_stream (b : bool) (v : Vertex) : Vertex :=
  {| vertex_id := vertex_id v; display_name := display_name v; graph := graph v;
     edges := edges v; _built := _built v; params := params v; results := results v;
     artifacts := artifacts v; _built_object := _built_object v;
     _built_result := _built_result v; _custom_component := _custom_component v;
     will_stream := b |}.

(** ** Effects *)

(** What a method sends out: calls of the monitor hooks [log_transaction] and
    [log_vertex_build], calls of the [loguru] logger, and the values a
    generator yields, in program order. *)
Inductive event :=
| LogTransaction (source : string) (target : option string)
    (flow : string) (status : string)
| LogVertexBuild (flow : string) (vertex : string) (valid : bool)
    (arts : value)
| LoggerError (msg : list fpart)
| LoggerDebug (msg : list fpart)
| Yield (v : value).

(** The result of running a method on [self]: a value or the exception
    raised, the vertex as the method left it (mutations made before a [raise]
    persist), and the events emitted. *)
Record outcome (A : Type) := Outcome {
  res : exn + A;
  final : Vertex;
  trace : list event
}.
Arguments Outcome {A} _ _ _.
Arguments res {A} _.
Arguments final {A} _.
Arguments trace {A} _.

Definition M (A : Type) : Type := Vertex -> outcome A.

Definition ret {A} (a : A) : M A := fun self => Outcome (inr a) self [].

Definition bind {A B} (m : M A) (k : A -> M B) : M B := fun self =>
  match m self with
  | Outcome (inl e) self' t => Outcome (inl e) self' t
  | Outcome (inr a) self' t =>
      match k a self' with
      | Outcome r self'' t' => Outcome r self'' (t ++ t')
      end
  end.

Definition raise {A} (e : exn) : M A := fun self => Outcome (inl e) self [].
Definition get_self : M Vertex := fun self => Outcome (inr self) self [].
Definition modify (f : Vertex -> Vertex) : M unit :=
  fun self => Outcome (inr tt) (f self) [].
Definition emit (e : event) : M unit := fun self => Outcome (inr tt) self [e].

Notation "x <- m ;; k" := (bind m (fun x => k))
  (at level 100, m at next level, right associativity).
Notation "m ;;; k" := (bind m (fun _ => k))
  (at level 100, right associativity).

(** [log_transaction(source=self, target=requester, flow_id=..., status=...)]:
    the monitor receives the two vertices; the record keeps their ids. *)
Definition log_transaction (source : Vertex) (target : option Vertex)
    (flow : string) (status : string) : M unit :=
  emit (LogTransaction (vertex_id source) (vertex_id <$> target) flow status).

(** ** [StateVertex] *)

(** [StateVertex.successors_ids]:
    [self.graph.successor_map.get(self.id, []) + self.graph.activated_vertices]. *)
Definition successors_ids (self : Vertex) : list string :=
  let successors := default [] (successor_map (graph self) !! vertex_id self) in
  successors ++ activated_vertices (graph self).

(** ** [ComponentVertex] *)

(** [ComponentVertex.get_edge_with_target]: the first outgoing edge whose
    target id is [target], or [None]. *)
Fixpoint first_edge_with_target (es : list ContractEdge) (target : string)
    : option ContractEdge :=
  match es with
  | [] => None
  | edge :: es' =>
      if String.eqb (target_id edge) target then Some edge
      else first_edge_with_target es' target
  end.

Definition get_edge_with_target (self : Vertex) (target : string)
    : option ContractEdge :=
  first_edge_with_target (edges self) target.

(** [ComponentVertex._get_result]. *)
Definition _get_result (requester : option Vertex) : M value :=
  self <- get_self ;;
  if negb (_built self) then
    log_transaction self requester (flow_id (graph self)) "error" ;;;
    raise (ValueError [Lit "Component "; Lit (display_name self);
                       Lit " has not been built yet"])
  else
    match requester with
    | None => raise (ValueError [Lit "Requester Vertex is None"])
    | Some req =>
        match get_edge_with_target self (vertex_id req) with
        | None =>
            raise (ValueError [Lit "Edge not found between ";
                               Lit (display_name self); Lit " and ";
                               Lit (display_name req)])
        | Some edge =>
            match pydict_get (results self) (name (source_handle edge)) with
            | None =>
                raise (ValueError [Lit "Result not found for ";
                                   Lit (name (source_handle edge));
                                   Lit ". Results: ";
                                   Fmt (VDict (results self))])
            | Some result =>
                log_transaction self requester (flow_id (graph self)) "success" ;;;
                ret result
            end
        end
    end.

(** Modelled from the spec: [Vertex.add_result] of the base class (not part of
    this file) writes the value into the result store under the handle name. *)
Definition add_result (key : string) (v : value) : M unit :=
  modify (fun self => set_results (pydict_set (results self) key v) self).

(** Attribute access, [getattr(obj, attr)], for the data attributes the
    source reads: [content], [text], [data], [message] and [items].  None of
    the built-in types has one of these as a data attribute (the method
    [items] of a dict is with [py_items]).  A [Record] of [langflow.schema]
    (the class is not part of this file) answers every attribute name: its
    text, its raw data, an attribute assigned to it, the entry of its data
    under that name, and for any other name its default value, the empty
    string. *)
Definition py_getattr (obj : value) (attr : string) : option value :=
  match obj with
  | VAIMessage _ content => if String.eqb attr "content" then Some content else None
  | VRecord text data extra =>
      if String.eqb attr "text" then Some text
      else if String.eqb attr "data" then Some data
      else
        match pydict_get extra attr with
        | Some v => Some v
        | None =>
            match data with
            | VDict d => Some (default (VStr "") (pydict_get d attr))
            | _ => Some (VStr "")
            end
        end
  | VObject attrs => pydict_get attrs attr
  | _ => None
  end.

Definition py_hasattr (obj : value) (attr : string) : bool :=
  match py_getattr obj attr with Some _ => true | None => false end.

(** [obj.items()].  A dict gives its entries.  On any other object the
    attribute [items] is looked up and what is found is called: the lookup
    fails on an object without it, and the call fails on what a lookup can
    find in this universe, which holds no callable. *)
Definition py_items (obj : value) : M pydict :=
  match obj with
  | VDict d => ret d
  | _ =>
      match py_getattr obj "items" with
      | None => raise (AttributeError obj "items")
      | Some f => raise (TypeError [FmtType f; Lit " object is not callable"])
      end
  end.

Fixpoint add_results (kvs : pydict) : M unit :=
  match kvs with
  | [] => ret tt
  | (key, v) :: kvs' => add_result key v ;;; add_results kvs'
  end.

(** [ComponentVertex._update_built_object_and_artifacts].  A tuple of a length
    other than 2 or 3 assigns nothing; the loop then walks the built object
    the vertex already had. *)
Definition _update_built_object_and_artifacts (result : value) : M unit :=
  match result with
  | VTuple [o; a] =>
      modify (set_built_object o) ;;; modify (set_artifacts a)
  | VTuple [c; o; a] =>
      modify (set_custom_component c) ;;;
      modify (set_built_object o) ;;; modify (set_artifacts a)
  | VTuple _ => ret tt
  | _ => modify (set_built_object result)
  end ;;;
  self <- get_self ;;
  kvs <- py_items (_built_object self) ;;
  add_results kvs.

(** ** [InterfaceVertex]: the record path *)

(** Truth value of an object in a condition ([if x:], [elif x:]). *)
Definition py_truthy (v : value) : bool :=
  match v with
  | VNone => false
  | VBool b => b
  | VInt n => negb (Z.eqb n 0)
  | VStr s => negb (String.eqb s "")
  | VList l | VTuple l => negb (Nat.eqb (length l) 0)
  | VDict d => negb (Nat.eqb (length d) 0)
  | _ => true
  end.

Definition is_Record (v : value) : bool :=
  match v with VRecord _ _ _ => true | _ => false end.

Definition Record_data (v : value) : value :=
  match v with VRecord _ data _ => data | _ => VNone end.

(** The loop of [_process_record_component] over the elements of the built
    list; [artifacts] is the list built so far. *)
Fixpoint record_loop (ignore_errors : value) (l : list value)
    (artifacts : list value) : M (list value) :=
  match l with
  | [] => ret artifacts
  | record :: l' =>
      match record with
      | VRecord _ data _ =>
          record_loop ignore_errors l' (artifacts ++ [data])
      | _ =>
          if py_truthy ignore_errors then
            emit (LoggerError [Lit "Record expected, but got "; Fmt record;
                               Lit " of type "; FmtType record]) ;;;
            record_loop ignore_errors l' artifacts
          else
            raise (ValueError [Lit "Record expected, but got "; Fmt record;
                               Lit " of type "; FmtType record])
      end
  end.

(** [InterfaceVertex._process_record_component].  The local [artifacts] is
    bound only in the two branches; [None] is the unbound local. *)
Definition _process_record_component : M value :=
  self <- get_self ;;
  artifacts <-
    match _built_object self with
    | VRecord _ data _ => ret (Some [data])
    | VList l =>
        let ignore_errors :=
          params_get (params self) "ignore_errors" (VBool false) in
        arts <- record_loop ignore_errors l [] ;;
        ret (Some arts)
    | _ => ret None
    end ;;
  match artifacts with
  | None => raise (UnboundLocalError "artifacts")
  | Some arts =>
      modify (set_artifacts (VRecordOutputResponse arts)) ;;;
      self' <- get_self ;;
      ret (_built_object self')
  end.

(** ** [json.dumps(obj, indent=4)] and [json.loads]

    Python's encoder with its defaults ([ensure_ascii=True]; with an indent
    the item separator is [","] and the key separator [": "]).  A [str] is the
    sequence of its code points, here those below 256, one [ascii] each.
    Floats are outside the universe of [value]. *)

Definition dquote : ascii := ascii_of_nat 34.
Definition backslash : ascii := ascii_of_nat 92.
Definition newline : ascii := ascii_of_nat 10.

Definition chars (s : string) : list ascii := list_ascii_of_string s.

Definition hex_digit (n : nat) : ascii :=
  if Nat.ltb n 10 then ascii_of_nat (48 + n) else ascii_of_nat (87 + n).

(** [py_encode_basestring_ascii] on one character: the short escapes, the
    printable ASCII range as it is, anything else as a [\uXXXX] escape. *)
Definition escape_char (c : ascii) : list ascii :=
  let n := nat_of_ascii c in
  if Nat.eqb n 34 then [backslash; dquote]
  else if Nat.eqb n 92 then [backslash; backslash]
  else if Nat.eqb n 10 then [backslash; "n"%char]
  else if Nat.eqb n 13 then [backslash; "r"%char]
  else if Nat.eqb n 9 then [backslash; "t"%char]
  else if Nat.eqb n 8 then [backslash; "b"%char]
  else if Nat.eqb n 12 then [backslash; "f"%char]
  else if Nat.leb 32 n && Nat.leb n 126 then [c]
  else [backslash; "u"%char; "0"%char; "0"%char;
        hex_digit (n / 16); hex_digit (n mod 16)].

Definition encode_string (s : string) : list ascii :=
  dquote :: flat_map escape_char (chars s) ++ [dquote].

Fixpoint uint_chars (d : Decimal.uint) : list ascii :=
  match d with
  | Decimal.Nil => []
  | Decimal.D0 d => "0"%char :: uint_chars d
  | Decimal.D1 d => "1"%char :: uint_chars d
  | Decimal.D2 d => "2"%char :: uint_chars d
  | Decimal.D3 d => "3"%char :: uint_chars d
  | Decimal.D4 d => "4"%char :: uint_chars d
  | Decimal.D5 d => "5"%char :: uint_chars d
  | Decimal.D6 d => "6"%char :: uint_chars d
  | Decimal.D7 d => "7"%char :: uint_chars d
  | Decimal.D8 d => "8"%char :: uint_chars d
  | Decimal.D9 d => "9"%char :: uint_chars d
  end.

(** [int.__repr__]: decimal digits, a minus sign for a negative number. *)
Definition int_chars (n : Z) : list ascii :=
  match Z.to_int n with
  | Decimal.Pos d => uint_chars d
  | Decimal.Neg d => "-"%char :: uint_chars d
  end.

(** A newline and the indentation of nesting level [lvl] ([indent=4]). *)
Definition newline_indent (lvl : nat) : list ascii :=
  newline :: repeat " "%char (4 * lvl).

(** [sep.join(items)] on character lists. *)
Fixpoint join (sep : list ascii) (items : list (list ascii)) : list ascii :=
  match items with
  | [] => []
  | [x] => x
  | x :: rest => x ++ sep ++ join sep rest
  end.

(** The encoder proper.  [inl o] is the [TypeError] raised at the first
    object [o], in iteration order, that JSON cannot carry (a tuple is
    written as an array). *)
Fixpoint dumps_at (lvl : nat) (v : value) {struct v} : value + list ascii :=
  match v with
  | VNone => inr (chars "null")
  | VBool true => inr (chars "true")
  | VBool false => inr (chars "false")
  | VInt n => inr (int_chars n)
  | VStr s => inr (encode_string s)
  | VList l | VTuple l =>
      match l with
      | [] => inr (chars "[]")
      | _ =>
          match
            (fix items (l : list value) : value + list (list ascii) :=
               match l with
               | [] => inr []
               | x :: l' =>
                   match dumps_at (S lvl) x with
                   | inl o => inl o
                   | inr x' =>
                       match items l' with
                       | inl o => inl o
                       | inr r => inr (x' :: r)
                       end
                   end
               end) l
          with
          | inl o => inl o
          | inr xs =>
              inr ("["%char :: newline_indent (S lvl)
                     ++ join (","%char :: newline_indent (S lvl)) xs
                     ++ newline_indent lvl ++ ["]"%char])
          end
      end
  | VDict d =>
      match d with
      | [] => inr (chars "{}")
      | _ =>
          match
            (fix members (d : pydict) : value + list (list ascii) :=
               match d with
               | [] => inr []
               | (k, x) :: d' =>
                   match dumps_at (S lvl) x with
                   | inl o => inl o
                   | inr x' =>
                       match members d' with
                       | inl o => inl o
                       | inr r =>
                           inr ((encode_string k ++ chars ": " ++ x') :: r)
                       end
                   end
               end) d
          with
          | inl o => inl o
          | inr xs =>
              inr ("{"%char :: newline_indent (S lvl)
                     ++ join (","%char :: newline_indent (S lvl)) xs
                     ++ newline_indent lvl ++ ["}"%char])
          end
      end
  | _ => inl v
  end.

(** [json.dumps(obj, indent=4)]. *)
Definition json_dumps (obj : value) : value + string :=
  match dumps_at 0 obj with
  | inl o => inl o
  | inr cs => inr (string_of_list_ascii cs)
  end.

Global Arguments json_dumps : simpl never.

(** *** The reader, [json.loads]

    A recursive-descent reader of the JSON grammar without fractions and
    exponents (a number with one of them is a float and is not read).
    [fuel] bounds the number of values and members read. *)

Definition is_ws (c : ascii) : bool :=
  let n := nat_of_ascii c in
  Nat.eqb n 32 || Nat.eqb n 10 || Nat.eqb n 13 || Nat.eqb n 9.

Fixpoint skip_ws (s : list ascii) : list ascii :=
  match s with
  | c :: s' => if is_ws c then skip_ws s' else s
  | [] => []
  end.

Definition digit_of (c : ascii) : option (Decimal.uint -> Decimal.uint) :=
  let n := nat_of_ascii c in
  if Nat.eqb n 48 then Some Decimal.D0 else if Nat.eqb n 49 then Some Decimal.D1
  else if Nat.eqb n 50 then Some Decimal.D2 else if Nat.eqb n 51 then Some Decimal.D3
  else if Nat.eqb n 52 then Some Decimal.D4 else if Nat.eqb n 53 then Some Decimal.D5
  else if Nat.eqb n 54 then Some Decimal.D6 else if Nat.eqb n 55 then Some Decimal.D7
  else if Nat.eqb n 56 then Some Decimal.D8 else if Nat.eqb n 57 then Some Decimal.D9
  else None.

(** The longest prefix of digits. *)
Fixpoint parse_uint (s : list ascii) : Decimal.uint * list ascii :=
  match s with
  | c :: s' =>
      match digit_of c with
      | Some d => let (u, rest) := parse_uint s' in (d u, rest)
      | None => (Decimal.Nil, s)
      end
  | [] => (Decimal.Nil, [])
  end.

(** A zero followed by further digits: not a JSON number. *)
Definition leading_zero (u : Decimal.uint) : bool :=
  match u with
  | Decimal.D0 Decimal.Nil => false
  | Decimal.D0 _ => true
  | _ => false
  end.

Definition parse_int (s : list ascii) : option (Z * list ascii) :=
  match s with
  | c :: s' =>
      if Ascii.eqb c "-"%char then
        match parse_uint s' with
        | (Decimal.Nil, _) => None
        | (u, rest) =>
            if leading_zero u then None
            else Some (Z.of_int (Decimal.Neg u), rest)
        end
      else
        match parse_uint s with
        | (Decimal.Nil, _) => None
        | (u, rest) =>
            if leading_zero u then None
            else Some (Z.of_int (Decimal.Pos u), rest)
        end
  | [] => None
  end.

Definition hex_value (c : ascii) : option nat :=
  let n := nat_of_ascii c in
  if Nat.leb 48 n && Nat.leb n 57 then Some (n - 48)
  else if Nat.leb 97 n && Nat.leb n 102 then Some (n - 87)
  else if Nat.leb 65 n && Nat.leb n 70 then Some (n - 55)
  else None.

(** The characters of a string literal after its opening quote, up to and
    past the closing quote.  A control character must come escaped. *)
Fixpoint parse_chars (s : list ascii) : option (list ascii * list ascii) :=
  match s with
  | [] => None
  | c :: s' =>
      if Ascii.eqb c dquote then Some ([], s')
      else if Ascii.eqb c backslash then
        match s' with
        | [] => None
        | e :: s'' =>
            let simple (x : ascii) :=
              match parse_chars s'' with
              | Some (cs, rest) => Some (x :: cs, rest)
              | None => None
              end in
            if Ascii.eqb e dquote then simple dquote
            else if Ascii.eqb e backslash then simple backslash
            else if Ascii.eqb e "/"%char then simple "/"%char
            else if Ascii.eqb e "n"%char then simple newline
            else if Ascii.eqb e "r"%char then simple (ascii_of_nat 13)
            else if Ascii.eqb e "t"%char then simple (ascii_of_nat 9)
            else if Ascii.eqb e "b"%char then simple (ascii_of_nat 8)
            else if Ascii.eqb e "f"%char then simple (ascii_of_nat 12)
            else if Ascii.eqb e "u"%char then
              match s'' with
              | h1 :: h2 :: h3 :: h4 :: s3 =>
                  match hex_value h1, hex_value h2, hex_value h3, hex_value h4 with
                  | Some a, Some b, Some c3, Some d =>
                      let n := ((a * 16 + b) * 16 + c3) * 16 + d in
                      if Nat.ltb n 256 then
                        match parse_chars s3 with
                        | Some (cs, rest) => Some (ascii_of_nat n :: cs, rest)
                        | None => None
                        end
                      else None
                  | _, _, _, _ => None
                  end
              | _ => None
              end
            else None
        end
      else if Nat.ltb (nat_of_ascii c) 32 then None
      else
        match parse_chars s' with
        | Some (cs, rest) => Some (c :: cs, rest)
        | None => None
        end
  end.

(** [s] with the literal [lit] taken off its front. *)
Fixpoint strip_prefix (lit s : list ascii) : option (list ascii) :=
  match lit, s with
  | [], _ => Some s
  | a :: lit', b :: s' => if Ascii.eqb a b then strip_prefix lit' s' else None
  | _ :: _, [] => None
  end.

(** A [dict] built from pairs in reading order: a repeated key keeps its
    first position and its last value. *)
Definition dict_of_pairs (kvs : pydict) : pydict :=
  fold_left (fun d kv => pydict_set d (fst kv) (snd kv)) kvs [].

Fixpoint parse_value (fuel : nat) (s : list ascii) {struct fuel}
    : option (value * list ascii) :=
  match fuel with
  | 0 => None
  | S fuel' =>
      match skip_ws s with
      | [] => None
      | c :: rest =>
          if Ascii.eqb c "n"%char then
            match strip_prefix (chars "ull") rest with
            | Some r => Some (VNone, r) | None => None end
          else if Ascii.eqb c "t"%char then
            match strip_prefix (chars "rue") rest with
            | Some r => Some (VBool true, r) | None => None end
          else if Ascii.eqb c "f"%char then
            match strip_prefix (chars "alse") rest with
            | Some r => Some (VBool false, r) | None => None end
          else if Ascii.eqb c dquote then
            match parse_chars rest with
            | Some (cs, r) => Some (VStr (string_of_list_ascii cs), r)
            | None => None
            end
          else if Ascii.eqb c "["%char then
            match skip_ws rest with
            | c' :: r' =>
                if Ascii.eqb c' "]"%char then Some (VList [], r')
                else
                  match parse_elems fuel' rest with
                  | Some (vs, r) => Some (VList vs, r)
                  | None => None
                  end
            | [] => None
            end
          else if Ascii.eqb c "{"%char then
            match skip_ws rest with
            | c' :: r' =>
                if Ascii.eqb c' "}"%char then Some (VDict [], r')
                else
                  match parse_members fuel' rest with
                  | Some (kvs, r) => Some (VDict (dict_of_pairs kvs), r)
                  | None => None
                  end
            | [] => None
            end
          else
            match parse_int (c :: rest) with
            | Some (n, r) => Some (VInt n, r)
            | None => None
            end
      end
  end
with parse_elems (fuel : nat) (s : list ascii) {struct fuel}
    : option (list value * list ascii) :=
  match fuel with
  | 0 => None
  | S fuel' =>
      match parse_value fuel' s with
      | None => None
      | Some (v, r) =>
          match skip_ws r with
          | c :: r' =>
              if Ascii.eqb c ","%char then
                match parse_elems fuel' r' with
                | Some (vs, r'') => Some (v :: vs, r'')
                | None => None
                end
              else if Ascii.eqb c "]"%char then Some ([v], r')
              else None
          | [] => None
          end
      end
  end
with parse_members (fuel : nat) (s : list ascii) {struct fuel}
    : option (pydict * list ascii) :=
  match fuel with
  | 0 => None
  | S fuel' =>
      match skip_ws s with
      | q :: s1 =>
          if Ascii.eqb q dquote then
            match parse_chars s1 with
            | None => None
            | Some (k, s2) =>
                match skip_ws s2 with
                | c :: s3 =>
                    if Ascii.eqb c ":"%char then
                      match parse_value fuel' s3 with
                      | None => None
                      | Some (v, r) =>
                          match skip_ws r with
                          | c' :: r' =>
                              if Ascii.eqb c' ","%char then
                                match parse_members fuel' r' with
                                | Some (kvs, r'') =>
                                    Some ((string_of_list_ascii k, v) :: kvs, r'')
                                | None => None
                                end
                              else if Ascii.eqb c' "}"%char then
                                Some ([(string_of_list_ascii k, v)], r')
                              else None
                          | [] => None
                          end
                      end
                    else None
                | [] => None
                end
            end
          else None
      | [] => None
      end
  end.


(** The values that JSON carries as they are: [None], booleans, integers,
    strings, lists, and dicts whose keys are pairwise distinct (as the keys of
    a Python [dict] are). *)
Fixpoint distinct_keys (ks : list string) : bool :=
  match ks with
  | [] => true
  | k :: ks' => negb (existsb (String.eqb k) ks') && distinct_keys ks'
  end.

Fixpoint json_native (v : value) : bool :=
  match v with
  | VNone | VBool _ | VInt _ | VStr _ => true
  | VList l => forallb json_native l
  | VDict d =>
      distinct_keys (map fst d)
      && (fix all (d : pydict) : bool :=
            match d with
            | [] => true
            | (_, x) :: d' => json_native x && all d'
            end) d
  | _ => false
  end.

(** ** [InterfaceVertex] *)

(** [obj.attr = v], giving the object after the assignment.  The assignment
    mutates a shared object; the embedding follows the one reference the
    method goes through (the entry of the result store). *)
Definition py_setattr (obj : value) (attr : string) (v : value) : M value :=
  match obj with
  | VRecord text data extra =>
      if String.eqb attr "text" then ret (VRecord v data extra)
      else if String.eqb attr "data" then ret (VRecord text v extra)
      else ret (VRecord text data (pydict_set extra attr v))
  | VObject attrs => ret (VObject (pydict_set attrs attr v))
  | _ => raise (AttributeError obj attr)
  end.

(** [d[k]] *)
Definition py_getitem (d : pydict) (k : string) : M value :=
  match pydict_get d k with
  | Some v => ret v
  | None => raise (KeyError k)
  end.

(** [for x in obj]: the elements a [for] walks over. *)
Definition py_iter (obj : value) : M (list value) :=
  match obj with
  | VList l | VTuple l => ret l
  | VStr s => ret (map (fun c => VStr (String c EmptyString)) (chars s))
  | VDict d => ret (map (fun kv => VStr (fst kv)) d)
  | VIter _ items => ret items
  | _ => raise (TypeError [FmtType obj; Lit " object is not iterable"])
  end.

Definition is_VNone (v : value) : bool :=
  match v with VNone => true | _ => false end.

(** Modelled from the spec: [ChatOutputResponse] of [langflow.utils.schemas]
    (not part of this file), the artifact envelope
    [{message, sender, sender_name, stream_url, files, type}]; a field the
    constructor is not given is null. *)
Record ChatOutputResponse := {
  message : value;
  sender : value;
  sender_name : value;
  stream_url : value;
  files : value;
  type : value
}.

(** [model_dump(exclude_none=...)]: the fields as a dict in declaration
    order, those holding [None] dropped on request. *)
Definition model_dump (exclude_none : bool) (r : ChatOutputResponse) : value :=
  let fields :=
    [("message", message r); ("sender", sender r);
     ("sender_name", sender_name r); ("stream_url", stream_url r);
     ("files", files r); ("type", type r)] in
  VDict (if exclude_none
         then List.filter (fun kv => negb (is_VNone (snd kv))) fields
         else fields).

(** [InterfaceVertex.build_stream_url]. *)
Definition build_stream_url (self : Vertex) : string :=
  "/api/v1/build/" +:+ flow_id (graph self) +:+ "/" +:+ vertex_id self
    +:+ "/stream".

(** [[{"path": file} if isinstance(file, str) else file
      for file in self.params.get("files", [])]] *)
Definition chat_files (self : Vertex) : M value :=
  items <- py_iter (params_get (params self) "files" (VList [])) ;;
  ret (VList (map (fun file =>
                     match file with
                     | VStr _ => VDict [("path", file)]
                     | _ => file
                     end) items)).

(** A method of the base class [Vertex], whose body is not in this file: it
    may raise or change the vertex; it is not a generator and the monitor
    hooks are not its business. *)
Definition call (method : Vertex -> exn + Vertex) : M unit := fun self =>
  match method self with
  | inl e => Outcome (inl e) self []
  | inr self' => Outcome (inr tt) self' []
  end.

Definition is_iterable (obj : value) : bool :=
  match obj with
  | VList _ | VTuple _ | VStr _ | VDict _ | VIter _ _ => true
  | _ => false
  end.

Definition is_iterator (obj : value) : bool :=
  match obj with VIter _ _ => true | _ => false end.

Definition is_AIMessage (obj : value) : bool :=
  match obj with VAIMessage _ _ => true | _ => false end.

Definition is_UnbuiltObject (obj : value) : bool :=
  match obj with VUnbuilt => true | _ => false end.

Definition is_str (v : value) : bool :=
  match v with VStr _ => true | _ => false end.

(** [Record(text=..., data=...)] of [langflow.schema] (the class is not part
    of this file).  The constructor takes the dict it is given as the raw
    data and writes the text into it under [text], unless the dict has such
    an entry already; the dict is the caller's, so the caller sees the new
    entry.  With no data or empty data the record gets a dict of its own.
    The record reads its text from that entry.  The result is the record and
    the data the caller holds after the call; data that is neither empty nor
    a dict cannot take the entry. *)
Definition Record_init (text data : value) : M (value * value) :=
  match data with
  | VDict (kv :: d) =>
      let d' :=
        match pydict_get (kv :: d) "text" with
        | Some _ => kv :: d
        | None => pydict_set (kv :: d) "text" text
        end in
      ret (VRecord (default text (pydict_get d' "text")) (VDict d') [],
           VDict d')
  | _ =>
      if py_truthy data then
        raise (TypeError [FmtType data;
                          Lit " object does not support item assignment"])
      else ret (VRecord text (VDict [("text", text)]) [], data)
  end.

Section Interface.

(** What [types.py] imports from the rest of the package and from Python:
    the name of the input field, [unescape_string], the built-in [str],
    [ChatOutputResponse.from_message], [serialize_field], and the two
    methods of the base [Vertex] that [stream] calls. *)
Variable INPUT_FIELD_NAME : string.
Variable unescape_string : string -> string.
Variable py_str : value -> string.
Variable from_message : value -> value -> value -> ChatOutputResponse.
Variable serialize_field : value -> value.
Variable _finalize_build : Vertex -> exn + Vertex.
Variable _validate_built_object : Vertex -> exn + Vertex.

(** [dict_to_codeblock]. *)
Definition dict_to_codeblock (d : pydict) : M string :=
  let serialized :=
    dict_of_pairs (map (fun kv => (fst kv, serialize_field (snd kv))) d) in
  match json_dumps (VDict serialized) with
  | inl o =>
      raise (TypeError [Lit "Object of type "; FmtType o;
                        Lit " is not JSON serializable"])
  | inr json_str =>
      ret ("```json" +:+ String newline json_str +:+ String newline "```")
  end.

(** The streaming sub-case of the chat path (the branch
    [elif isinstance(message, (AsyncIterator, Iterator))]). *)
Definition chat_stream_case : M (value * value) :=
  self <- get_self ;;
  let stream_url := build_stream_url self in
  let message := VStr "" in
  modify (fun v => set_results (pydict_set (results v) "message" message) v) ;;;
  self <- get_self ;;
  record <- py_getitem (results self) "record" ;;
  record' <- py_setattr record "message" message ;;
  modify (fun v => set_results (pydict_set (results v) "record" record') v) ;;;
  modify (fun v => set_built_object (VDict (results v)) v) ;;;
  ret (message, VStr stream_url).

(** The message and the stream URL by the shape of the text result: the
    chain [if isinstance(text_output, dict) ... elif ... else] inside
    [_process_chat_component]. *)
Definition chat_message_case (message text_output : value)
    : M (value * value) :=
  match text_output with
  | VDict d => block <- dict_to_codeblock d ;; ret (VStr block, VNone)
  | VRecord text _ _ => ret (text, VNone)
  | _ =>
      if is_iterator message then chat_stream_case
      else if negb (is_str text_output) then
        ret (VStr (py_str text_output), VNone)
      else ret (text_output, VNone)
  end.

(** [InterfaceVertex._process_chat_component]. *)
Definition _process_chat_component : M value :=
self <- get_self ;;
let sender := params_get (params self) "sender" VNone in
let sender_name := params_get (params self) "sender_name" VNone in
let message := params_get (params self) INPUT_FIELD_NAME VNone in
files <- chat_files self ;;
let message :=
  match message with
  | VStr s => VStr (unescape_string s)
  | _ => message
  end in
text_output <- py_getitem (results self) "message" ;;
r <-
  (if is_AIMessage text_output then
     ret (Some (from_message text_output sender sender_name), message)
   else if negb (is_UnbuiltObject text_output) then
     ms <- chat_message_case message text_output ;;
     let message := fst ms in
     let stream_url := snd ms in
     let artifact_type := if is_VNone stream_url then OBJECT else STREAM in
     let artifacts :=
       {| message := message; sender := sender;
          sender_name := sender_name; stream_url := stream_url;
          files := files; type := VArtifactType artifact_type |} in
     modify (set_will_stream (negb (is_VNone stream_url))) ;;;
     ret (Some artifacts, message)
   else ret (None, message)) ;;
match fst r with
| Some artifacts => modify (set_artifacts (model_dump true artifacts))
| None => ret tt
end ;;;
ret (snd r).

(** The text of one chunk, as the two probes of the loop body compute it. *)
Definition chunk_text (chunk : value) : value :=
  let message := chunk in
  let message :=
    if py_hasattr message "content"
    then default message (py_getattr message "content") else message in
  let message :=
    if py_hasattr message "text"
    then default message (py_getattr message "text") else message in
  message.

(** The loop of [stream] (the same body for [async for] and [for]):
    yield the chunk's text, then [complete_message += message]. *)
Fixpoint stream_loop (items : list value) (complete_message : string)
    : M string :=
  match items with
  | [] => ret complete_message
  | chunk :: rest =>
      let message := chunk_text chunk in
      emit (Yield message) ;;;
      match message with
      | VStr s => stream_loop rest (complete_message +:+ s)
      | _ =>
          raise (TypeError [Lit "can only concatenate str (not ";
                            FmtType message; Lit ") to str"])
      end
  end.

(** [log_vertex_build(flow_id=..., vertex_id=..., valid=True, params=...,
    data=..., artifacts=self.artifacts)]; the record keeps the identity,
    the validity and the artifacts. *)
Definition log_vertex_build (self : Vertex) : M unit :=
  emit (LogVertexBuild (flow_id (graph self)) (vertex_id self) true
          (artifacts self)).

(** The first half of [stream]: drain the iterator, then store the envelope
    ([ChatOutputResponse(...).model_dump()], no [stream_url] given), the input
    field, the built object and the built result.  [ArtifactType.OBJECT.value]
    is the member [OBJECT] as the envelope's [type].  The record is made of
    the stored envelope itself, [Record(..., data=self.artifacts)], so the
    entry the constructor writes shows in the artifacts. *)
Definition stream_store (is_async : bool) (items : list value) : M string :=
  complete_message <-
    (if is_async then stream_loop items "" else stream_loop items "") ;;
  self <- get_self ;;
  files <- chat_files self ;;
  let arts :=
    model_dump false
      {| message := VStr complete_message;
         sender := params_get (params self) "sender" (VStr "");
         sender_name := params_get (params self) "sender_name" (VStr "");
         stream_url := VNone;
         files := files;
         type := VArtifactType OBJECT |} in
  modify (set_artifacts arts) ;;;
  modify (fun v =>
            set_params (<[INPUT_FIELD_NAME := VStr complete_message]>
                          (params v)) v) ;;;
  self <- get_self ;;
  record <- Record_init (VStr complete_message) (artifacts self) ;;
  modify (set_artifacts (snd record)) ;;;
  modify (set_built_object (fst record)) ;;;
  modify (set_built_result (VStr complete_message)) ;;;
  ret complete_message.

(** The second half of [stream]: finalize, log, validate, mark built. *)
Definition stream_finish (complete_message : string) : M unit :=
  call _finalize_build ;;;
  emit (LoggerDebug [Lit "Streamed message: "; Lit complete_message]) ;;;
  self <- get_self ;;
  log_vertex_build self ;;;
  call _validate_built_object ;;;
  modify (set_built true).

(** [InterfaceVertex.stream], run to exhaustion. *)
Definition stream : M unit :=
  self <- get_self ;;
  let iterator := params_get (params self) INPUT_FIELD_NAME VNone in
  match iterator with
  | VIter is_async items =>
      complete_message <- stream_store is_async items ;;
      stream_finish complete_message
  | _ =>
      raise (ValueError
               [Lit "The message must be an iterator or an async iterator."])
  end.

End Interface.

(** ** Vocabulary of the core properties *)

(** The errors of [_get_result], by the check that raises them. *)

Definition not_built_error (self : Vertex) : exn :=
  ValueError [Lit "Component "; Lit (display_name self);
              Lit " has not been built yet"].

Definition no_requester_error : exn :=
  ValueError [Lit "Requester Vertex is None"].

Definition no_edge_error (self req : Vertex) : exn :=
  ValueError [Lit "Edge not found between "; Lit (display_name self);
              Lit " and "; Lit (display_name req)].

Definition no_result_error (self : Vertex) (edge : ContractEdge) : exn :=
  ValueError [Lit "Result not found for "; Lit (name (source_handle edge));
              Lit ". Results: "; Fmt (VDict (results self))].

(** The result store after [add_result] for every pair of [kvs], in order. *)
Definition store_all (kvs : pydict) (store : pydict) : pydict :=
  fold_left (fun r kv => pydict_set r (fst kv) (snd kv)) kvs store.

Definition is_tuple (v : value) : bool :=
  match v with VTuple _ => true | _ => false end.

Definition is_dict (v : value) : bool :=
  match v with VDict _ => true | _ => false end.

Definition is_list (v : value) : bool :=
  match v with VList _ => true | _ => false end.

(** The message of the record path for an element that is not a [Record]. *)
Definition record_expected (record : value) : list fpart :=
  [Lit "Record expected, but got "; Fmt record; Lit " of type ";
   FmtType record].

(** ** Vocabulary of the interface properties *)

(** The values a generator yielded, in order. *)
Definition yields (t : list event) : list value :=
  omap (fun e => match e with Yield v => Some v | _ => None end) t.

(** The text of a chunk in the words of the specification: its [content]
    facet if it has one, else its [text] facet, else the chunk itself. *)
Definition preferred_text (chunk : value) : value :=
  match py_getattr chunk "content" with
  | Some content => content
  | None =>
      match py_getattr chunk "text" with
      | Some text => text
      | None => chunk
      end
  end.

(** What [stream] needs of [_finalize_build] and [_validate_built_object] of
    the base class: on a vertex whose built object is a record they return,
    and they leave the artifacts, the parameters and the built object alone. *)
Definition keeps_record_build (method : Vertex -> exn + Vertex) : Prop :=
  forall v, is_Record (_built_object v) = true ->
    exists v', method v = inr v'
      /\ artifacts v' = artifacts v
      /\ params v' = params v
      /\ _built_object v' = _built_object v.

(** The text result is none of the shapes the chat path treats before the
    streaming sub-case: a chat message, the unbuilt placeholder, a mapping, a
    record. *)
Definition plain_text_output (text_output : value) : bool :=
  match text_output with
  | VAIMessage _ _ | VUnbuilt | VDict _ | VRecord _ _ _ => false
  | _ => true
  end.

(** Objects that take a new attribute: records and plain objects. *)
Definition takes_attributes (obj : value) : bool :=
  match obj with VRecord _ _ _ | VObject _ => true | _ => false end.

(** The envelope is a dict none of whose fields holds [None]. *)
Definition no_null_fields (envelope : value) : bool :=
  match envelope with
  | VDict d => forallb (fun kv => negb (is_VNone (snd kv))) d
  | _ => false
  end.

(** [""].join(texts)]: the texts one after the other. *)
Definition concat_texts (texts : list string) : string :=
  fold_right String.append "" texts.

(** The envelope [stream] dumps when it has drained the stream, and the
    envelope as it is stored once the record has been made of it. *)
Definition stream_envelope (self : Vertex) (complete_message : string)
    (files : list value) : pydict :=
  [("message", VStr complete_message);
   ("sender", params_get (params self) "sender" (VStr ""));
   ("sender_name", params_get (params self) "sender_name" (VStr ""));
   ("stream_url", VNone);
   ("files", VList files);
   ("type", VArtifactType OBJECT)].

Definition stored_envelope (self : Vertex) (complete_message : string)
    (files : list value) : pydict :=
  stream_envelope self complete_message files
    ++ [("text", VStr complete_message)].

(** The [text] entry of artifacts that are a mapping. *)
Definition pydict_get_text (arts : value) : option value :=
  match arts with
  | VDict d => pydict_get d "text"
  | _ => None
  end.

(** ** Vocabulary of the JSON round trip *)

(** Nothing follows, or what follows is not a digit: a number ends here. *)
Definition number_ends (rest : list ascii) : Prop :=
  match rest with
  | [] => True
  | c :: _ => digit_of c = None
  end.

(** The fuel the reader needs for a value: one unit per value and per
    member. *)
Fixpoint jsize (v : value) : nat :=
  match v with
  | VList l =>
      S ((fix sum (l : list value) : nat :=
            match l with
            | [] => 0
            | x :: l' => S (jsize x + sum l')
            end) l)
  | VDict d =>
      S ((fix sum (d : pydict) : nat :=
            match d with
            | [] => 0
            | (_, x) :: d' => S (jsize x + sum d')
            end) d)
  | _ => 1
  end.

Definition elems_size (l : list value) : nat :=
  fold_right (fun x n => S (jsize x + n)) 0 l.

Definition members_size (d : pydict) : nat :=
  fold_right (fun kv n => S (jsize (snd kv) + n)) 0 d.

(** The texts of the elements of a list, and of the members of a dict, one
    nesting level down: what the two inner loops of [dumps_at] compute. *)
Fixpoint dumps_items (lvl : nat) (l : list value) : value + list (list ascii) :=
  match l with
  | [] => inr []
  | x :: l' =>
      match dumps_at (S lvl) x with
      | inl o => inl o
      | inr x' =>
          match dumps_items lvl l' with
          | inl o => inl o
          | inr r => inr (x' :: r)
          end
      end
  end.

Fixpoint dumps_members (lvl : nat) (d : pydict) : value + list (list ascii) :=
  match d with
  | [] => inr []
  | (k, x) :: d' =>
      match dumps_at (S lvl) x with
      | inl o => inl o
      | inr x' =>
          match dumps_members lvl d' with
          | inl o => inl o
          | inr r => inr ((encode_string k ++ chars ": " ++ x') :: r)
          end
      end
  end.

(** The text of a value starts with a character that is neither white space
    nor a closing bracket. *)
Definition starts_value (out : list ascii) : Prop :=
  match out with
  | c :: _ => is_ws c = false /\ Ascii.eqb c "]"%char = false
  | [] => False
  end.

(** A value written at any nesting level is read back, whatever follows it
    that does not continue a number; the fuel [jsize] is enough and is no more
    than the length of the text. *)
Definition reads_back (v : value) : Prop :=
  forall lvl, exists out,
    dumps_at lvl v = inr out
    /\ starts_value out
    /\ jsize v <= length out
    /\ forall fuel rest,
         jsize v <= fuel -> number_ends rest ->
         parse_value fuel (out ++ rest) = Some (v, rest).

(** The separator between two items one level below [lvl]. *)
Definition item_separator (lvl : nat) : list ascii :=
  ","%char :: newline_indent (S lvl).


(** ** Sample graphs and vertices *)

Definition sample_graph : Graph :=
  {| flow_id := "flow-1";
     successor_map := {[ "A" := ["B"; "C"] ]};
     activated_vertices := ["C"; "D"] |}.

(** A vertex that has not been built and holds nothing. *)
Definition blank_vertex (vid : string) : Vertex :=
  {| vertex_id := vid; display_name := vid; graph := sample_graph;
     edges := []; _built := false; params := ∅; results := [];
     artifacts := VNone; _built_object := VUnbuilt; _built_result := VNone;
     _custom_component := VNone; will_stream := false |}.

Definition edge_to (target handle : string) : ContractEdge :=
  {| target_id := target; source_handle := {| name := handle |} |}.

(** Vertex [A], built, with the result [42] on handle [out], an edge from
    [out] to [B] and an edge from the empty handle [gone] to [C]. *)
Definition producer : Vertex :=
  {| vertex_id := "A"; display_name := "Producer"; graph := sample_graph;
     edges := [edge_to "B" "out"; edge_to "C" "gone"; edge_to "B" "other"];
     _built := true; params := ∅; results := [("out", VInt 42)];
     artifacts := VNone; _built_object := VDict [("out", VInt 42)];
     _built_result := VNone; _custom_component := VNone;
     will_stream := false |}.

(** Vertex [A] before its build. *)
Definition producer_unbuilt : Vertex := set_built false producer.

Definition two_outputs : pydict := [("a", VInt 1); ("b", VInt 2)].

Definition record_one : value := VRecord (VStr "one") (VDict [("n", VInt 1)]) [].
Definition record_two : value := VRecord (VStr "two") (VDict [("n", VInt 2)]) [].

(** A vertex whose built object is a list of two records around a string. *)
Definition mixed_list : list value := [record_one; VStr "stray"; record_two].

Definition records_vertex (ignore_errors : option value) : Vertex :=
  let v := set_built_object (VList mixed_list) (blank_vertex "R") in
  match ignore_errors with
  | Some flag => set_params {[ "ignore_errors" := flag ]} v
  | None => v
  end.

(** Stand-ins for the collaborators of [InterfaceVertex], to run it on
    examples. *)
Definition sample_input_field : string := "input_value".
Definition sample_unescape (s : string) : string := s.
Definition sample_str (v : value) : string :=
  match v with
  | VStr s => s
  | VInt n => string_of_list_ascii (int_chars n)
  | _ => "<object>"
  end.
Definition sample_from_message (msg sender sender_name : value)
    : ChatOutputResponse :=
  {| message := default VNone (py_getattr msg "content"); sender := sender;
     sender_name := sender_name; stream_url := VNone; files := VList [];
     type := VArtifactType OBJECT |}.
(** [serialize_field] of [langflow.graph.utils] on the values of the
    examples: a list or tuple is serialized element by element into a list, a
    string is wrapped as [{"result": s}], and [None], booleans, integers,
    mappings and objects of other classes are handed back as they are. *)
Fixpoint sample_serialize (v : value) : value :=
  match v with
  | VList l | VTuple l => VList (map sample_serialize l)
  | VStr s => VDict [("result", VStr s)]
  | _ => v
  end.
Definition sample_hook (v : Vertex) : exn + Vertex := inr v.

Definition hello_world : list value := [VStr "Hello "; VStr "world"].

(** A chat vertex whose input field is a stream of two chunks and whose
    component handed the stream itself on as its message. *)
Definition streaming_vertex : Vertex :=
  {| vertex_id := "chat-1"; display_name := "Chat Output";
     graph := sample_graph; edges := []; _built := false;
     params := {[ sample_input_field := VIter false hello_world;
                  "sender" := VStr "Machine";
                  "files" := VList [VStr "a.txt"] ]};
     results := [("message", VIter false hello_world);
                 ("record", VRecord (VStr "") (VDict []) [])];
     artifacts := VNone; _built_object := VUnbuilt; _built_result := VNone;
     _custom_component := VNone; will_stream := false |}.

(** A vertex whose input field is a plain string, not a stream. *)
Definition plain_vertex : Vertex :=
  set_params {[ sample_input_field := VStr "hello" ]} (blank_vertex "chat-2").

(** Chunks as a model emits them: a message chunk, an object with a [text]
    facet, a bare string. *)
Definition mixed_chunks : list value :=
  [VAIMessage true (VStr "Hel"); VObject [("text", VStr "lo ")]; VStr "world"].

Definition mixed_stream_vertex : Vertex :=
  set_params {[ sample_input_field := VIter true mixed_chunks ]}
    (blank_vertex "chat-3").



(** A component's outputs for the handles [out] and [other]. *)
Definition fresh_outputs : pydict := [("out", VInt 7); ("other", VInt 8)].

(** A chat vertex whose component answered with a plain string, and the same
    vertex while its component awaits its build. *)
Definition answered_vertex : Vertex :=
  set_results [("message", VStr "hi")] plain_vertex.

Definition waiting_vertex : Vertex :=
  set_results [("message", VUnbuilt)] plain_vertex.

(** Stand-ins for the component kinds and for [Vertex._run]. *)
Definition sample_chat_components : list string := ["ChatInput"; "ChatOutput"].
Definition sample_records_components : list string := ["RecordsOutput"].

(** The answered chat vertex with a stream as its built object, asked for a
    record or not. *)
Definition answered_stream_build (return_record : bool) : Vertex :=
  set_params
    {[ sample_input_field := VStr "hello";
       "return_record" := VBool return_record ]}
    (set_built_object (VIter false hello_world) answered_vertex).

(** A stream whose second chunk is a message chunk with a list as content,
    and a stream of one message chunk whose content has a text of its own. *)
Definition list_content_chunks : list value :=
  [VStr "Hello "; VAIMessage true (VList [VStr "world"]); VStr "!"].

Definition list_content_vertex : Vertex :=
  set_params {[ sample_input_field := VIter false list_content_chunks ]}
    (blank_vertex "chat-5").

Definition nested_text_chunk : value :=
  VAIMessage true (VObject [("text", VStr "inner")]).

Definition nested_text_vertex : Vertex :=
  set_params {[ sample_input_field := VIter false [nested_text_chunk] ]}
    (blank_vertex "chat-6").





(** ** The remaining methods of [types.py] *)

(** [key in container], for a [str] key.  A dict tests its keys, a string
    tests for a substring, a list or tuple and an iterator test their
    elements; the pydantic models ([Record], the message classes,
    [RecordOutputResponse]) iterate as (field, value) pairs, none of which
    equals a string; an object of a plain class has no [in]. *)
Fixpoint is_prefix (p s : string) : bool :=
  match p, s with
  | EmptyString, _ => true
  | String a p', String b s' => Ascii.eqb a b && is_prefix p' s'
  | String _ _, EmptyString => false
  end.

Fixpoint is_substring (p s : string) : bool :=
  is_prefix p s
  || match s with
     | EmptyString => false
     | String _ s' => is_substring p s'
     end.

Definition is_the_str (key : string) (v : value) : bool :=
  match v with VStr s => String.eqb s key | _ => false end.

Definition py_contains (key : string) (container : value) : M bool :=
  match container with
  | VDict d => ret (existsb (String.eqb key) (map fst d))
  | VStr s => ret (is_substring key s)
  | VList l | VTuple l | VIter _ l => ret (existsb (is_the_str key) l)
  | VAIMessage _ _ | VRecord _ _ _ | VRecordOutputResponse _ => ret false
  | _ => raise (TypeError [Lit "argument of type "; FmtType container;
                           Lit " is not iterable"])
  end.

(** [container[key]], for a [str] key. *)
Definition py_subscript (container : value) (key : string) : M value :=
  match container with
  | VDict d => py_getitem d key
  | _ => raise (TypeError [FmtType container; Lit " is not subscriptable by ";
                           Fmt (VStr key)])
  end.

(** [CustomComponentVertex._built_object_repr],
    [ComponentVertex._built_object_repr] and [StateVertex._built_object_repr]
    (the same body); [super_repr] is the method of the base class.  Falling
    off the end of the body returns [None]. *)
Definition _built_object_repr (super_repr : Vertex -> exn + value) : M value :=
  self <- get_self ;;
  if py_truthy (artifacts self) then
    has_repr <- py_contains "repr" (artifacts self) ;;
    if has_repr then
      repr <- py_subscript (artifacts self) "repr" ;;
      if py_truthy repr then ret repr
      else
        match super_repr self with
        | inl e => raise e
        | inr r => ret r
        end
    else ret VNone
  else ret VNone.

Section InterfaceRun.

Variable INPUT_FIELD_NAME : string.
Variable unescape_string : string -> string.
Variable py_str : value -> string.
Variable from_message : value -> value -> value -> ChatOutputResponse.
Variable serialize_field : value -> value.
Variable _finalize_build : Vertex -> exn + Vertex.
Variable _validate_built_object : Vertex -> exn + Vertex.

(** [CHAT_COMPONENTS] and [RECORDS_COMPONENTS] of [langflow.graph.schema],
    and [Vertex._run] of the base class. *)
Variable CHAT_COMPONENTS : list string.
Variable RECORDS_COMPONENTS : list string.
Variable super_run : Vertex -> exn + Vertex.

(** [InterfaceVertex._run].  [is_interface_component] and [vertex_type] are
    attributes of the vertex that this file only reads.  The local [message]
    is bound in the two dispatch branches only; [None] is the unbound
    local.  The record is made of the artifacts themselves,
    [Record(text=message, data=self.artifacts)]: what the constructor writes
    into its data shows in the artifacts. *)
Definition _run (is_interface_component : bool) (vertex_type : string)
    : M unit :=
  if is_interface_component then
    message <-
      (if existsb (String.eqb vertex_type) CHAT_COMPONENTS then
         m <- _process_chat_component INPUT_FIELD_NAME unescape_string py_str
                from_message serialize_field ;;
         ret (Some m)
       else if existsb (String.eqb vertex_type) RECORDS_COMPONENTS then
         m <- _process_record_component ;;
         ret (Some m)
       else ret None) ;;
    self <- get_self ;;
    (if is_iterator (_built_object self) then
       if py_truthy (params_get (params self) "return_record" (VBool false))
       then
         match message with
         | None => raise (UnboundLocalError "message")
         | Some m =>
             self <- get_self ;;
             record <- Record_init m (artifacts self) ;;
             modify (set_artifacts (snd record)) ;;;
             modify (set_built_object (fst record))
         end
       else
         match message with
         | None => raise (UnboundLocalError "message")
         | Some m => modify (set_built_object m)
         end
     else ret tt) ;;;
    modify (fun v => set_built_result (_built_object v) v)
  else call super_run.

(** [InterfaceVertex.consume_async_generator]: the loop
    [async for _ in self.stream(): pass] runs the generator to its end and
    drops what it yields. *)
Definition consume_async_generator : M unit := fun self =>
  let o := stream INPUT_FIELD_NAME _finalize_build _validate_built_object self in
  Outcome (res o) (final o)
    (List.filter (fun e => match e with Yield _ => false | _ => true end)
       (trace o)).

End InterfaceRun.

(** ** Vocabulary of the chat path *)

(** The message parameter as [_process_chat_component] reads it: the input
    field, unescaped when it is a string, [None] when it is unset. *)
Definition input_message (INPUT_FIELD_NAME : string)
    (unescape_string : string -> string) (self : Vertex) : value :=
  let message := params_get (params self) INPUT_FIELD_NAME VNone in
  match message with
  | VStr s => VStr (unescape_string s)
  | _ => message
  end.

(** The message of a text result that is no mapping and no record: the
    string itself, or [str] of anything else. *)
Definition text_of (py_str : value -> string) (text_output : value) : value :=
  if is_str text_output then text_output else VStr (py_str text_output).

(** The text result makes the chat path build an envelope of its own: it is
    neither a chat message nor the unbuilt placeholder. *)
Definition builds_envelope (text_output : value) : bool :=
  negb (is_AIMessage text_output) && negb (is_UnbuiltObject text_output).

(** A value [json.dumps] has no encoding for: none of [None], a boolean, an
    integer, a string, a list, a tuple, a mapping. *)
Definition has_no_json_form (v : value) : bool :=
  match v with
  | VNone | VBool _ | VInt _ | VStr _ | VList _ | VTuple _ | VDict _ => false
  | _ => true
  end.

(** The error of [json.dumps] at the object [o]. *)
Definition not_serializable_error (o : value) : exn :=
  TypeError [Lit "Object of type "; FmtType o;
             Lit " is not JSON serializable"].

(** * Properties *)

(** ** The monad *)

Lemma bind_ret_l {A B} (a : A) (k : A -> M B) (self : Vertex) :
  bind (ret a) k self = k a self.
Proof. unfold bind, ret; simpl. by destruct (k a self). Qed.

Lemma bind_raise {A B} (e : exn) (k : A -> M B) (self : Vertex) :
  bind (raise e) k self = Outcome (inl e) self [].
Proof. reflexivity. Qed.

(** ** The parameter bag *)

Lemma params_get_Some (p : gmap string value) (k : string) (dflt v : value) :
  p !! k = Some v -> params_get p k dflt = v.
Proof. unfold params_get. by intros ->. Qed.


(** ** Insertion-ordered dicts *)

Lemma pydict_get_set_eq (d : pydict) (k : string) (v : value) :
  pydict_get (pydict_set d k v) k = Some v.
Proof.
  induction d as [|[k' v'] d IH]; simpl.
  - by rewrite String.eqb_refl.
  - destruct (String.eqb k' k) eqn:E; simpl; rewrite E; auto.
Qed.

Lemma pydict_get_set_ne (d : pydict) (k k' : string) (v : value) :
  k <> k' -> pydict_get (pydict_set d k v) k' = pydict_get d k'.
Proof.
  intros Hne. induction d as [|[k0 v0] d IH]; simpl.
  - destruct (String.eqb k k') eqn:E; auto.
    apply String.eqb_eq in E. contradiction.
  - destruct (String.eqb k0 k) eqn:E; simpl.
    + apply String.eqb_eq in E. subst k0.
      destruct (String.eqb k k') eqn:E'; auto.
      apply String.eqb_eq in E'. contradiction.
    + destruct (String.eqb k0 k'); auto.
Qed.

Lemma pydict_get_None_notin (d : pydict) (k : string) :
  pydict_get d k = None <-> ~ In k (map fst d).
Proof.
  induction d as [|[k' v'] d IH]; simpl.
  - tauto.
  - destruct (String.eqb k' k) eqn:E.
    + apply String.eqb_eq in E. split; [discriminate | tauto].
    + apply String.eqb_neq in E. rewrite IH. tauto.
Qed.

Lemma distinct_keys_NoDup (ks : list string) :
  distinct_keys ks = true -> List.NoDup ks.
Proof.
  induction ks as [|k ks IH]; simpl; intros H.
  - constructor.
  - apply andb_prop in H as [Hk Hks]. constructor; [|by apply IH].
    intros Hin. apply negb_true_iff in Hk.
    assert (existsb (String.eqb k) ks = true) as Habs; [|congruence].
    apply existsb_exists. exists k. split; [done|apply String.eqb_refl].
Qed.

(** ** [StateVertex.successors_ids] *)

(** C9: the successors of a state vertex are the structural successors
    ([successor_map.get(id, [])]) in their order, followed by the activated
    vertex ids; nothing is removed, so an id is listed as many times as it
    occurs in the two lists together. *)
Theorem successors_ids_structural_then_activated (self : Vertex) :
  let structural := default [] (successor_map (graph self) !! vertex_id self) in
  let activated := activated_vertices (graph self) in
  successors_ids self = structural ++ activated
  /\ take (length structural) (successors_ids self) = structural
  /\ drop (length structural) (successors_ids self) = activated
  /\ forall x,
       count_occ string_dec (successors_ids self) x
       = count_occ string_dec structural x + count_occ string_dec activated x.
Proof.
  intros structural activated. unfold successors_ids.
  fold structural activated. repeat split.
  - by rewrite take_app_length.
  - by rewrite drop_app_length.
  - intros x. apply count_occ_app.
Qed.

Example successors_ids_keeps_duplicates :
  successors_ids (blank_vertex "A") = ["B"; "C"; "C"; "D"]
  /\ successors_ids (blank_vertex "Z") = ["C"; "D"].
Proof. split; reflexivity. Qed.

(** ** [ComponentVertex._get_result] *)

Lemma first_edge_with_target_None (es : list ContractEdge) (target : string) :
  Forall (fun e => target_id e <> target) es ->
  first_edge_with_target es target = None.
Proof.
  induction 1 as [|e es He _ IH]; simpl; auto.
  apply String.eqb_neq in He. by rewrite He.
Qed.

Lemma first_edge_with_target_Some (pre post : list ContractEdge)
    (edge : ContractEdge) (target : string) :
  Forall (fun e => target_id e <> target) pre ->
  target_id edge = target ->
  first_edge_with_target (pre ++ edge :: post) target = Some edge.
Proof.
  intros Hpre Hedge. induction Hpre as [|e es He _ IH]; simpl.
  - apply String.eqb_eq in Hedge. by rewrite Hedge.
  - apply String.eqb_neq in He. by rewrite He.
Qed.

(** C1: [_get_result] fails on a vertex that is not built; on a built vertex
    it fails when the requester is [None]; with a requester, it fails when no
    outgoing edge has the requester as its target; with the first such edge
    found, it fails when the result store has no entry for the edge's source
    handle; otherwise it returns exactly that entry.  The checks apply in this
    order, and the vertex is left as it was. *)
Theorem get_result_checks_in_order (self : Vertex) (requester : option Vertex) :
  let o := _get_result requester self in
  (_built self = false -> res o = inl (not_built_error self))
  /\ (_built self = true -> requester = None ->
      res o = inl no_requester_error)
  /\ (forall req,
        _built self = true -> requester = Some req ->
        Forall (fun e => target_id e <> vertex_id req) (edges self) ->
        res o = inl (no_edge_error self req))
  /\ (forall req pre edge post,
        _built self = true -> requester = Some req ->
        edges self = pre ++ edge :: post ->
        Forall (fun e => target_id e <> vertex_id req) pre ->
        target_id edge = vertex_id req ->
        match pydict_get (results self) (name (source_handle edge)) with
        | None => res o = inl (no_result_error self edge)
        | Some result => res o = inr result
        end)
  /\ final o = self.
Proof.
  intros o. subst o. unfold _get_result, bind, get_self; simpl.
  repeat split.
  - intros Hb. by rewrite Hb.
  - intros Hb ->. by rewrite Hb.
  - intros req Hb -> Hno. rewrite Hb; simpl.
    unfold get_edge_with_target. by rewrite first_edge_with_target_None.
  - intros req pre edge post Hb -> Hedges Hpre Htgt. rewrite Hb; simpl.
    unfold get_edge_with_target. rewrite Hedges.
    rewrite (first_edge_with_target_Some pre post edge _ Hpre Htgt).
    by destruct (pydict_get (results self) (name (source_handle edge))).
  - destruct (_built self); simpl; [|reflexivity].
    destruct requester as [req|]; simpl; [|reflexivity].
    destruct (get_edge_with_target self (vertex_id req)) as [edge|]; simpl;
      [|reflexivity].
    by destruct (pydict_get (results self) (name (source_handle edge))).
Qed.

Lemma get_result_checks_in_order_witness :
  res (_get_result None producer_unbuilt) = inl (not_built_error producer_unbuilt)
  /\ res (_get_result None producer) = inl no_requester_error
  /\ res (_get_result (Some (blank_vertex "Z")) producer)
     = inl (no_edge_error producer (blank_vertex "Z"))
  /\ res (_get_result (Some (blank_vertex "C")) producer)
     = inl (no_result_error producer (edge_to "C" "gone"))
  /\ res (_get_result (Some (blank_vertex "B")) producer) = inr (VInt 42).
Proof.
  destruct (get_result_checks_in_order producer_unbuilt None)
    as (Hunbuilt & _).
  destruct (get_result_checks_in_order producer None)
    as (_ & Hnone & _).
  destruct (get_result_checks_in_order producer (Some (blank_vertex "Z")))
    as (_ & _ & Hedge & _).
  destruct (get_result_checks_in_order producer (Some (blank_vertex "C")))
    as (_ & _ & _ & Hhandle & _).
  destruct (get_result_checks_in_order producer (Some (blank_vertex "B")))
    as (_ & _ & _ & Hvalue & _).
  split; [|split; [|split; [|split]]].
  - apply Hunbuilt. reflexivity.
  - apply Hnone; reflexivity.
  - apply Hedge; try reflexivity. repeat constructor; discriminate.
  - apply (Hhandle (blank_vertex "C") [edge_to "B" "out"] (edge_to "C" "gone")
             [edge_to "B" "other"]); try reflexivity.
    repeat constructor; discriminate.
  - apply (Hvalue (blank_vertex "B") [] (edge_to "B" "out")
             [edge_to "C" "gone"; edge_to "B" "other"]); try reflexivity.
    constructor.
Defined.

(** The transaction records of one call of [_get_result]: one [success]
    record with a returned value, one [error] record on a vertex that is not
    built, and none with the three later failures. *)
Lemma get_result_transactions (self : Vertex) (requester : option Vertex) :
  let o := _get_result requester self in
  let record status :=
    LogTransaction (vertex_id self) (vertex_id <$> requester)
      (flow_id (graph self)) status in
  trace o =
    match res o with
    | inr _ => [record "success"]
    | inl _ => if _built self then [] else [record "error"]
    end.
Proof.
  intros o record. subst o record.
  unfold _get_result, bind, get_self, log_transaction, emit; simpl.
  destruct (_built self); simpl; [|reflexivity].
  destruct requester as [req|]; simpl; [|reflexivity].
  destruct (get_edge_with_target self (vertex_id req)) as [edge|]; simpl;
    [|reflexivity].
  by destruct (pydict_get (results self) (name (source_handle edge))).
Qed.

(** C4: on a built vertex the three later failures of [_get_result]
    (requester [None], no edge to the requester, no entry for the edge's
    handle) raise without a transaction record; only the first failure and
    the success emit one. *)
Theorem get_result_failures_without_transaction :
  (res (_get_result None producer) = inl no_requester_error
   /\ trace (_get_result None producer) = [])
  /\ (res (_get_result (Some (blank_vertex "Z")) producer)
      = inl (no_edge_error producer (blank_vertex "Z"))
      /\ trace (_get_result (Some (blank_vertex "Z")) producer) = [])
  /\ (res (_get_result (Some (blank_vertex "C")) producer)
      = inl (no_result_error producer (edge_to "C" "gone"))
      /\ trace (_get_result (Some (blank_vertex "C")) producer) = [])
  /\ trace (_get_result (Some (blank_vertex "B")) producer_unbuilt)
     = [LogTransaction "A" (Some "B") "flow-1" "error"]
  /\ trace (_get_result (Some (blank_vertex "B")) producer)
     = [LogTransaction "A" (Some "B") "flow-1" "success"].
Proof. repeat split. Qed.

(** ** [ComponentVertex._update_built_object_and_artifacts] *)

Lemma add_results_run (kvs : pydict) (self : Vertex) :
  add_results kvs self
  = Outcome (inr tt) (set_results (store_all kvs (results self)) self) [].
Proof.
  revert self. induction kvs as [|[k v] kvs IH]; intros self.
  - by destruct self.
  - simpl. unfold bind, add_result, modify; simpl. rewrite IH. reflexivity.
Qed.

Lemma store_all_notin (kvs store : pydict) (k : string) :
  ~ In k (map fst kvs) ->
  pydict_get (store_all kvs store) k = pydict_get store k.
Proof.
  revert store. induction kvs as [|[k' v'] kvs IH]; intros store Hk; simpl in *.
  - reflexivity.
  - unfold store_all in *; simpl. rewrite IH by tauto.
    apply pydict_get_set_ne. tauto.
Qed.

Lemma store_all_in (kvs store : pydict) (k : string) (v : value) :
  List.NoDup (map fst kvs) -> In (k, v) kvs ->
  pydict_get (store_all kvs store) k = Some v.
Proof.
  revert store. induction kvs as [|[k' v'] kvs IH]; intros store Hnd Hin.
  - destruct Hin.
  - simpl in Hnd. apply List.NoDup_cons_iff in Hnd as [Hfresh Hnd].
    destruct Hin as [Heq|Hin].
    + inversion Heq; subst k' v'. unfold store_all; simpl.
      fold (store_all kvs (pydict_set store k v)).
      rewrite store_all_notin by assumption. apply pydict_get_set_eq.
    + unfold store_all in *; simpl. by apply IH.
Qed.

(** Each pair of the mapping [d] is in the store [after], under its key, and
    the other keys of [before] are as they were. *)
Definition stored_individually (d before after : pydict) : Prop :=
  (forall k v, In (k, v) d -> pydict_get after k = Some v)
  /\ (forall k, ~ In k (map fst d) -> pydict_get after k = pydict_get before k).

Lemma store_all_stored_individually (d store : pydict) :
  List.NoDup (map fst d) -> stored_individually d store (store_all d store).
Proof.
  intros Hnd. split.
  - intros k v. by apply store_all_in.
  - intros k. apply store_all_notin.
Qed.

(** C3, as the code has it: a single (non-tuple) object becomes the built
    object and is then walked as a mapping exactly like the object of an
    (object, artifacts) pair, each key/value pair stored in the result store
    under its key; a single object that has no [items] attribute (a string,
    a number, a list) becomes the built object and the walk fails with an
    attribute error, nothing stored.  For a pair the artifacts are stored as
    they are. *)
Theorem update_built_object_and_artifacts_spec
    (self : Vertex) (d : pydict) (a : value) :
  List.NoDup (map fst d) ->
  (let o := _update_built_object_and_artifacts (VDict d) self in
   res o = inr tt
   /\ _built_object (final o) = VDict d
   /\ artifacts (final o) = artifacts self
   /\ stored_individually d (results self) (results (final o)))
  /\ (let o := _update_built_object_and_artifacts (VTuple [VDict d; a]) self in
      res o = inr tt
      /\ _built_object (final o) = VDict d
      /\ artifacts (final o) = a
      /\ stored_individually d (results self) (results (final o)))
  /\ (forall result,
        is_tuple result = false -> is_dict result = false ->
        py_getattr result "items" = None ->
        let o := _update_built_object_and_artifacts result self in
        res o = inl (AttributeError result "items")
        /\ _built_object (final o) = result
        /\ results (final o) = results self).
Proof.
  intros Hnd. split; [|split].
  - unfold _update_built_object_and_artifacts, bind, modify, get_self, py_items;
      simpl. rewrite add_results_run; simpl.
    repeat split; by apply store_all_stored_individually.
  - unfold _update_built_object_and_artifacts, bind, modify, get_self, py_items;
      simpl. rewrite add_results_run; simpl.
    repeat split; by apply store_all_stored_individually.
  - intros result Ht Hd Hitems.
    unfold _update_built_object_and_artifacts, bind, modify, get_self,
      py_items.
    destruct result; try discriminate Ht; try discriminate Hd; simpl;
      simpl in Hitems; rewrite ?Hitems; repeat split;
      discriminate Hitems.
Qed.

Lemma update_built_object_and_artifacts_spec_witness :
  let single :=
    _update_built_object_and_artifacts (VDict two_outputs) (blank_vertex "A") in
  let pair :=
    _update_built_object_and_artifacts
      (VTuple [VDict two_outputs; VStr "art"]) (blank_vertex "A") in
  List.NoDup (map fst two_outputs)
  /\ pydict_get (results (final single)) "b" = Some (VInt 2)
  /\ pydict_get (results (final pair)) "a" = Some (VInt 1)
  /\ artifacts (final pair) = VStr "art"
  /\ res (_update_built_object_and_artifacts (VStr "hello") (blank_vertex "A"))
     = inl (AttributeError (VStr "hello") "items").
Proof.
  assert (Hnd : List.NoDup (map fst two_outputs)).
  { apply distinct_keys_NoDup. reflexivity. }
  destruct (update_built_object_and_artifacts_spec
              (blank_vertex "A") two_outputs (VStr "art") Hnd)
    as ((_ & _ & _ & Hsingle & _) & (_ & _ & Hart & Hpair & _) & Hother).
  split; [exact Hnd|]. split; [|split; [|split]].
  - apply Hsingle. right; left; reflexivity.
  - apply Hpair. left; reflexivity.
  - exact Hart.
  - apply (Hother (VStr "hello")); reflexivity.
Defined.

(** C3, as the claim states it, fails at the single object
    [{"a": 1, "b": 2}]: the result store receives the two entries of the
    mapping, not the object as its sole result. *)
Lemma update_single_object_is_not_sole_result :
  let o :=
    _update_built_object_and_artifacts (VDict two_outputs) (blank_vertex "A") in
  res o = inr tt
  /\ _built_object (final o) = VDict two_outputs
  /\ results (final o) = [("a", VInt 1); ("b", VInt 2)]
  /\ ~ (exists key, results (final o) = [(key, VDict two_outputs)]).
Proof.
  repeat split. intros [key H]. discriminate H.
Qed.

(** ** [InterfaceVertex._process_record_component] *)

(** C10: when the built object is neither a record nor a list, the local
    [artifacts] is never bound and the method fails with an unbound-local
    error; the vertex, its artifacts included, is as it was and nothing is
    logged. *)
Theorem process_record_other_shape_unbound (self : Vertex) :
  is_Record (_built_object self) = false ->
  is_list (_built_object self) = false ->
  let o := _process_record_component self in
  res o = inl (UnboundLocalError "artifacts")
  /\ final o = self
  /\ trace o = [].
Proof.
  intros Hr Hl. unfold _process_record_component, bind, get_self; simpl.
  destruct (_built_object self); try discriminate; repeat split.
Qed.

Lemma process_record_other_shape_unbound_witness :
  res (_process_record_component (set_built_object (VStr "hello") (blank_vertex "R")))
  = inl (UnboundLocalError "artifacts")
  /\ artifacts (final (_process_record_component
                         (set_built_object VNone (blank_vertex "R")))) = VNone.
Proof.
  split.
  - apply (process_record_other_shape_unbound
             (set_built_object (VStr "hello") (blank_vertex "R")));
      reflexivity.
  - destruct (process_record_other_shape_unbound
                (set_built_object VNone (blank_vertex "R")) eq_refl eq_refl)
      as (_ & Hfinal & _).
    rewrite Hfinal. reflexivity.
Defined.

(** A single record, for comparison: its raw data is the one entry of the
    records list. *)
Lemma process_record_single (self : Vertex) (text data : value) (extra : pydict) :
  _built_object self = VRecord text data extra ->
  let o := _process_record_component self in
  res o = inr (VRecord text data extra)
  /\ artifacts (final o) = VRecordOutputResponse [data].
Proof.
  intros Hb. unfold _process_record_component, bind, get_self; simpl.
  rewrite Hb; simpl. by rewrite Hb.
Qed.

Lemma record_loop_ignoring (flag : value) (l acc : list value) (self : Vertex) :
  py_truthy flag = true ->
  record_loop flag l acc self
  = Outcome (inr (acc ++ map Record_data (List.filter is_Record l))) self
      (map (fun bad => LoggerError (record_expected bad))
         (List.filter (fun x => negb (is_Record x)) l)).
Proof.
  intros Hflag. revert acc.
  induction l as [|x l IH]; intros acc; simpl.
  - unfold ret. by rewrite app_nil_r.
  - destruct x; simpl;
      try (rewrite Hflag; unfold bind, emit; simpl; rewrite IH; reflexivity).
    rewrite IH. by rewrite <- app_assoc.
Qed.

Lemma record_loop_strict (flag : value) (pre post : list value) (bad : value)
    (acc : list value) (self : Vertex) :
  py_truthy flag = false ->
  Forall (fun x => is_Record x = true) pre -> is_Record bad = false ->
  record_loop flag (pre ++ bad :: post) acc self
  = Outcome (inl (ValueError (record_expected bad))) self [].
Proof.
  intros Hflag Hpre Hbad. revert acc.
  induction Hpre as [|x pre Hx _ IH]; intros acc; simpl.
  - destruct bad; try discriminate; by rewrite Hflag.
  - destruct x; try discriminate. apply IH.
Qed.

Lemma first_non_record (l : list value) :
  Exists (fun x => is_Record x = false) l ->
  exists pre bad post,
    l = pre ++ bad :: post
    /\ Forall (fun x => is_Record x = true) pre /\ is_Record bad = false.
Proof.
  induction l as [|x l IH]; intros Hex.
  - inversion Hex.
  - destruct (is_Record x) eqn:Hx.
    + inversion Hex as [? ? Hbad|? ? Hrest]; subst; [congruence|].
      destruct (IH Hrest) as (pre & bad & post & -> & Hpre & Hbad).
      exists (x :: pre), bad, post. repeat split; auto.
    + exists [], x, l. repeat split; auto.
Qed.

(** C7: for a built list with an element that is not a record.  When
    [ignore_errors] is unset or false (any falsy value), the method raises the
    record-expected error at the first such element and assigns no artifacts.
    When [ignore_errors] is true (any truthy value), each such element is
    logged and skipped, the method returns, and the records list holds the raw
    data of every record element of the list, in the list's order. *)
Theorem process_record_list_with_non_record (self : Vertex) (l : list value) :
  _built_object self = VList l ->
  Exists (fun x => is_Record x = false) l ->
  let ignore_errors := params_get (params self) "ignore_errors" (VBool false) in
  let o := _process_record_component self in
  (py_truthy ignore_errors = false ->
   exists pre bad post,
     l = pre ++ bad :: post
     /\ Forall (fun x => is_Record x = true) pre /\ is_Record bad = false
     /\ res o = inl (ValueError (record_expected bad))
     /\ final o = self)
  /\ (py_truthy ignore_errors = true ->
      res o = inr (VList l)
      /\ artifacts (final o)
         = VRecordOutputResponse (map Record_data (List.filter is_Record l))
      /\ trace o
         = map (fun bad => LoggerError (record_expected bad))
             (List.filter (fun x => negb (is_Record x)) l)).
Proof.
  intros Hb Hex ignore_errors o. subst o ignore_errors. split.
  - intros Hflag.
    destruct (first_non_record l Hex) as (pre & bad & post & -> & Hpre & Hbad).
    exists pre, bad, post. repeat split; auto;
      unfold _process_record_component, bind, get_self; simpl; rewrite Hb; simpl;
      by rewrite (record_loop_strict _ pre post bad [] self Hflag Hpre Hbad).
  - intros Hflag.
    unfold _process_record_component, bind, get_self; simpl; rewrite Hb; simpl.
    rewrite (record_loop_ignoring _ l [] self Hflag); simpl.
    rewrite Hb, !app_nil_r. repeat split.
Qed.

Lemma process_record_list_with_non_record_witness :
  (exists pre bad post,
     mixed_list = pre ++ bad :: post
     /\ is_Record bad = false
     /\ res (_process_record_component (records_vertex None))
        = inl (ValueError (record_expected bad)))
  /\ (exists pre bad post,
        mixed_list = pre ++ bad :: post
        /\ is_Record bad = false
        /\ res (_process_record_component (records_vertex (Some (VBool false))))
           = inl (ValueError (record_expected bad)))
  /\ artifacts (final (_process_record_component
                         (records_vertex (Some (VBool true)))))
     = VRecordOutputResponse [VDict [("n", VInt 1)]; VDict [("n", VInt 2)]]
  /\ trace (_process_record_component (records_vertex (Some (VBool true))))
     = [LoggerError (record_expected (VStr "stray"))].
Proof.
  assert (Hex : Exists (fun x => is_Record x = false) mixed_list).
  { right; left; reflexivity. }
  destruct (process_record_list_with_non_record
              (records_vertex None) mixed_list eq_refl Hex) as (Hunset & _).
  destruct (process_record_list_with_non_record
              (records_vertex (Some (VBool false))) mixed_list eq_refl Hex)
    as (Hfalse & _).
  destruct (process_record_list_with_non_record
              (records_vertex (Some (VBool true))) mixed_list eq_refl Hex)
    as (_ & Htrue).
  split; [|split; [|split]].
  - destruct (Hunset eq_refl) as (pre & bad & post & Hl & _ & Hbad & Hres & _).
    exists pre, bad, post. auto.
  - destruct (Hfalse eq_refl) as (pre & bad & post & Hl & _ & Hbad & Hres & _).
    exists pre, bad, post. auto.
  - destruct (Htrue eq_refl) as (_ & Harts & _). exact Harts.
  - destruct (Htrue eq_refl) as (_ & _ & Htrace). exact Htrace.
Defined.

(** ** [json.loads] reads back what [json.dumps] wrote *)

Lemma skip_ws_idem (s : list ascii) : skip_ws (skip_ws s) = skip_ws s.
Proof.
  induction s as [|c s IH]; simpl; [reflexivity|].
  destruct (is_ws c) eqn:E; [exact IH|]. simpl. by rewrite E.
Qed.

Lemma skip_ws_spaces (n : nat) (s : list ascii) :
  skip_ws (repeat " "%char n ++ s) = skip_ws s.
Proof. induction n as [|n IH]; simpl; [reflexivity|exact IH]. Qed.

Lemma skip_ws_newline_indent (lvl : nat) (s : list ascii) :
  skip_ws (newline_indent lvl ++ s) = skip_ws s.
Proof. unfold newline_indent. simpl. apply skip_ws_spaces. Qed.

Lemma parse_value_skip_ws (fuel : nat) (s : list ascii) :
  parse_value fuel (skip_ws s) = parse_value fuel s.
Proof. destruct fuel; simpl; [reflexivity|]. by rewrite skip_ws_idem. Qed.

Lemma parse_value_newline_indent (fuel lvl : nat) (s : list ascii) :
  parse_value fuel (newline_indent lvl ++ s) = parse_value fuel s.
Proof.
  rewrite <- (parse_value_skip_ws fuel (newline_indent lvl ++ s)).
  rewrite skip_ws_newline_indent. apply parse_value_skip_ws.
Qed.

Lemma parse_elems_newline_indent (fuel lvl : nat) (s : list ascii) :
  parse_elems fuel (newline_indent lvl ++ s) = parse_elems fuel s.
Proof.
  destruct fuel as [|fuel]; [reflexivity|].
  pose proof (parse_value_newline_indent fuel lvl s) as H.
  remember (newline_indent lvl ++ s) as t. simpl. by rewrite H.
Qed.

Lemma parse_members_newline_indent (fuel lvl : nat) (s : list ascii) :
  parse_members fuel (newline_indent lvl ++ s) = parse_members fuel s.
Proof.
  destruct fuel as [|fuel]; [reflexivity|].
  pose proof (skip_ws_newline_indent lvl s) as H.
  remember (newline_indent lvl ++ s) as t. simpl. by rewrite H.
Qed.

(** *** Strings *)

Lemma parse_chars_escape (c : ascii) (tail : list ascii) :
  parse_chars (escape_char c ++ tail)
  = match parse_chars tail with
    | Some (cs, rest) => Some (c :: cs, rest)
    | None => None
    end.
Proof.
  destruct c as [[] [] [] [] [] [] [] []]; reflexivity.
Qed.

Lemma parse_chars_encoded (cs rest : list ascii) :
  parse_chars (flat_map escape_char cs ++ dquote :: rest) = Some (cs, rest).
Proof.
  induction cs as [|c cs IH]; simpl.
  - reflexivity.
  - rewrite <- app_assoc, parse_chars_escape, IH. reflexivity.
Qed.

Lemma parse_string_encoded (s : string) (rest : list ascii) :
  exists body,
    encode_string s ++ rest = dquote :: body
    /\ parse_chars body = Some (chars s, rest).
Proof.
  unfold encode_string. eexists. split.
  - simpl. rewrite <- app_assoc. reflexivity.
  - simpl. apply parse_chars_encoded.
Qed.

(** *** Integers *)

Lemma parse_uint_chars (d : Decimal.uint) (rest : list ascii) :
  number_ends rest -> parse_uint (uint_chars d ++ rest) = (d, rest).
Proof.
  intros Hend. induction d; simpl; try (rewrite IHd; reflexivity).
  destruct rest as [|c rest]; [reflexivity|]. simpl in *. by rewrite Hend.
Qed.

Lemma uint_chars_head (d : Decimal.uint) :
  d <> Decimal.Nil ->
  exists c cs, uint_chars d = c :: cs /\ Ascii.eqb c "-"%char = false.
Proof. intros Hd. destruct d; [done|..]; simpl; eauto. Qed.

Lemma to_uint_no_leading_zero (p : positive) :
  leading_zero (Pos.to_uint p) = false.
Proof.
  assert (Hnorm : Decimal.unorm (Pos.to_uint p) = Pos.to_uint p).
  { rewrite <- DecimalPos.Unsigned.to_of, DecimalPos.Unsigned.of_to.
    reflexivity. }
  destruct (Pos.to_uint p) as [|d| | | | | | | | |] eqn:Hp; try reflexivity.
  destruct d; try reflexivity; exfalso;
    change (Decimal.unorm (Decimal.D0 ?x)) with (Decimal.unorm x) in Hnorm;
    unfold Decimal.unorm in Hnorm;
    match type of Hnorm with
    | context [Decimal.nzhead ?x] =>
        destruct (Decimal.nzhead x) eqn:Hz;
          try discriminate Hnorm;
          injection Hnorm as Hnorm; subst;
          eapply DecimalFacts.nzhead_nonzero; exact Hz
    end.
Qed.

Lemma parse_int_pos (d : Decimal.uint) (rest : list ascii) :
  d <> Decimal.Nil -> leading_zero d = false -> number_ends rest ->
  parse_int (uint_chars d ++ rest) = Some (Z.of_int (Decimal.Pos d), rest).
Proof.
  intros Hd Hz Hend. destruct (uint_chars_head d Hd) as (c & cs & Hcs & Hc).
  pose proof (parse_uint_chars d rest Hend) as Hparse.
  rewrite Hcs in *. unfold parse_int. simpl app. cbv iota beta.
  rewrite Hc. simpl app in Hparse. rewrite Hparse, Hz. by destruct d.
Qed.

Lemma parse_int_neg (d : Decimal.uint) (rest : list ascii) :
  d <> Decimal.Nil -> leading_zero d = false -> number_ends rest ->
  parse_int ("-"%char :: uint_chars d ++ rest)
  = Some (Z.of_int (Decimal.Neg d), rest).
Proof.
  intros Hd Hz Hend. unfold parse_int.
  change (Ascii.eqb "-" "-") with true. cbv iota.
  rewrite (parse_uint_chars d rest Hend), Hz. by destruct d.
Qed.

Lemma parse_int_chars (n : Z) (rest : list ascii) :
  number_ends rest -> parse_int (int_chars n ++ rest) = Some (n, rest).
Proof.
  intros Hend. rewrite <- (DecimalZ.of_to n) at 2. unfold int_chars.
  destruct n as [|p|p]; simpl Z.to_int.
  - apply parse_int_pos; [discriminate|reflexivity|exact Hend].
  - apply parse_int_pos;
      [apply DecimalPos.Unsigned.to_uint_nonnil
      |apply to_uint_no_leading_zero|exact Hend].
  - apply parse_int_neg;
      [apply DecimalPos.Unsigned.to_uint_nonnil
      |apply to_uint_no_leading_zero|exact Hend].
Qed.

Lemma int_chars_head (n : Z) :
  exists c cs,
    int_chars n = c :: cs
    /\ is_ws c = false
    /\ (nat_of_ascii c = 45 \/ 48 <= nat_of_ascii c <= 57).
Proof.
  unfold int_chars.
  assert (Hu : forall d, d <> Decimal.Nil ->
            exists c cs, uint_chars d = c :: cs /\ is_ws c = false
                         /\ 48 <= nat_of_ascii c <= 57).
  { intros d Hd. destruct d; [done|..]; simpl; do 2 eexists;
      (split; [reflexivity|]); (split; [reflexivity|]); compute; lia. }
  destruct n as [|p|p]; simpl Z.to_int.
  - destruct (Hu (Decimal.D0 Decimal.Nil)) as (c & cs & -> & Hw & Hr); [done|].
    exists c, cs. auto.
  - destruct (Hu (Pos.to_uint p) (DecimalPos.Unsigned.to_uint_nonnil p))
      as (c & cs & -> & Hw & Hr).
    exists c, cs. auto.
  - exists "-"%char, (uint_chars (Pos.to_uint p)). repeat split. by left.
Qed.

(** *** One step of the reader *)

Lemma ascii_eqb_code (c : ascii) (d : ascii) :
  nat_of_ascii c <> nat_of_ascii d -> Ascii.eqb c d = false.
Proof. intros H. apply Ascii.eqb_neq. intros ->. by apply H. Qed.

Ltac code_differs :=
  apply ascii_eqb_code;
  match goal with
  | |- _ <> nat_of_ascii ?d =>
      let n := eval vm_compute in (nat_of_ascii d) in
      change (nat_of_ascii d) with n; lia
  end.

Lemma parse_value_number (fuel : nat) (c : ascii) (cs : list ascii) :
  is_ws c = false ->
  nat_of_ascii c = 45 \/ 48 <= nat_of_ascii c <= 57 ->
  parse_value (S fuel) (c :: cs)
  = match parse_int (c :: cs) with
    | Some (n, r) => Some (VInt n, r)
    | None => None
    end.
Proof.
  intros Hws Hc.
  assert (Hn : Ascii.eqb c "n"%char = false)
    by code_differs.
  assert (Ht : Ascii.eqb c "t"%char = false)
    by code_differs.
  assert (Hf : Ascii.eqb c "f"%char = false)
    by code_differs.
  assert (Hq : Ascii.eqb c dquote = false)
    by code_differs.
  assert (Hl : Ascii.eqb c "["%char = false)
    by code_differs.
  assert (Hb : Ascii.eqb c "{"%char = false)
    by code_differs.
  remember (parse_int (c :: cs)) as p.
  simpl. rewrite Hws, Hn, Ht, Hf, Hq, Hl, Hb. by subst p.
Qed.

Lemma parse_value_string (fuel : nat) (body : list ascii) :
  parse_value (S fuel) (dquote :: body)
  = match parse_chars body with
    | Some (cs, r) => Some (VStr (string_of_list_ascii cs), r)
    | None => None
    end.
Proof. reflexivity. Qed.

Lemma parse_value_list (fuel : nat) (rest : list ascii) (c : ascii)
    (r1 : list ascii) :
  skip_ws rest = c :: r1 -> Ascii.eqb c "]"%char = false ->
  parse_value (S fuel) ("["%char :: rest)
  = match parse_elems fuel rest with
    | Some (vs, r) => Some (VList vs, r)
    | None => None
    end.
Proof.
  intros Hskip Hc. remember (parse_elems fuel rest) as p.
  simpl. rewrite Hskip, Hc. by subst p.
Qed.

Lemma parse_value_dict (fuel : nat) (rest : list ascii) (c : ascii)
    (r1 : list ascii) :
  skip_ws rest = c :: r1 -> Ascii.eqb c "}"%char = false ->
  parse_value (S fuel) ("{"%char :: rest)
  = match parse_members fuel rest with
    | Some (kvs, r) => Some (VDict (dict_of_pairs kvs), r)
    | None => None
    end.
Proof.
  intros Hskip Hc. remember (parse_members fuel rest) as p.
  simpl. rewrite Hskip, Hc. by subst p.
Qed.

Lemma parse_elems_last (fuel : nat) (s r r' : list ascii) (v : value) :
  parse_value fuel s = Some (v, r) -> skip_ws r = "]"%char :: r' ->
  parse_elems (S fuel) s = Some ([v], r').
Proof. intros Hv Hr. simpl. rewrite Hv, Hr. reflexivity. Qed.

Lemma parse_elems_more (fuel : nat) (s r r' r'' : list ascii) (v : value)
    (vs : list value) :
  parse_value fuel s = Some (v, r) -> skip_ws r = ","%char :: r' ->
  parse_elems fuel r' = Some (vs, r'') ->
  parse_elems (S fuel) s = Some (v :: vs, r'').
Proof.
  intros Hv Hr Hvs. simpl. rewrite Hv, Hr.
  change (Ascii.eqb "," ",") with true. cbv iota. by rewrite Hvs.
Qed.

Lemma parse_members_last (fuel : nat) (s s1 s2 s3 r r' : list ascii)
    (k : list ascii) (v : value) :
  skip_ws s = dquote :: s1 -> parse_chars s1 = Some (k, s2) ->
  skip_ws s2 = ":"%char :: s3 -> parse_value fuel s3 = Some (v, r) ->
  skip_ws r = "}"%char :: r' ->
  parse_members (S fuel) s = Some ([(string_of_list_ascii k, v)], r').
Proof.
  intros Hs Hk Hs2 Hv Hr. simpl. rewrite Hs.
  change (Ascii.eqb dquote dquote) with true. cbv iota.
  rewrite Hk, Hs2. change (Ascii.eqb ":" ":") with true. cbv iota.
  rewrite Hv, Hr. reflexivity.
Qed.

Lemma parse_members_more (fuel : nat) (s s1 s2 s3 r r' r'' : list ascii)
    (k : list ascii) (v : value) (kvs : pydict) :
  skip_ws s = dquote :: s1 -> parse_chars s1 = Some (k, s2) ->
  skip_ws s2 = ":"%char :: s3 -> parse_value fuel s3 = Some (v, r) ->
  skip_ws r = ","%char :: r' ->
  parse_members fuel r' = Some (kvs, r'') ->
  parse_members (S fuel) s = Some ((string_of_list_ascii k, v) :: kvs, r'').
Proof.
  intros Hs Hk Hs2 Hv Hr Hkvs. simpl. rewrite Hs.
  change (Ascii.eqb dquote dquote) with true. cbv iota.
  rewrite Hk, Hs2. change (Ascii.eqb ":" ":") with true. cbv iota.
  rewrite Hv, Hr. change (Ascii.eqb "," ",") with true. cbv iota.
  by rewrite Hkvs.
Qed.

(** *** Structure of the encoder *)

Lemma value_nested_ind (P : value -> Prop) :
  P VNone -> (forall b, P (VBool b)) -> (forall n, P (VInt n)) ->
  (forall s, P (VStr s)) ->
  (forall l, List.Forall P l -> P (VList l)) ->
  (forall d, List.Forall (fun kv => P (snd kv)) d -> P (VDict d)) ->
  (forall v, json_native v = false -> P v) ->
  forall v, P v.
Proof.
  intros HNone HBool HInt HStr HList HDict Hother.
  fix IH 1. intros v.
  destruct v; try (apply Hother; reflexivity).
  - exact HNone.
  - apply HBool.
  - apply HInt.
  - apply HStr.
  - apply HList. revert l. fix IHl 1. intros [|x l]; constructor.
    + apply IH.
    + apply IHl.
  - apply HDict. revert d. fix IHd 1. intros [|[k x] d]; constructor.
    + apply IH.
    + apply IHd.
Qed.

Lemma dumps_at_list (lvl : nat) (x : value) (l : list value) :
  dumps_at lvl (VList (x :: l))
  = match dumps_items lvl (x :: l) with
    | inl o => inl o
    | inr xs =>
        inr ("["%char :: newline_indent (S lvl)
               ++ join (","%char :: newline_indent (S lvl)) xs
               ++ newline_indent lvl ++ ["]"%char])
    end.
Proof.
  assert (Hitems : forall l,
    (fix items (l : list value) : value + list (list ascii) :=
       match l with
       | [] => inr []
       | x :: l' =>
           match dumps_at (S lvl) x with
           | inl o => inl o
           | inr x' =>
               match items l' with
               | inl o => inl o
               | inr r => inr (x' :: r)
               end
           end
       end) l = dumps_items lvl l).
  { induction l0 as [|y l0 IH]; [reflexivity|]. simpl. by rewrite IH. }
  change (dumps_at lvl (VList (x :: l))) with
    (match
       (fix items (l : list value) : value + list (list ascii) :=
          match l with
          | [] => inr []
          | x :: l' =>
              match dumps_at (S lvl) x with
              | inl o => inl o
              | inr x' =>
                  match items l' with
                  | inl o => inl o
                  | inr r => inr (x' :: r)
                  end
              end
          end) (x :: l)
     with
     | inl o => inl o
     | inr xs =>
         inr ("["%char :: newline_indent (S lvl)
                ++ join (","%char :: newline_indent (S lvl)) xs
                ++ newline_indent lvl ++ ["]"%char])
     end).
  by rewrite Hitems.
Qed.

Lemma dumps_at_dict (lvl : nat) (kv : string * value) (d : pydict) :
  dumps_at lvl (VDict (kv :: d))
  = match dumps_members lvl (kv :: d) with
    | inl o => inl o
    | inr xs =>
        inr ("{"%char :: newline_indent (S lvl)
               ++ join (","%char :: newline_indent (S lvl)) xs
               ++ newline_indent lvl ++ ["}"%char])
    end.
Proof.
  assert (Hmembers : forall d,
    (fix members (d : pydict) : value + list (list ascii) :=
       match d with
       | [] => inr []
       | (k, x) :: d' =>
           match dumps_at (S lvl) x with
           | inl o => inl o
           | inr x' =>
               match members d' with
               | inl o => inl o
               | inr r => inr ((encode_string k ++ chars ": " ++ x') :: r)
               end
           end
       end) d = dumps_members lvl d).
  { induction d0 as [|[k y] d0 IH]; [reflexivity|].
    cbn [dumps_members]. rewrite <- IH. reflexivity. }
  change (dumps_at lvl (VDict (kv :: d))) with
    (match
       (fix members (d : pydict) : value + list (list ascii) :=
          match d with
          | [] => inr []
          | (k, x) :: d' =>
              match dumps_at (S lvl) x with
              | inl o => inl o
              | inr x' =>
                  match members d' with
                  | inl o => inl o
                  | inr r => inr ((encode_string k ++ chars ": " ++ x') :: r)
                  end
              end
          end) (kv :: d)
     with
     | inl o => inl o
     | inr xs =>
         inr ("{"%char :: newline_indent (S lvl)
                ++ join (","%char :: newline_indent (S lvl)) xs
                ++ newline_indent lvl ++ ["}"%char])
     end).
  by rewrite Hmembers.
Qed.

Lemma jsize_list (l : list value) : jsize (VList l) = S (elems_size l).
Proof. reflexivity. Qed.

Lemma jsize_dict (d : pydict) : jsize (VDict d) = S (members_size d).
Proof.
  induction d as [|[k x] d IH]; [reflexivity|].
  simpl in *. injection IH as IH. by rewrite IH.
Qed.

Lemma json_native_dict (d : pydict) :
  json_native (VDict d)
  = distinct_keys (map fst d) && forallb (fun kv => json_native (snd kv)) d.
Proof.
  simpl. f_equal. induction d as [|[k x] d IH]; [reflexivity|].
  simpl. by rewrite IH.
Qed.

Lemma json_native_list (l : list value) :
  json_native (VList l) = forallb json_native l.
Proof. reflexivity. Qed.

Lemma jsize_pos (v : value) : 1 <= jsize v.
Proof. destruct v; simpl; lia. Qed.

(** *** Dicts from pairs *)

Lemma pydict_set_fresh (d : pydict) (k : string) (v : value) :
  ~ In k (map fst d) -> pydict_set d k v = d ++ [(k, v)].
Proof.
  induction d as [|[k' v'] d IH]; simpl; intros Hk; [reflexivity|].
  destruct (String.eqb k' k) eqn:E.
  - apply String.eqb_eq in E. tauto.
  - rewrite IH by tauto. reflexivity.
Qed.

Lemma store_all_fresh (kvs acc : pydict) :
  List.NoDup (map fst (acc ++ kvs)) -> store_all kvs acc = acc ++ kvs.
Proof.
  revert acc. induction kvs as [|[k v] kvs IH]; intros acc Hnd.
  - by rewrite app_nil_r.
  - unfold store_all in *. simpl.
    assert (Hfresh : ~ In k (map fst acc)).
    { rewrite map_app in Hnd. simpl in Hnd.
      apply List.NoDup_remove_2 in Hnd. rewrite in_app_iff in Hnd. tauto. }
    rewrite (pydict_set_fresh acc k v Hfresh).
    rewrite IH; rewrite <- app_assoc; [reflexivity|exact Hnd].
Qed.

Lemma dict_of_pairs_distinct (d : pydict) :
  distinct_keys (map fst d) = true -> dict_of_pairs d = d.
Proof.
  intros Hd. apply distinct_keys_NoDup in Hd.
  apply (store_all_fresh d [] Hd).
Qed.

(** *** Items and members *)

Lemma skip_ws_start (out rest : list ascii) :
  starts_value out -> skip_ws (out ++ rest) = out ++ rest.
Proof.
  destruct out as [|c out]; simpl; [tauto|]. intros [Hws _]. by rewrite Hws.
Qed.

Lemma dumps_items_length (lvl : nat) (l : list value) (xs : list (list ascii)) :
  dumps_items lvl l = inr xs -> length xs = length l.
Proof.
  revert xs. induction l as [|x l IH]; simpl; intros xs H.
  - by injection H as <-.
  - destruct (dumps_at (S lvl) x); [discriminate|].
    destruct (dumps_items lvl l); [discriminate|].
    injection H as <-. simpl. f_equal. by apply IH.
Qed.

Lemma dumps_members_length (lvl : nat) (d : pydict) (xs : list (list ascii)) :
  dumps_members lvl d = inr xs -> length xs = length d.
Proof.
  revert xs. induction d as [|[k x] d IH]; simpl; intros xs H.
  - by injection H as <-.
  - destruct (dumps_at (S lvl) x); [discriminate|].
    destruct (dumps_members lvl d); [discriminate|].
    injection H as <-. simpl. f_equal. by apply IH.
Qed.

Lemma number_ends_comma (s : list ascii) : number_ends (","%char :: s).
Proof. reflexivity. Qed.

Lemma number_ends_newline (lvl : nat) (s : list ascii) :
  number_ends (newline_indent lvl ++ s).
Proof. reflexivity. Qed.

Lemma read_items (lvl : nat) (l : list value) :
  List.Forall (fun x => json_native x = true -> reads_back x) l ->
  forallb json_native l = true ->
  exists xs,
    dumps_items lvl l = inr xs
    /\ elems_size l <= S (length (join (item_separator lvl) xs))
    /\ (l <> [] -> starts_value (join (item_separator lvl) xs))
    /\ forall fuel rest,
         l <> [] -> elems_size l <= fuel ->
         parse_elems fuel
           (join (item_separator lvl) xs ++ newline_indent lvl
              ++ "]"%char :: rest)
         = Some (l, rest).
Proof.
  induction 1 as [|x l Hx _ IH]; intros Hnat.
  - exists []. repeat split; simpl; try lia; intros; congruence.
  - simpl in Hnat. apply andb_prop in Hnat as [Hnx Hnl].
    destruct (Hx Hnx (S lvl)) as (out & Hout & Hstart & Hlen & Hparse).
    destruct (IH Hnl) as (xs & Hxs & Hsize & Hstarts & Hread).
    exists (out :: xs). cbn [dumps_items]. rewrite Hout, Hxs.
    split; [reflexivity|].
    pose proof (dumps_items_length lvl l xs Hxs) as Hlenxs.
    destruct l as [|y l].
    + destruct xs; [|discriminate]. cbn [join elems_size fold_right].
      split; [lia|]. split; [by intros _|].
      intros fuel rest _ Hfuel. destruct fuel as [|fuel]; [lia|].
      apply (parse_elems_last fuel _ (newline_indent lvl ++ "]"%char :: rest)).
      * apply Hparse; [lia|apply number_ends_newline].
      * rewrite skip_ws_newline_indent. reflexivity.
    + destruct xs as [|oy xs]; [discriminate|].
      change (join (item_separator lvl) (out :: oy :: xs))
        with (out ++ item_separator lvl ++ join (item_separator lvl) (oy :: xs)).
      change (elems_size (x :: y :: l))
        with (S (jsize x + elems_size (y :: l))).
      split.
      { set (J := join (item_separator lvl) (oy :: xs)) in *.
        rewrite !length_app.
        change (length (item_separator lvl))
          with (S (length (newline_indent (S lvl)))).
        lia. }
      split.
      { intros _. destruct out; [destruct Hstart|exact Hstart]. }
      intros fuel rest _ Hfuel. destruct fuel as [|fuel]; [lia|].
      rewrite <- !app_assoc.
      apply (parse_elems_more fuel _
               (item_separator lvl ++ join (item_separator lvl) (oy :: xs)
                  ++ newline_indent lvl ++ "]"%char :: rest)
               (newline_indent (S lvl) ++ join (item_separator lvl) (oy :: xs)
                  ++ newline_indent lvl ++ "]"%char :: rest)).
      * apply Hparse; [lia|apply number_ends_comma].
      * reflexivity.
      * rewrite parse_elems_newline_indent. apply Hread; [discriminate|lia].
Qed.

Lemma parse_value_space (fuel : nat) (s : list ascii) :
  parse_value fuel (" "%char :: s) = parse_value fuel s.
Proof.
  rewrite <- (parse_value_skip_ws fuel (" "%char :: s)).
  change (skip_ws (" "%char :: s)) with (skip_ws s).
  apply parse_value_skip_ws.
Qed.

Lemma member_text (k : string) (out tail : list ascii) :
  (encode_string k ++ chars ": " ++ out) ++ tail
  = dquote :: (flat_map escape_char (chars k)
                 ++ dquote :: ":"%char :: " "%char :: out ++ tail).
Proof.
  unfold encode_string. simpl. rewrite <- !app_assoc. reflexivity.
Qed.

Lemma read_member (fuel : nat) (k : string) (x : value)
    (out tail : list ascii) :
  parse_value fuel (out ++ tail) = Some (x, tail) ->
  exists s1 s2 s3,
    skip_ws ((encode_string k ++ chars ": " ++ out) ++ tail) = dquote :: s1
    /\ parse_chars s1 = Some (chars k, s2)
    /\ skip_ws s2 = ":"%char :: s3
    /\ parse_value fuel s3 = Some (x, tail).
Proof.
  intros Hx. rewrite member_text.
  exists (flat_map escape_char (chars k)
            ++ dquote :: ":"%char :: " "%char :: out ++ tail),
         (":"%char :: " "%char :: out ++ tail), (" "%char :: out ++ tail).
  split; [reflexivity|]. split; [apply parse_chars_encoded|].
  split; [reflexivity|]. by rewrite parse_value_space.
Qed.

Lemma read_members (lvl : nat) (d : pydict) :
  List.Forall (fun kv => json_native (snd kv) = true -> reads_back (snd kv)) d ->
  forallb (fun kv => json_native (snd kv)) d = true ->
  exists xs,
    dumps_members lvl d = inr xs
    /\ members_size d <= S (length (join (item_separator lvl) xs))
    /\ (d <> [] -> exists body, join (item_separator lvl) xs = dquote :: body)
    /\ forall fuel rest,
         d <> [] -> members_size d <= fuel ->
         parse_members fuel
           (join (item_separator lvl) xs ++ newline_indent lvl
              ++ "}"%char :: rest)
         = Some (d, rest).
Proof.
  induction 1 as [|[k x] d Hx _ IH]; intros Hnat.
  - exists []. repeat split; simpl; try lia; intros; congruence.
  - simpl in Hnat, Hx. apply andb_prop in Hnat as [Hnx Hnd].
    destruct (Hx Hnx (S lvl)) as (out & Hout & Hstart & Hlen & Hparse).
    destruct (IH Hnd) as (xs & Hxs & Hsize & Hstarts & Hread).
    exists ((encode_string k ++ chars ": " ++ out) :: xs).
    cbn [dumps_members]. rewrite Hout, Hxs. split; [reflexivity|].
    pose proof (dumps_members_length lvl d xs Hxs) as Hlenxs.
    assert (Hk : string_of_list_ascii (chars k) = k)
      by apply string_of_list_ascii_of_string.
    destruct d as [|kv d].
    + destruct xs; [|discriminate].
      cbn [join members_size fold_right snd].
      split; [rewrite !length_app; lia|].
      split; [intros _; unfold encode_string; simpl; eauto|].
      intros fuel rest _ Hfuel. destruct fuel as [|fuel]; [lia|].
      destruct (read_member fuel k x out
                  (newline_indent lvl ++ "}"%char :: rest))
        as (s1 & s2 & s3 & Hs & Hs1 & Hs2 & Hs3).
      { apply Hparse; [lia|apply number_ends_newline]. }
      rewrite <- Hk at 2.
      apply (parse_members_last fuel _ s1 s2 s3
               (newline_indent lvl ++ "}"%char :: rest)); try assumption.
      rewrite skip_ws_newline_indent. reflexivity.
    + destruct xs as [|oy xs]; [discriminate|].
      set (J := join (item_separator lvl) (oy :: xs)) in *.
      change (join (item_separator lvl)
                ((encode_string k ++ chars ": " ++ out) :: oy :: xs))
        with ((encode_string k ++ chars ": " ++ out)
                ++ item_separator lvl ++ J).
      change (members_size ((k, x) :: kv :: d))
        with (S (jsize x + members_size (kv :: d))).
      split.
      { rewrite !length_app.
        change (length (item_separator lvl))
          with (S (length (newline_indent (S lvl)))).
        lia. }
      split; [intros _; unfold encode_string; simpl; eauto|].
      intros fuel rest _ Hfuel. destruct fuel as [|fuel]; [lia|].
      rewrite <- (app_assoc _ (item_separator lvl ++ J)).
      rewrite <- (app_assoc (item_separator lvl)).
      destruct (read_member fuel k x out
                  (item_separator lvl ++ J ++ newline_indent lvl
                     ++ "}"%char :: rest))
        as (s1 & s2 & s3 & Hs & Hs1 & Hs2 & Hs3).
      { apply Hparse; [lia|apply number_ends_comma]. }
      rewrite <- Hk at 2.
      apply (parse_members_more fuel _ s1 s2 s3
               (item_separator lvl ++ J ++ newline_indent lvl
                  ++ "}"%char :: rest)
               (newline_indent (S lvl) ++ J ++ newline_indent lvl
                  ++ "}"%char :: rest)); try assumption.
      * reflexivity.
      * rewrite parse_members_newline_indent. apply Hread; [discriminate|lia].
Qed.

(** *** The round trip *)

Lemma json_native_reads_back (v : value) :
  json_native v = true -> reads_back v.
Proof.
  induction v as [|b|n|s|l IH|d IH|v Hv] using value_nested_ind;
    intros Hnat lvl.
  - exists (chars "null"). split; [reflexivity|]. split; [by split|].
    split; [simpl; lia|]. intros [|fuel] rest Hfuel _; [simpl in Hfuel; lia|].
    reflexivity.
  - exists (chars (if b then "true" else "false")).
    split; [by destruct b|]. split; [by destruct b|].
    split; [destruct b; simpl; lia|].
    intros [|fuel] rest Hfuel _; [simpl in Hfuel; lia|]. by destruct b.
  - exists (int_chars n). split; [reflexivity|].
    destruct (int_chars_head n) as (c & cs & Hcs & Hws & Hc).
    split.
    { rewrite Hcs. split; [exact Hws|]. code_differs. }
    split; [rewrite Hcs; simpl; lia|].
    intros [|fuel] rest Hfuel Hend; [simpl in Hfuel; lia|].
    pose proof (parse_int_chars n rest Hend) as Hint.
    rewrite Hcs in *. simpl app in *.
    rewrite (parse_value_number fuel c (cs ++ rest) Hws Hc), Hint.
    reflexivity.
  - exists (encode_string s). split; [reflexivity|]. split; [by split|].
    split; [unfold encode_string; simpl; lia|].
    intros [|fuel] rest Hfuel _; [simpl in Hfuel; lia|].
    destruct (parse_string_encoded s rest) as (body & -> & Hbody).
    rewrite parse_value_string, Hbody.
    unfold chars. by rewrite string_of_list_ascii_of_string.
  - destruct l as [|x l].
    { exists (chars "[]"). split; [reflexivity|]. split; [by split|].
      split; [simpl; lia|].
      intros [|fuel] rest Hfuel _; [simpl in Hfuel; lia|]. reflexivity. }
    rewrite json_native_list in Hnat.
    assert (Hall : List.Forall (fun x => json_native x = true -> reads_back x)
                     (x :: l)) by exact IH.
    destruct (read_items lvl (x :: l) Hall Hnat)
      as (xs & Hxs & Hsize & Hstarts & Hread).
    rewrite dumps_at_list, Hxs.
    change (","%char :: newline_indent (S lvl)) with (item_separator lvl).
    eexists. split; [reflexivity|].
    split; [by split|]. rewrite jsize_list. split.
    { cbn [length]. rewrite !length_app. cbn [length]. lia. }
    intros [|fuel] rest Hfuel _; [lia|].
    set (J := join (item_separator lvl) xs) in *.
    change (("["%char :: newline_indent (S lvl) ++ J
               ++ newline_indent lvl ++ ["]"%char]) ++ rest)
      with ("["%char :: (newline_indent (S lvl) ++ J
               ++ newline_indent lvl ++ ["]"%char]) ++ rest).
    rewrite <- !app_assoc. cbn [app].
    specialize (Hstarts ltac:(discriminate)).
    destruct J as [|c J'] eqn:HJ; [destruct Hstarts|].
    destruct Hstarts as [Hws Hclose].
    rewrite (parse_value_list fuel _ c
               (J' ++ newline_indent lvl ++ "]"%char :: rest)).
    + rewrite parse_elems_newline_indent.
      change (c :: J' ++ newline_indent lvl ++ "]"%char :: rest)
        with ((c :: J') ++ newline_indent lvl ++ "]"%char :: rest).
      rewrite Hread; [reflexivity|discriminate|lia].
    + rewrite skip_ws_newline_indent. simpl. by rewrite Hws.
    + exact Hclose.
  - destruct d as [|kv d].
    { exists (chars "{}"). split; [reflexivity|]. split; [by split|].
      split; [simpl; lia|].
      intros [|fuel] rest Hfuel _; [simpl in Hfuel; lia|]. reflexivity. }
    rewrite json_native_dict in Hnat. apply andb_prop in Hnat as [Hkeys Hnat].
    assert (Hall : List.Forall
                     (fun kv => json_native (snd kv) = true
                                -> reads_back (snd kv)) (kv :: d))
      by exact IH.
    destruct (read_members lvl (kv :: d) Hall Hnat)
      as (xs & Hxs & Hsize & Hstarts & Hread).
    rewrite dumps_at_dict, Hxs.
    change (","%char :: newline_indent (S lvl)) with (item_separator lvl).
    eexists. split; [reflexivity|].
    split; [by split|]. rewrite jsize_dict. split.
    { cbn [length]. rewrite !length_app. cbn [length]. lia. }
    intros [|fuel] rest Hfuel _; [lia|].
    set (J := join (item_separator lvl) xs) in *.
    change (("{"%char :: newline_indent (S lvl) ++ J
               ++ newline_indent lvl ++ ["}"%char]) ++ rest)
      with ("{"%char :: (newline_indent (S lvl) ++ J
               ++ newline_indent lvl ++ ["}"%char]) ++ rest).
    rewrite <- !app_assoc. cbn [app].
    destruct (Hstarts ltac:(discriminate)) as [body HJ].
    rewrite (parse_value_dict fuel _ dquote
               (body ++ newline_indent lvl ++ "}"%char :: rest)).
    + rewrite parse_members_newline_indent.
      rewrite Hread; [|discriminate|lia].
      by rewrite (dict_of_pairs_distinct (kv :: d) Hkeys).
    + rewrite skip_ws_newline_indent, HJ. reflexivity.
    + reflexivity.
  - congruence.
Qed.


(** ** [InterfaceVertex]: the chat path *)

Lemma chat_files_run (self v : Vertex) :
  is_iterable (params_get (params self) "files" (VList [])) = true ->
  exists fs, chat_files self v = Outcome (inr (VList fs)) v [].
Proof.
  intros Hit. unfold chat_files, bind.
  destruct (params_get (params self) "files" (VList [])); try discriminate;
    simpl; eauto.
Qed.

Lemma chat_files_total (self v : Vertex) :
  exists r, chat_files self v = Outcome r v [].
Proof.
  unfold chat_files, bind.
  destruct (params_get (params self) "files" (VList [])); simpl; eauto.
Qed.

Lemma forallb_filter {A} (f : A -> bool) (l : list A) :
  forallb f (List.filter f l) = true.
Proof.
  induction l as [|x l IH]; simpl; [reflexivity|].
  destruct (f x) eqn:E; simpl; [by rewrite E|exact IH].
Qed.

Lemma model_dump_no_null (r : ChatOutputResponse) :
  no_null_fields (model_dump true r) = true.
Proof. unfold no_null_fields, model_dump. apply forallb_filter. Qed.

Lemma py_getattr_setattr (obj : value) (attr : string) (v : value) (self : Vertex) :
  takes_attributes obj = true ->
  exists obj', py_setattr obj attr v self = Outcome (inr obj') self []
    /\ py_getattr obj' attr = Some v.
Proof.
  intros Ht. destruct obj; try discriminate; simpl.
  - destruct (String.eqb attr "text") eqn:E1; [|destruct (String.eqb attr "data") eqn:E2];
      eexists; (split; [reflexivity|]); simpl; rewrite ?E1, ?E2; auto.
    by rewrite pydict_get_set_eq.
  - eexists; split; [reflexivity|]. apply pydict_get_set_eq.
Qed.

Lemma append_assoc (a b c : string) : (a +:+ b) +:+ c = a +:+ b +:+ c.
Proof.
  induction a as [|x a IH]; [reflexivity|].
  change (String x ((a +:+ b) +:+ c) = String x (a +:+ b +:+ c)).
  by f_equal.
Qed.

Lemma append_empty_r (a : string) : a +:+ "" = a.
Proof.
  induction a as [|x a IH]; [reflexivity|].
  change (String x (a +:+ "") = String x a). by f_equal.
Qed.

(** On a chunk whose preferred text is a string, the two probes of the loop
    body compute that string. *)
Lemma chunk_text_preferred (chunk : value) (s : string) :
  preferred_text chunk = VStr s -> chunk_text chunk = VStr s.
Proof.
  unfold preferred_text, chunk_text, py_hasattr.
  destruct (py_getattr chunk "content") as [content|] eqn:Hc; simpl.
  - intros ->. reflexivity.
  - destruct (py_getattr chunk "text") as [text|] eqn:Ht; simpl.
    + intros ->. reflexivity.
    + intros ->. reflexivity.
Qed.

Lemma preferred_texts_are_chunk_texts (items : list value)
    (texts : list string) :
  map preferred_text items = map VStr texts ->
  map chunk_text items = map VStr texts.
Proof.
  revert texts. induction items as [|chunk items IH]; intros [|s texts] Hmap;
    try discriminate Hmap; [reflexivity|].
  simpl in Hmap. injection Hmap as Hchunk Hrest.
  simpl. rewrite (chunk_text_preferred chunk s Hchunk). f_equal.
  by apply IH.
Qed.

Lemma stream_loop_run (items : list value) (texts : list string)
    (acc : string) (self : Vertex) :
  map chunk_text items = map VStr texts ->
  stream_loop items acc self
  = Outcome (inr (acc +:+ concat_texts texts)) self
      (map (fun s => Yield (VStr s)) texts).
Proof.
  revert texts acc. induction items as [|chunk items IH]; intros texts acc Hmap.
  - destruct texts; [|discriminate]. simpl. by rewrite append_empty_r.
  - destruct texts as [|s texts]; [discriminate|].
    simpl in Hmap. injection Hmap as Hchunk Hrest.
    simpl. rewrite Hchunk.
    unfold bind, emit; simpl. rewrite (IH texts _ Hrest); simpl.
    by rewrite append_assoc.
Qed.

Lemma stream_loop_fails (pre post : list value) (texts : list string)
    (bad : value) (acc : string) (self : Vertex) :
  map chunk_text pre = map VStr texts ->
  is_str (chunk_text bad) = false ->
  stream_loop (pre ++ bad :: post) acc self
  = Outcome
      (inl (TypeError [Lit "can only concatenate str (not ";
                       FmtType (chunk_text bad); Lit ") to str"]))
      self
      (map (fun s => Yield (VStr s)) texts ++ [Yield (chunk_text bad)]).
Proof.
  intros Hpre Hbad. revert texts acc Hpre.
  induction pre as [|chunk pre IH]; intros texts acc Hpre.
  - destruct texts; [|discriminate]. simpl.
    unfold bind, emit; simpl.
    by destruct (chunk_text bad).
  - destruct texts as [|s texts]; [discriminate|].
    simpl in Hpre. injection Hpre as Hchunk Hrest.
    simpl. rewrite Hchunk. unfold bind, emit; simpl.
    by rewrite (IH texts _ Hrest).
Qed.

Lemma yields_texts (texts : list string) :
  yields (map (fun s => Yield (VStr s)) texts) = map VStr texts.
Proof. induction texts as [|s texts IH]; simpl; [reflexivity|by rewrite <- IH]. Qed.

Section InterfaceProps.

Variable INPUT_FIELD_NAME : string.
Variable unescape_string : string -> string.
Variable py_str : value -> string.
Variable from_message : value -> value -> value -> ChatOutputResponse.
Variable serialize_field : value -> value.
Variable _finalize_build : Vertex -> exn + Vertex.
Variable _validate_built_object : Vertex -> exn + Vertex.

Local Abbreviation chat :=
  (_process_chat_component INPUT_FIELD_NAME unescape_string py_str
     from_message serialize_field).
Local Abbreviation run_stream :=
  (stream INPUT_FIELD_NAME _finalize_build _validate_built_object).

(** C5: the streaming sub-case of the chat path.  The text result is
    neither a chat message, nor the unbuilt placeholder, nor a mapping, nor
    a record, and the message parameter is an iterator; the result store
    has a [record] entry that takes attributes and the [files] parameter,
    if set, can be walked.  Then the method returns the empty string as the
    message; [results["message"]] and [results["record"].message] are the
    empty string; the built object is the result store; [will_stream] is
    true; and the stored artifact carries the empty message, the stream URL
    [/api/v1/build/{flow_id}/{vertex_id}/stream] and the type [STREAM]. *)
Theorem chat_streaming_case (self : Vertex) (text_output record : value)
    (is_async : bool) (items : list value) :
  pydict_get (results self) "message" = Some text_output ->
  plain_text_output text_output = true ->
  params self !! INPUT_FIELD_NAME = Some (VIter is_async items) ->
  pydict_get (results self) "record" = Some record ->
  takes_attributes record = true ->
  is_iterable (params_get (params self) "files" (VList [])) = true ->
  let o := chat self in
  let url :=
    "/api/v1/build/" +:+ flow_id (graph self) +:+ "/" +:+ vertex_id self
      +:+ "/stream" in
  res o = inr (VStr "")
  /\ pydict_get (results (final o)) "message" = Some (VStr "")
  /\ (exists record',
        pydict_get (results (final o)) "record" = Some record'
        /\ py_getattr record' "message" = Some (VStr ""))
  /\ _built_object (final o) = VDict (results (final o))
  /\ will_stream (final o) = true
  /\ (exists d,
        artifacts (final o) = VDict d
        /\ pydict_get d "message" = Some (VStr "")
        /\ pydict_get d "stream_url" = Some (VStr url)
        /\ pydict_get d "type" = Some (VArtifactType STREAM)).
Proof.
  intros Hmsg Hplain Hparam Hrec Htakes Hfiles o url.
  destruct (chat_files_run self self Hfiles) as [fs Hfs].
  destruct (py_getattr_setattr record "message" (VStr "")
              (set_results (pydict_set (results self) "message" (VStr "")) self)
              Htakes) as (record' & Hset & Hget).
  assert (Hrec' : pydict_get (pydict_set (results self) "message" (VStr ""))
                    "record" = Some record).
  { rewrite pydict_get_set_ne by discriminate. exact Hrec. }
  set (store := pydict_set (pydict_set (results self) "message" (VStr ""))
                  "record" record').
  assert (Hcase :
    chat_stream_case self
    = Outcome (inr (VStr "", VStr url))
        (set_built_object (VDict store) (set_results store self)) []).
  { unfold chat_stream_case, bind, get_self, modify, py_getitem; simpl.
    rewrite Hrec'; simpl. rewrite Hset; simpl. reflexivity. }
  assert (Hrun :
    o = Outcome (inr (VStr ""))
          (set_artifacts
             (model_dump true
                {| message := VStr "";
                   sender := params_get (params self) "sender" VNone;
                   sender_name := params_get (params self) "sender_name" VNone;
                   stream_url := VStr url; files := VList fs;
                   type := VArtifactType STREAM |})
             (set_will_stream true
                (set_built_object (VDict store) (set_results store self)))) []).
  { subst o. unfold _process_chat_component, bind, get_self; simpl.
    rewrite Hfs; simpl. unfold py_getitem. rewrite Hmsg; simpl.
    rewrite (params_get_Some _ _ VNone _ Hparam); simpl.
    assert (Hms : chat_message_case py_str serialize_field
                    (VIter is_async items) text_output self
                  = chat_stream_case self).
    { by destruct text_output. }
    assert (HA : is_AIMessage text_output = false) by (by destruct text_output).
    assert (HU : is_UnbuiltObject text_output = false)
      by (by destruct text_output).
    rewrite HA, HU; simpl. rewrite Hms, Hcase. reflexivity. }
  rewrite Hrun; simpl.
  split; [reflexivity|].
  split; [unfold store; rewrite pydict_get_set_ne by discriminate;
          apply pydict_get_set_eq|].
  split; [exists record'; split; [apply pydict_get_set_eq|exact Hget]|].
  split; [reflexivity|]. split; [reflexivity|].
  unfold model_dump; simpl.
  destruct (is_VNone (params_get (params self) "sender" VNone));
    destruct (is_VNone (params_get (params self) "sender_name" VNone));
    simpl; eexists; (split; [reflexivity|]); repeat split.
Qed.

(** What the first half of [stream] leaves behind when the text of every
    chunk is a string. *)
Lemma stream_store_run (self : Vertex) (is_async : bool) (items : list value)
    (texts : list string) :
  map chunk_text items = map VStr texts ->
  is_iterable (params_get (params self) "files" (VList [])) = true ->
  exists files,
    let complete_message := concat_texts texts in
    let stored := VDict (stored_envelope self complete_message files) in
    stream_store INPUT_FIELD_NAME is_async items self
    = Outcome (inr complete_message)
        (set_built_result (VStr complete_message)
           (set_built_object (VRecord (VStr complete_message) stored [])
              (set_params
                 (<[INPUT_FIELD_NAME := VStr complete_message]> (params self))
                 (set_artifacts stored self))))
        (map (fun s => Yield (VStr s)) texts).
Proof.
  intros Htexts Hfiles.
  destruct (chat_files_run self self Hfiles) as [fs Hfs].
  exists fs. intros complete_message stored.
  assert (Hloop :
    (if is_async then stream_loop items "" else stream_loop items "") self
    = Outcome (inr complete_message) self
        (map (fun s => Yield (VStr s)) texts)).
  { destruct is_async; apply (stream_loop_run items texts "" self Htexts). }
  unfold stream_store, bind, get_self. rewrite Hloop; simpl.
  rewrite Hfs; simpl. by rewrite !app_nil_r.
Qed.

(** What [stream] leaves behind when every chunk carries a string. *)
Lemma stream_run (self : Vertex) (is_async : bool) (items : list value)
    (texts : list string) :
  keeps_record_build _finalize_build ->
  keeps_record_build _validate_built_object ->
  params self !! INPUT_FIELD_NAME = Some (VIter is_async items) ->
  map chunk_text items = map VStr texts ->
  is_iterable (params_get (params self) "files" (VList [])) = true ->
  exists files,
    let o := run_stream self in
    let complete_message := concat_texts texts in
    res o = inr tt
    /\ yields (trace o) = map VStr texts
    /\ artifacts (final o) = VDict (stored_envelope self complete_message files)
    /\ params (final o)
       = <[INPUT_FIELD_NAME := VStr complete_message]> (params self)
    /\ _built_object (final o)
       = VRecord (VStr complete_message) (artifacts (final o)) []
    /\ _built (final o) = true.
Proof.
  intros Hfin Hval Hparam Htexts Hfiles.
  destruct (stream_store_run self is_async items texts Htexts Hfiles)
    as [fs Hstore].
  exists fs. intros o complete_message. subst o. simpl in Hstore.
  fold complete_message in Hstore.
  set (v1 :=
    set_built_result (VStr complete_message)
      (set_built_object
         (VRecord (VStr complete_message)
            (VDict (stored_envelope self complete_message fs)) [])
         (set_params (<[INPUT_FIELD_NAME := VStr complete_message]> (params self))
            (set_artifacts (VDict (stored_envelope self complete_message fs))
               self)))) in *.
  destruct (Hfin v1 eq_refl) as (v2 & Hv2 & Ha2 & Hp2 & Hb2).
  assert (Hrec2 : is_Record (_built_object v2) = true) by (by rewrite Hb2).
  destruct (Hval v2 Hrec2) as (v3 & Hv3 & Ha3 & Hp3 & Hb3).
  assert (Hfinish :
    stream_finish _finalize_build _validate_built_object complete_message v1
    = Outcome (inr tt) (set_built true v3)
        [LoggerDebug [Lit "Streamed message: "; Lit complete_message];
         LogVertexBuild (flow_id (graph v2)) (vertex_id v2) true
           (artifacts v2)]).
  { unfold stream_finish, bind, get_self, call, emit, log_vertex_build, modify.
    rewrite Hv2; simpl. rewrite Hv3; simpl. reflexivity. }
  assert (Hrun : run_stream self
    = Outcome (inr tt) (set_built true v3)
        (map (fun s => Yield (VStr s)) texts
           ++ [LoggerDebug [Lit "Streamed message: "; Lit complete_message];
               LogVertexBuild (flow_id (graph v2)) (vertex_id v2) true
                 (artifacts v2)])).
  { unfold stream, bind, get_self; simpl.
    rewrite (params_get_Some _ _ VNone _ Hparam); simpl.
    rewrite Hstore, Hfinish. reflexivity. }
  rewrite Hrun; simpl.
  split; [reflexivity|]. split.
  { unfold yields. rewrite omap_app; simpl. rewrite app_nil_r.
    apply yields_texts. }
  rewrite Ha3, Ha2, Hp3, Hp2, Hb3, Hb2. repeat split.
Qed.

(** C2, as the code has it: [stream] fails with the invalid-source error
    when the input field is not an iterator (or is unset), the vertex
    untouched.  On an iterator it yields the text of each chunk in source
    order, the text being what the two probes of the loop body extract (the
    chunk's [content] if it has one, else the chunk; then the [text] of that
    if it has one).  When every extracted text is a string (the base-class
    methods it calls keeping a record build, and [files] walkable), then
    after exhaustion the artifact is the chat envelope with the
    concatenation of the yielded texts as its message and type [OBJECT], the
    input field holds that text, the built object is the record of that text
    and the artifacts, and the vertex is built.  At the first chunk whose
    extracted text is not a string the stream stops with a type error, that
    text yielded, and nothing is stored or built. *)
Theorem stream_yields_then_builds (self : Vertex) :
  keeps_record_build _finalize_build ->
  keeps_record_build _validate_built_object ->
  is_iterable (params_get (params self) "files" (VList [])) = true ->
  (is_iterator (params_get (params self) INPUT_FIELD_NAME VNone) = false ->
   res (run_stream self)
   = inl (ValueError
            [Lit "The message must be an iterator or an async iterator."])
   /\ final (run_stream self) = self
   /\ trace (run_stream self) = [])
  /\ (forall is_async items texts,
        params self !! INPUT_FIELD_NAME = Some (VIter is_async items) ->
        map chunk_text items = map VStr texts ->
        let o := run_stream self in
        let complete_message := concat_texts texts in
        res o = inr tt
        /\ yields (trace o) = map chunk_text items
        /\ (exists d,
              artifacts (final o) = VDict d
              /\ pydict_get d "message" = Some (VStr complete_message)
              /\ pydict_get d "type" = Some (VArtifactType OBJECT))
        /\ params (final o) !! INPUT_FIELD_NAME = Some (VStr complete_message)
        /\ _built_object (final o)
           = VRecord (VStr complete_message) (artifacts (final o)) []
        /\ _built (final o) = true)
  /\ (forall is_async pre bad post texts,
        params self !! INPUT_FIELD_NAME
        = Some (VIter is_async (pre ++ bad :: post)) ->
        map chunk_text pre = map VStr texts ->
        is_str (chunk_text bad) = false ->
        let o := run_stream self in
        res o = inl (TypeError [Lit "can only concatenate str (not ";
                                FmtType (chunk_text bad); Lit ") to str"])
        /\ yields (trace o) = map chunk_text (pre ++ [bad])
        /\ final o = self).
Proof.
  intros Hfin Hval Hfiles. split; [|split].
  - intros Hnot. unfold stream, bind, get_self; simpl.
    destruct (params_get (params self) INPUT_FIELD_NAME VNone);
      try discriminate Hnot; repeat split.
  - intros is_async items texts Hparam Htexts.
    destruct (stream_run self is_async items texts Hfin Hval Hparam Htexts Hfiles)
      as (files & Hres & Hyields & Harts & Hparams & Hobj & Hbuilt).
    simpl. repeat split; try assumption.
    + by rewrite Htexts.
    + eexists. split; [exact Harts|]. split; reflexivity.
    + rewrite Hparams. apply lookup_insert_eq.
  - intros is_async pre bad post texts Hparam Hpre Hbad.
    pose proof (stream_loop_fails pre post texts bad "" self Hpre Hbad)
      as Hloop.
    simpl. unfold stream, bind, get_self; simpl.
    rewrite (params_get_Some _ _ VNone _ Hparam); simpl.
    unfold stream_store, bind.
    assert (Hif : (if is_async then stream_loop (pre ++ bad :: post) ""
                   else stream_loop (pre ++ bad :: post) "") self
                  = stream_loop (pre ++ bad :: post) "" self)
      by (by destruct is_async).
    rewrite Hif, Hloop; simpl.
    split; [reflexivity|]. split; [|reflexivity].
    unfold yields. rewrite omap_app. simpl.
    rewrite map_app, Hpre. simpl. f_equal. apply yields_texts.
Qed.

Lemma chat_message_case_artifacts (message text_output : value)
    (self : Vertex) :
  artifacts (final (chat_message_case py_str serialize_field
                      message text_output self))
  = artifacts self.
Proof.
  assert (Hstream : artifacts (final (chat_stream_case self)) = artifacts self).
  { unfold chat_stream_case, bind, get_self, modify, py_getitem; simpl.
    destruct (pydict_get (pydict_set (results self) "message" (VStr ""))
                "record") as [record|]; simpl; [|reflexivity].
    destruct record; reflexivity. }
  assert (Hdefault :
    artifacts
      (final
         ((if is_iterator message then chat_stream_case
           else if negb (is_str text_output)
                then ret (VStr (py_str text_output), VNone)
                else ret (text_output, VNone)) self))
    = artifacts self).
  { destruct (is_iterator message); [exact Hstream|].
    by destruct (negb (is_str text_output)). }
  destruct text_output; try exact Hdefault; simpl; [|reflexivity].
  unfold bind, dict_to_codeblock.
  match goal with
  | |- context [json_dumps ?x] => by destruct (json_dumps x)
  end.
Qed.

(** C6, the chat path: an envelope that [_process_chat_component] stores
    has no null field. *)
Lemma chat_envelope_no_null (self : Vertex) :
  let o := chat self in
  artifacts (final o) = artifacts self
  \/ no_null_fields (artifacts (final o)) = true.
Proof.
  unfold _process_chat_component, bind, get_self; simpl.
  destruct (chat_files_total self self) as [[e|fs] Hfs]; rewrite Hfs; simpl;
    [by left|].
  unfold py_getitem.
  destruct (pydict_get (results self) "message") as [text_output|]; simpl;
    [|by left].
  destruct (is_AIMessage text_output); simpl;
    [right; apply model_dump_no_null|].
  destruct (is_UnbuiltObject text_output); simpl; [by left|].
  match goal with
  | |- context [chat_message_case _ _ ?m ?t self] =>
      pose proof (chat_message_case_artifacts m t self) as Harts;
        destruct (chat_message_case py_str serialize_field m t self)
        as [[e|ms] v tr]
  end; cbn -[model_dump no_null_fields] in *; [by left|].
  right. apply model_dump_no_null.
Qed.

(** C6, the stream path: the envelope that [stream] stores when it has
    drained the stream keeps the field [stream_url] with the value [None]
    ([model_dump] is called without [exclude_none]); and it is still the
    artifact of the vertex when [stream] has returned, if the base-class
    methods leave the artifacts alone. *)
Theorem stream_envelope_keeps_null_field (self : Vertex) (is_async : bool)
    (items : list value) (texts : list string) :
  params self !! INPUT_FIELD_NAME = Some (VIter is_async items) ->
  map preferred_text items = map VStr texts ->
  is_iterable (params_get (params self) "files" (VList [])) = true ->
  (let stored :=
     artifacts (final (stream_store INPUT_FIELD_NAME is_async items self)) in
   (exists d, stored = VDict d /\ pydict_get d "stream_url" = Some VNone)
   /\ no_null_fields stored = false)
  /\ (keeps_record_build _finalize_build ->
      keeps_record_build _validate_built_object ->
      let o := run_stream self in
      res o = inr tt
      /\ (exists d,
            artifacts (final o) = VDict d
            /\ pydict_get d "stream_url" = Some VNone)
      /\ no_null_fields (artifacts (final o)) = false).
Proof.
  intros Hparam Htexts Hfiles.
  apply preferred_texts_are_chunk_texts in Htexts.
  assert (Hnull : forall cm fs,
            no_null_fields (VDict (stored_envelope self cm fs)) = false).
  { intros cm fs. simpl. by rewrite !andb_false_r. }
  split.
  - destruct (stream_store_run self is_async items texts Htexts Hfiles)
      as [fs Hstore].
    cbv zeta in Hstore. rewrite Hstore.
    split; [|exact (Hnull (concat_texts texts) fs)].
    eexists. split; reflexivity.
  - intros Hfin Hval.
    destruct (stream_run self is_async items texts Hfin Hval Hparam Htexts Hfiles)
      as (files & Hres & _ & Harts & _).
    cbv zeta. split; [exact Hres|]. rewrite Harts.
    split; [|exact (Hnull (concat_texts texts) files)].
    eexists. split; reflexivity.
Qed.


End InterfaceProps.

(** ** The interface properties on the sample vertices *)

Lemma sample_hook_keeps_record_build : keeps_record_build sample_hook.
Proof. intros v _. exists v. repeat split. Qed.

Lemma chat_streaming_case_witness :
  let o :=
    _process_chat_component sample_input_field sample_unescape sample_str
      sample_from_message sample_serialize streaming_vertex in
  res o = inr (VStr "")
  /\ pydict_get (results (final o)) "message" = Some (VStr "")
  /\ will_stream (final o) = true
  /\ exists d,
       artifacts (final o) = VDict d
       /\ pydict_get d "stream_url"
          = Some (VStr "/api/v1/build/flow-1/chat-1/stream")
       /\ pydict_get d "type" = Some (VArtifactType STREAM).
Proof.
  destruct (chat_streaming_case sample_input_field sample_unescape sample_str
              sample_from_message sample_serialize streaming_vertex
              (VIter false hello_world) (VRecord (VStr "") (VDict []) [])
              false hello_world eq_refl eq_refl eq_refl eq_refl eq_refl eq_refl)
    as (Hres & Hmsg & _ & _ & Hwill & d & Harts & _ & Hurl & Htype).
  split; [exact Hres|]. split; [exact Hmsg|]. split; [exact Hwill|].
  exists d. split; [exact Harts|]. split; [exact Hurl|exact Htype].
Defined.

Lemma stream_yields_then_builds_witness :
  let run := stream sample_input_field sample_hook sample_hook in
  res (run plain_vertex)
  = inl (ValueError [Lit "The message must be an iterator or an async iterator."])
  /\ yields (trace (run streaming_vertex)) = [VStr "Hello "; VStr "world"]
  /\ params (final (run streaming_vertex)) !! sample_input_field
     = Some (VStr "Hello world")
  /\ _built (final (run streaming_vertex)) = true
  /\ yields (trace (run mixed_stream_vertex))
     = [VStr "Hel"; VStr "lo "; VStr "world"]
  /\ params (final (run mixed_stream_vertex)) !! sample_input_field
     = Some (VStr "Hello world")
  /\ yields (trace (run list_content_vertex))
     = [VStr "Hello "; VList [VStr "world"]]
  /\ final (run list_content_vertex) = list_content_vertex.
Proof.
  destruct (stream_yields_then_builds sample_input_field sample_hook sample_hook
              plain_vertex sample_hook_keeps_record_build
              sample_hook_keeps_record_build eq_refl) as (Hfail & _).
  destruct (stream_yields_then_builds sample_input_field sample_hook sample_hook
              streaming_vertex sample_hook_keeps_record_build
              sample_hook_keeps_record_build eq_refl) as (_ & Hrun & _).
  destruct (stream_yields_then_builds sample_input_field sample_hook sample_hook
              mixed_stream_vertex sample_hook_keeps_record_build
              sample_hook_keeps_record_build eq_refl) as (_ & Hmixed & _).
  destruct (stream_yields_then_builds sample_input_field sample_hook sample_hook
              list_content_vertex sample_hook_keeps_record_build
              sample_hook_keeps_record_build eq_refl) as (_ & _ & Hstop).
  destruct (Hfail eq_refl) as (Herr & _).
  destruct (Hrun false hello_world ["Hello "; "world"] eq_refl eq_refl)
    as (_ & Hyields & _ & Hparam & _ & Hbuilt).
  destruct (Hmixed true mixed_chunks ["Hel"; "lo "; "world"] eq_refl eq_refl)
    as (_ & Hyields' & _ & Hparam' & _).
  destruct (Hstop false [VStr "Hello "] (VAIMessage true (VList [VStr "world"]))
              [VStr "!"] ["Hello "] eq_refl eq_refl eq_refl)
    as (_ & Hyields'' & Hfinal'').
  split; [exact Herr|]. split; [exact Hyields|]. split; [exact Hparam|].
  split; [exact Hbuilt|]. split; [exact Hyields'|]. split; [exact Hparam'|].
  split; [exact Hyields''|exact Hfinal''].
Defined.

(** C2, as the claim states it, fails at the chunk sequence
    ["Hello ", a message chunk with the content ["world"], "!"]: the text the
    claim extracts from the second chunk is its content, a list; the stream
    stops there with a type error, the third chunk never read, and the
    vertex is neither built nor given an artifact.  And at a message chunk
    whose content has a text of its own the stream yields that inner text,
    not the content the claim prefers. *)
Lemma stream_not_every_chunk_sequence_builds :
  let run := stream sample_input_field sample_hook sample_hook in
  map preferred_text list_content_chunks
  = [VStr "Hello "; VList [VStr "world"]; VStr "!"]
  /\ res (run list_content_vertex)
     = inl (TypeError [Lit "can only concatenate str (not ";
                       FmtType (VList [VStr "world"]); Lit ") to str"])
  /\ yields (trace (run list_content_vertex))
     = [VStr "Hello "; VList [VStr "world"]]
  /\ _built (final (run list_content_vertex)) = false
  /\ artifacts (final (run list_content_vertex)) = VNone
  /\ preferred_text nested_text_chunk = VObject [("text", VStr "inner")]
  /\ yields (trace (run nested_text_vertex)) = [VStr "inner"].
Proof. repeat split. Qed.

Lemma stream_envelope_keeps_null_field_witness :
  let o := stream sample_input_field sample_hook sample_hook streaming_vertex in
  artifacts (final o)
  = VDict [("message", VStr "Hello world"); ("sender", VStr "Machine");
           ("sender_name", VStr ""); ("stream_url", VNone);
           ("files", VList [VDict [("path", VStr "a.txt")]]);
           ("type", VArtifactType OBJECT); ("text", VStr "Hello world")]
  /\ no_null_fields (artifacts (final o)) = false
  /\ no_null_fields
       (artifacts (final (stream_store sample_input_field false hello_world
                            streaming_vertex))) = false.
Proof.
  destruct (stream_envelope_keeps_null_field sample_input_field sample_hook
              sample_hook streaming_vertex false hello_world ["Hello "; "world"]
              eq_refl eq_refl eq_refl) as ((_ & Hstored) & Hfinal).
  destruct (Hfinal sample_hook_keeps_record_build sample_hook_keeps_record_build)
    as (_ & _ & Hnull).
  split; [reflexivity|]. split; [exact Hnull|exact Hstored].
Defined.



(** * Further properties of [types.py] *)

(** ** [ComponentVertex.get_edge_with_target] *)

(** X1: The linear scan returns the first edge whose target is the requested id:
    the edge is one of the vertex's edges, it has that target and no edge
    before it has; and it returns [None] exactly when no edge has that
    target. *)
Theorem get_edge_with_target_first_match (self : Vertex) (target : string) :
  match get_edge_with_target self target with
  | Some edge =>
      exists pre post,
        edges self = pre ++ edge :: post
        /\ List.Forall (fun e => target_id e <> target) pre
        /\ target_id edge = target
  | None => List.Forall (fun e => target_id e <> target) (edges self)
  end.
Proof.
  unfold get_edge_with_target.
  induction (edges self) as [|e es IH]; simpl.
  - constructor.
  - destruct (String.eqb (target_id e) target) eqn:E.
    + apply String.eqb_eq in E. exists [], es. repeat split; auto.
    + apply String.eqb_neq in E.
      destruct (first_edge_with_target es target) as [edge|].
      * destruct IH as (pre & post & -> & Hpre & Htgt).
        exists (e :: pre), post. repeat split; auto.
      * constructor; assumption.
Qed.

(** ** [ComponentVertex._get_result] after a build *)

(** X2: What [_update_built_object_and_artifacts] stored is what [_get_result]
    hands over: once the vertex is marked built, a requester reached by an
    edge from handle [h] receives the value the mapping had under [h], and
    the vertex is not changed by the handoff. *)
Theorem normalized_result_is_handed_over (self req : Vertex) (d : pydict)
    (pre post : list ContractEdge) (edge : ContractEdge) (x : value) :
  List.NoDup (map fst d) ->
  In (name (source_handle edge), x) d ->
  edges self = pre ++ edge :: post ->
  List.Forall (fun e => target_id e <> vertex_id req) pre ->
  target_id edge = vertex_id req ->
  let built :=
    set_built true (final (_update_built_object_and_artifacts (VDict d) self)) in
  res (_get_result (Some req) built) = inr x
  /\ final (_get_result (Some req) built) = built
  /\ trace (_get_result (Some req) built)
     = [LogTransaction (vertex_id self) (Some (vertex_id req))
          (flow_id (graph self)) "success"].
Proof.
  intros Hnd Hin Hedges Hpre Htgt built.
  assert (Hfinal : final (_update_built_object_and_artifacts (VDict d) self)
    = set_results (store_all d (results self))
        (set_built_object (VDict d) self)).
  { unfold _update_built_object_and_artifacts, bind, modify, get_self,
      py_items; simpl. rewrite add_results_run. reflexivity. }
  subst built. rewrite Hfinal.
  pose proof (store_all_in d (results self) _ x Hnd Hin) as Hlookup.
  pose proof (first_edge_with_target_Some pre post edge _ Hpre Htgt) as Hedge.
  unfold _get_result, bind, get_self, log_transaction, emit,
    get_edge_with_target; simpl.
  rewrite Hedges, Hedge, Hlookup; simpl. repeat split.
Qed.

Lemma normalized_result_is_handed_over_witness :
  let built :=
    set_built true
      (final (_update_built_object_and_artifacts (VDict fresh_outputs)
                producer_unbuilt)) in
  res (_get_result (Some (blank_vertex "B")) built) = inr (VInt 7).
Proof.
  assert (Hnd : List.NoDup (map fst fresh_outputs)).
  { apply distinct_keys_NoDup. reflexivity. }
  destruct (normalized_result_is_handed_over producer_unbuilt (blank_vertex "B")
              fresh_outputs []
              [edge_to "C" "gone"; edge_to "B" "other"]
              (edge_to "B" "out") (VInt 7) Hnd) as (Hres & _).
  - left; reflexivity.
  - reflexivity.
  - constructor.
  - reflexivity.
  - exact Hres.
Defined.

(** ** [ComponentVertex._update_built_object_and_artifacts], the other shapes *)

(** X3: A (component, object, artifacts) triple keeps the component and is
    otherwise treated as the pair (object, artifacts): the same built object,
    artifacts and result store. *)
Theorem update_triple_as_pair (self : Vertex) (c a : value) (d : pydict) :
  let triple :=
    _update_built_object_and_artifacts (VTuple [c; VDict d; a]) self in
  let pair := _update_built_object_and_artifacts (VTuple [VDict d; a]) self in
  res triple = inr tt
  /\ _custom_component (final triple) = c
  /\ final triple = set_custom_component c (final pair)
  /\ _built_object (final triple) = VDict d
  /\ artifacts (final triple) = a
  /\ results (final triple) = results (final pair).
Proof.
  unfold _update_built_object_and_artifacts, bind, modify, get_self, py_items;
    simpl. rewrite !add_results_run; simpl. repeat split.
Qed.

(** X4: A tuple of any other length assigns nothing: the built object, the
    artifacts and the component are as before, and the loop walks the built
    object the vertex already had.  If that is not a mapping the call fails
    and the vertex is unchanged: with an attribute error when the object has
    no [items] attribute (a vertex that was never built holds the unbuilt
    placeholder), with a type error when it has one, which cannot be called
    (a record answers every attribute name). *)
Theorem update_malformed_tuple (self : Vertex) (l : list value) :
  length l <> 2 -> length l <> 3 ->
  let o := _update_built_object_and_artifacts (VTuple l) self in
  _built_object (final o) = _built_object self
  /\ artifacts (final o) = artifacts self
  /\ _custom_component (final o) = _custom_component self
  /\ match _built_object self with
     | VDict d0 => res o = inr tt /\ results (final o) = store_all d0 (results self)
     | other =>
         final o = self
         /\ res o
            = inl (match py_getattr other "items" with
                   | None => AttributeError other "items"
                   | Some f =>
                       TypeError [FmtType f; Lit " object is not callable"]
                   end)
     end.
Proof.
  intros H2 H3.
  assert (Hskip : forall self,
    _update_built_object_and_artifacts (VTuple l) self
    = (kvs <- py_items (_built_object self) ;; add_results kvs) self).
  { intros v. unfold _update_built_object_and_artifacts, bind, get_self, ret.
    destruct l as [|x1 [|x2 [|x3 [|x4 l]]]]; simpl in *; try lia;
      (destruct (py_items (_built_object v) v) as [[e|kvs] v' t]; simpl;
       [reflexivity|by destruct (add_results kvs v') as [r s t']]). }
  cbv zeta. rewrite Hskip. unfold bind, py_items.
  destruct (_built_object self) eqn:Hb;
    try (match goal with
         | |- context [py_getattr ?x "items"] =>
             destruct (py_getattr x "items")
         end; simpl; by repeat split).
  simpl. rewrite add_results_run; simpl. by rewrite Hb.
Qed.

Lemma update_malformed_tuple_witness :
  res (_update_built_object_and_artifacts (VTuple [VInt 1]) (blank_vertex "A"))
  = inl (AttributeError VUnbuilt "items")
  /\ results (final (_update_built_object_and_artifacts (VTuple []) producer))
     = [("out", VInt 42)]
  /\ res (_update_built_object_and_artifacts (VTuple [])
            (set_built_object record_one (blank_vertex "A")))
     = inl (TypeError [FmtType (VStr ""); Lit " object is not callable"]).
Proof.
  split; [|split].
  - destruct (update_malformed_tuple (blank_vertex "A") [VInt 1])
      as (_ & _ & _ & _ & Hres); simpl; try lia. exact Hres.
  - destruct (update_malformed_tuple producer [])
      as (_ & _ & _ & _ & Hres); simpl; try lia. exact Hres.
  - destruct (update_malformed_tuple
                (set_built_object record_one (blank_vertex "A")) [])
      as (_ & _ & _ & _ & Hres); simpl; try lia. exact Hres.
Defined.

Lemma pydict_set_same (d : pydict) (k : string) (v : value) :
  pydict_get d k = Some v -> pydict_set d k v = d.
Proof.
  induction d as [|[k' v'] d IH]; simpl; [discriminate|].
  destruct (String.eqb k' k); intros H.
  - by injection H as ->.
  - by rewrite IH.
Qed.

Lemma store_all_again (kvs store : pydict) :
  (forall k v, In (k, v) kvs -> pydict_get store k = Some v) ->
  store_all kvs store = store.
Proof.
  induction kvs as [|[k v] kvs IH]; intros Hall; [reflexivity|].
  unfold store_all in *. simpl.
  rewrite (pydict_set_same store k v) by (apply Hall; by left).
  apply IH. intros k' v' Hin. apply Hall. by right.
Qed.

(** X5: Normalizing the same mapping a second time changes nothing: the vertex
    after two calls is the vertex after one. *)
Theorem update_twice_is_once (self : Vertex) (d : pydict) :
  List.NoDup (map fst d) ->
  let once := final (_update_built_object_and_artifacts (VDict d) self) in
  final (_update_built_object_and_artifacts (VDict d) once) = once.
Proof.
  intros Hnd.
  assert (Hfinal : forall v,
    final (_update_built_object_and_artifacts (VDict d) v)
    = set_results (store_all d (results v)) (set_built_object (VDict d) v)).
  { intros v. unfold _update_built_object_and_artifacts, bind, modify,
      get_self, py_items; simpl. rewrite add_results_run. reflexivity. }
  simpl. rewrite !Hfinal. simpl.
  rewrite (store_all_again d (store_all d (results self))); [reflexivity|].
  intros k v Hin. by apply store_all_in.
Qed.

Lemma update_twice_is_once_witness :
  let once :=
    final (_update_built_object_and_artifacts (VDict two_outputs) producer) in
  final (_update_built_object_and_artifacts (VDict two_outputs) once) = once
  /\ results once = [("out", VInt 42); ("a", VInt 1); ("b", VInt 2)].
Proof.
  split; [|reflexivity].
  apply (update_twice_is_once producer two_outputs).
  apply distinct_keys_NoDup. reflexivity.
Defined.

(** ** [_built_object_repr] of the component, custom and state vertices *)

(** X6: The method returns the artifacts' [repr] entry when that entry is truthy
    and asks the base class only when the entry is there but falsy.  With no
    artifacts, empty artifacts, or artifacts without a [repr] entry it falls
    off the end and returns [None], without asking the base class.  It never
    changes the vertex. *)
Theorem built_object_repr_cases (super_repr : Vertex -> exn + value)
    (self : Vertex) :
  let o := _built_object_repr super_repr self in
  final o = self
  /\ trace o = []
  /\ (py_truthy (artifacts self) = false -> res o = inr VNone)
  /\ (forall d,
        artifacts self = VDict d -> pydict_get d "repr" = None ->
        res o = inr VNone)
  /\ (forall d repr,
        artifacts self = VDict d -> pydict_get d "repr" = Some repr ->
        res o = if py_truthy repr then inr repr else super_repr self).
Proof.
  assert (Hin : forall d,
    existsb (String.eqb "repr") (map fst d)
    = match pydict_get d "repr" with Some _ => true | None => false end).
  { induction d as [|[k v] d IH]; [reflexivity|].
    cbn [existsb map fst pydict_get].
    rewrite (String.eqb_sym "repr" k).
    destruct (String.eqb k "repr"); [reflexivity|exact IH]. }
  simpl. unfold _built_object_repr, bind, get_self; simpl.
  split; [|split; [|split; [|split]]].
  - destruct (py_truthy (artifacts self)); [|reflexivity].
    destruct (artifacts self); simpl; try reflexivity.
    + by destruct (is_substring "repr" s).
    + by destruct (existsb (is_the_str "repr") l).
    + by destruct (existsb (is_the_str "repr") l).
    + rewrite Hin. unfold py_getitem.
      destruct (pydict_get d "repr") as [r|]; simpl; [|reflexivity].
      destruct (py_truthy r); simpl; [reflexivity|].
      by destruct (super_repr self).
    + by destruct (existsb (is_the_str "repr") items).
  - destruct (py_truthy (artifacts self)); [|reflexivity].
    destruct (artifacts self); simpl; try reflexivity.
    + by destruct (is_substring "repr" s).
    + by destruct (existsb (is_the_str "repr") l).
    + by destruct (existsb (is_the_str "repr") l).
    + rewrite Hin. unfold py_getitem.
      destruct (pydict_get d "repr") as [r|]; simpl; [|reflexivity].
      destruct (py_truthy r); simpl; [reflexivity|].
      by destruct (super_repr self).
    + by destruct (existsb (is_the_str "repr") items).
  - by intros ->.
  - intros d Hd Hnone. rewrite Hd.
    destruct (py_truthy (VDict d)); [|reflexivity].
    simpl. rewrite Hin, Hnone. reflexivity.
  - intros d repr Hd Hsome. rewrite Hd.
    destruct (py_truthy (VDict d)) eqn:Ht.
    + simpl. rewrite Hin. unfold py_getitem. rewrite Hsome; simpl.
      destruct (py_truthy repr); simpl; [reflexivity|].
      by destruct (super_repr self).
    + destruct d; [discriminate Hsome|discriminate Ht].
Qed.

Lemma built_object_repr_cases_witness :
  let base (_ : Vertex) : exn + value := inr (VStr "base") in
  res (_built_object_repr base (blank_vertex "A")) = inr VNone
  /\ res (_built_object_repr base
            (set_artifacts (VDict [("other", VInt 1)]) (blank_vertex "A")))
     = inr VNone
  /\ res (_built_object_repr base
            (set_artifacts (VDict [("repr", VStr "shown")]) (blank_vertex "A")))
     = inr (VStr "shown")
  /\ res (_built_object_repr base
            (set_artifacts (VDict [("repr", VStr "")]) (blank_vertex "A")))
     = inr (VStr "base").
Proof.
  intros base. split; [|split; [|split]].
  - destruct (built_object_repr_cases base (blank_vertex "A"))
      as (_ & _ & H & _). by apply H.
  - destruct (built_object_repr_cases base
                (set_artifacts (VDict [("other", VInt 1)]) (blank_vertex "A")))
      as (_ & _ & _ & H & _). by apply (H [("other", VInt 1)]).
  - destruct (built_object_repr_cases base
                (set_artifacts (VDict [("repr", VStr "shown")]) (blank_vertex "A")))
      as (_ & _ & _ & _ & H).
    by apply (H [("repr", VStr "shown")] (VStr "shown")).
  - destruct (built_object_repr_cases base
                (set_artifacts (VDict [("repr", VStr "")]) (blank_vertex "A")))
      as (_ & _ & _ & _ & H).
    by apply (H [("repr", VStr "")] (VStr "")).
Defined.

(** ** [InterfaceVertex._process_record_component], further *)

Lemma record_loop_all_records (flag : value) (l acc : list value)
    (self : Vertex) :
  List.Forall (fun x => is_Record x = true) l ->
  record_loop flag l acc self
  = Outcome (inr (acc ++ map Record_data l)) self [].
Proof.
  intros Hall. revert acc.
  induction Hall as [|x l Hx _ IH]; intros acc; simpl.
  - unfold ret. by rewrite app_nil_r.
  - destruct x; try discriminate. rewrite IH. by rewrite <- app_assoc.
Qed.

(** X7: A list of records only (the empty list too) is processed without error
    and without a log line, whatever [ignore_errors] holds: the records are
    the raw data of the elements in order; the method returns the built
    object, and assigns nothing but the artifacts. *)
Theorem process_record_all_records (self : Vertex) (l : list value) :
  _built_object self = VList l ->
  List.Forall (fun x => is_Record x = true) l ->
  let o := _process_record_component self in
  res o = inr (VList l)
  /\ final o = set_artifacts (VRecordOutputResponse (map Record_data l)) self
  /\ trace o = [].
Proof.
  intros Hb Hall.
  simpl. unfold _process_record_component, bind, get_self; simpl.
  rewrite Hb; simpl. rewrite (record_loop_all_records _ l [] self Hall); simpl.
  rewrite Hb. repeat split.
Qed.

Lemma process_record_all_records_witness :
  artifacts (final (_process_record_component
                      (set_built_object (VList [record_one; record_two])
                         (blank_vertex "R"))))
  = VRecordOutputResponse [VDict [("n", VInt 1)]; VDict [("n", VInt 2)]]
  /\ artifacts (final (_process_record_component
                         (set_built_object (VList []) (blank_vertex "R"))))
     = VRecordOutputResponse [].
Proof.
  split.
  - destruct (process_record_all_records
                (set_built_object (VList [record_one; record_two])
                   (blank_vertex "R")) [record_one; record_two] eq_refl)
      as (_ & Hfinal & _).
    + repeat constructor.
    + rewrite Hfinal. reflexivity.
  - destruct (process_record_all_records
                (set_built_object (VList []) (blank_vertex "R")) [] eq_refl)
      as (_ & Hfinal & _).
    + constructor.
    + rewrite Hfinal. reflexivity.
Defined.

Lemma record_loop_keeps_vertex (flag : value) (l acc : list value)
    (self : Vertex) :
  final (record_loop flag l acc self) = self.
Proof.
  revert acc. induction l as [|x l IH]; intros acc; simpl; [reflexivity|].
  destruct x; simpl;
    try (destruct (py_truthy flag); simpl; [|reflexivity];
         unfold bind, emit; simpl;
         specialize (IH acc);
         destruct (record_loop flag l acc self) as [[e0|r0] v0 tr0];
         exact IH).
  apply IH.
Qed.

(** X8: The record path is all or nothing: either it returns the built object
    and the only change to the vertex is the new artifacts, a records
    response; or it raises and the vertex is exactly as it was. *)
Theorem process_record_all_or_nothing (self : Vertex) :
  let o := _process_record_component self in
  (res o = inr (_built_object self)
   /\ exists records,
        final o = set_artifacts (VRecordOutputResponse records) self)
  \/ ((exists e, res o = inl e) /\ final o = self).
Proof.
  simpl. unfold _process_record_component, bind, get_self; simpl.
  destruct (_built_object self) eqn:Hb; simpl;
    try (right; split; [eexists|]; reflexivity).
  - pose proof (record_loop_keeps_vertex
                  (params_get (params self) "ignore_errors" (VBool false))
                  l [] self) as Hkeep.
    destruct (record_loop _ l [] self) as [[e|records] v t]; simpl in *;
      subst v.
    + right. split; [eexists|]; reflexivity.
    + left. rewrite Hb. split; [reflexivity|eexists; reflexivity].
  - left. rewrite Hb. split; [reflexivity|eexists; reflexivity].
Qed.

(** ** [InterfaceVertex.build_stream_url] *)

Lemma append_cancel_l (p a b : string) : p +:+ a = p +:+ b -> a = b.
Proof.
  induction p as [|c p IH]; intros H; [exact H|].
  change (String c (p +:+ a) = String c (p +:+ b)) in H.
  injection H as H. by apply IH.
Qed.

Lemma append_length (a b : string) :
  String.length (a +:+ b) = String.length a + String.length b.
Proof.
  induction a as [|c a IH]; [reflexivity|].
  change (S (String.length (a +:+ b)) = S (String.length a + String.length b)).
  by rewrite IH.
Qed.

Lemma append_cancel_r (a b c : string) : a +:+ c = b +:+ c -> a = b.
Proof.
  revert b. induction a as [|x a IH]; intros [|y b] H.
  - reflexivity.
  - apply (f_equal String.length) in H.
    change (String.length c = S (String.length (b +:+ c))) in H.
    rewrite append_length in H. lia.
  - apply (f_equal String.length) in H.
    change (S (String.length (a +:+ c)) = String.length c) in H.
    rewrite append_length in H. lia.
  - change (String x (a +:+ c) = String y (b +:+ c)) in H.
    injection H as -> H. f_equal. by apply IH.
Qed.

(** X9: Within one flow the stream address identifies the vertex: two vertices
    of the same flow with the same address have the same id.  Across flows
    it need not: a slash in an id lets two different (flow, vertex) pairs
    share an address. *)
Theorem build_stream_url_identifies_vertex :
  (forall v w : Vertex,
     flow_id (graph v) = flow_id (graph w) ->
     build_stream_url v = build_stream_url w -> vertex_id v = vertex_id w)
  /\ (exists v w : Vertex,
        build_stream_url v = build_stream_url w
        /\ vertex_id v <> vertex_id w).
Proof.
  split.
  - intros v w Hflow Hurl. unfold build_stream_url in Hurl.
    rewrite Hflow in Hurl.
    apply append_cancel_l in Hurl. apply append_cancel_l in Hurl.
    apply append_cancel_l in Hurl. by apply append_cancel_r in Hurl.
  - exists
      {| vertex_id := "c"; display_name := ""; edges := [];
         graph := {| flow_id := "a/b"; successor_map := ∅;
                     activated_vertices := [] |};
         _built := false; params := ∅; results := []; artifacts := VNone;
         _built_object := VUnbuilt; _built_result := VNone;
         _custom_component := VNone; will_stream := false |},
      {| vertex_id := "b/c"; display_name := ""; edges := [];
         graph := {| flow_id := "a"; successor_map := ∅;
                     activated_vertices := [] |};
         _built := false; params := ∅; results := []; artifacts := VNone;
         _built_object := VUnbuilt; _built_result := VNone;
         _custom_component := VNone; will_stream := false |}.
    split; [reflexivity|discriminate].
Qed.

(** ** [InterfaceVertex.stream], further *)

(** X10: The two probes of the loop body run one after the other.  A chunk
    with a [content] gives the [text] of that content when the content has
    one, and the content itself when it has none; a chunk without a
    [content] gives its [text] when it has one, and itself when it has
    none.  So the text is the one preferred in the order content, text,
    chunk, except when the content has a text of its own. *)
Theorem chunk_text_probes (chunk : value) :
  (forall content inner,
     py_getattr chunk "content" = Some content ->
     py_getattr content "text" = Some inner ->
     chunk_text chunk = inner)
  /\ (forall content,
        py_getattr chunk "content" = Some content ->
        py_getattr content "text" = None ->
        chunk_text chunk = content)
  /\ (forall text,
        py_getattr chunk "content" = None ->
        py_getattr chunk "text" = Some text ->
        chunk_text chunk = text)
  /\ (py_getattr chunk "content" = None ->
      py_getattr chunk "text" = None ->
      chunk_text chunk = chunk)
  /\ (chunk_text chunk <> preferred_text chunk ->
      exists content inner,
        py_getattr chunk "content" = Some content
        /\ py_getattr content "text" = Some inner
        /\ inner <> content).
Proof.
  unfold chunk_text, preferred_text, py_hasattr.
  split; [|split; [|split; [|split]]].
  - intros content inner Hc Ht. rewrite Hc; simpl. by rewrite Ht.
  - intros content Hc Ht. rewrite Hc; simpl. by rewrite Ht.
  - intros text Hc Ht. rewrite Hc; simpl. by rewrite Ht.
  - intros Hc Ht. rewrite Hc; simpl. by rewrite Ht.
  - destruct (py_getattr chunk "content") as [content|] eqn:Hc; simpl.
    + destruct (py_getattr content "text") as [inner|] eqn:Ht; simpl.
      * intros Hne. exists content, inner. auto.
      * intros Hne. by destruct Hne.
    + destruct (py_getattr chunk "text"); intros Hne; by destruct Hne.
Qed.

Lemma chunk_text_probes_witness :
  chunk_text nested_text_chunk = VStr "inner"
  /\ chunk_text (VAIMessage true (VStr "Hel")) = VStr "Hel"
  /\ chunk_text (VObject [("text", VStr "lo ")]) = VStr "lo "
  /\ chunk_text (VStr "world") = VStr "world".
Proof.
  split; [|split; [|split]].
  - destruct (chunk_text_probes nested_text_chunk) as (H & _).
    exact (H (VObject [("text", VStr "inner")]) (VStr "inner") eq_refl eq_refl).
  - destruct (chunk_text_probes (VAIMessage true (VStr "Hel")))
      as (_ & H & _).
    exact (H (VStr "Hel") eq_refl eq_refl).
  - destruct (chunk_text_probes (VObject [("text", VStr "lo ")]))
      as (_ & _ & H & _).
    exact (H (VStr "lo ") eq_refl eq_refl).
  - destruct (chunk_text_probes (VStr "world")) as (_ & _ & _ & H & _).
    exact (H eq_refl eq_refl).
Defined.

Section StreamFailure.

Variable INPUT_FIELD_NAME : string.
Variable _finalize_build : Vertex -> exn + Vertex.
Variable _validate_built_object : Vertex -> exn + Vertex.

(** X11: A chunk whose text is not a string stops the stream: the texts of the
    chunks before it and its own text have been yielded, the concatenation
    raises a type error, and the vertex is exactly as it was before the
    call, neither built nor given artifacts. *)
Theorem stream_stops_at_non_text_chunk (self : Vertex) (is_async : bool)
    (pre post : list value) (texts : list string) (bad : value) :
  params self !! INPUT_FIELD_NAME = Some (VIter is_async (pre ++ bad :: post)) ->
  map chunk_text pre = map VStr texts ->
  is_str (chunk_text bad) = false ->
  let o := stream INPUT_FIELD_NAME _finalize_build _validate_built_object self in
  res o = inl (TypeError [Lit "can only concatenate str (not ";
                          FmtType (chunk_text bad); Lit ") to str"])
  /\ yields (trace o) = map VStr texts ++ [chunk_text bad]
  /\ final o = self.
Proof.
  intros Hparam Hpre Hbad.
  pose proof (stream_loop_fails pre post texts bad "" self Hpre Hbad) as Hloop.
  simpl. unfold stream, bind, get_self; simpl.
  rewrite (params_get_Some _ _ VNone _ Hparam); simpl.
  unfold stream_store, bind.
  assert (Hif : (if is_async then stream_loop (pre ++ bad :: post) ""
                 else stream_loop (pre ++ bad :: post) "") self
                = stream_loop (pre ++ bad :: post) "" self)
    by (by destruct is_async).
  rewrite Hif, Hloop; simpl.
  split; [reflexivity|]. split; [|reflexivity].
  unfold yields. rewrite omap_app. simpl.
  f_equal. apply yields_texts.
Qed.

End StreamFailure.

Lemma stream_stops_at_non_text_chunk_witness :
  let v :=
    set_params
      {[ sample_input_field := VIter false [VStr "a"; VInt 3; VStr "b"] ]}
      (blank_vertex "x") in
  let o := stream sample_input_field sample_hook sample_hook v in
  yields (trace o) = [VStr "a"; VInt 3] /\ final o = v.
Proof.
  intros v.
  destruct (stream_stops_at_non_text_chunk sample_input_field sample_hook
              sample_hook v false [VStr "a"] [VStr "b"] ["a"] (VInt 3)
              eq_refl eq_refl eq_refl) as (_ & Hyields & Hfinal).
  split; [exact Hyields|exact Hfinal].
Defined.

(** ** [InterfaceVertex._process_chat_component], further *)

Lemma is_iterator_input_message (INPUT_FIELD_NAME : string)
    (unescape_string : string -> string) (self : Vertex) :
  is_iterator (input_message INPUT_FIELD_NAME unescape_string self)
  = is_iterator (params_get (params self) INPUT_FIELD_NAME VNone).
Proof.
  unfold input_message.
  by destruct (params_get (params self) INPUT_FIELD_NAME VNone).
Qed.

Lemma chat_stream_case_url (self v : Vertex) (ms : value * value)
    (tr : list event) :
  chat_stream_case self = Outcome (inr ms) v tr ->
  snd ms = VStr (build_stream_url self).
Proof.
  unfold chat_stream_case, bind, get_self, modify, py_getitem; simpl.
  destruct (pydict_get (pydict_set (results self) "message" (VStr ""))
              "record") as [record|]; simpl; [|discriminate].
  destruct record; simpl; try discriminate; by intros [= <- _ _].
Qed.

Section ChatProps.

Variable INPUT_FIELD_NAME : string.
Variable unescape_string : string -> string.
Variable py_str : value -> string.
Variable from_message : value -> value -> value -> ChatOutputResponse.
Variable serialize_field : value -> value.

Local Abbreviation chat :=
  (_process_chat_component INPUT_FIELD_NAME unescape_string py_str
     from_message serialize_field).
Local Abbreviation input := (input_message INPUT_FIELD_NAME unescape_string).

Lemma chat_message_case_plain (message text_output : value) (self : Vertex) :
  plain_text_output text_output = true ->
  is_iterator message = false ->
  chat_message_case py_str serialize_field message text_output self
  = Outcome (inr (text_of py_str text_output, VNone)) self [].
Proof.
  intros Hplain Hit.
  destruct text_output; try discriminate Hplain; simpl; by rewrite Hit.
Qed.

(** The whole run of the chat path on a plain text result when the message
    parameter is no stream. *)
Lemma chat_plain_run (self : Vertex) (text_output : value) (fs : list value) :
  pydict_get (results self) "message" = Some text_output ->
  plain_text_output text_output = true ->
  is_iterator (params_get (params self) INPUT_FIELD_NAME VNone) = false ->
  chat_files self self = Outcome (inr (VList fs)) self [] ->
  chat self
  = Outcome (inr (text_of py_str text_output))
      (set_artifacts
         (model_dump true
            {| message := text_of py_str text_output;
               sender := params_get (params self) "sender" VNone;
               sender_name := params_get (params self) "sender_name" VNone;
               stream_url := VNone; files := VList fs;
               type := VArtifactType OBJECT |})
         (set_will_stream false self)) [].
Proof.
  intros Hmsg Hplain Hit Hfs.
  rewrite <- (is_iterator_input_message INPUT_FIELD_NAME unescape_string) in Hit.
  unfold input_message in Hit.
  unfold _process_chat_component, bind, get_self; simpl.
  rewrite Hfs; simpl. unfold py_getitem. rewrite Hmsg; simpl.
  assert (HA : is_AIMessage text_output = false) by (by destruct text_output).
  assert (HU : is_UnbuiltObject text_output = false)
    by (by destruct text_output).
  rewrite HA, HU; simpl.
  rewrite (chat_message_case_plain _ text_output self Hplain Hit).
  reflexivity.
Qed.

(** X12: A text result that is a plain value (no chat message, placeholder,
    mapping or record) with a message parameter that is no stream: the
    method returns the text result (through [str] unless it is a string),
    whatever the message parameter holds; the envelope carries that message
    and the type [OBJECT] and has no [stream_url] entry; [will_stream] is
    false; the result store and the built object keep their values; nothing
    is logged. *)
Theorem chat_plain_text_result (self : Vertex) (text_output : value) :
  pydict_get (results self) "message" = Some text_output ->
  plain_text_output text_output = true ->
  is_iterator (params_get (params self) INPUT_FIELD_NAME VNone) = false ->
  is_iterable (params_get (params self) "files" (VList [])) = true ->
  let o := chat self in
  res o = inr (text_of py_str text_output)
  /\ (exists d,
        artifacts (final o) = VDict d
        /\ pydict_get d "message" = Some (text_of py_str text_output)
        /\ pydict_get d "type" = Some (VArtifactType OBJECT)
        /\ pydict_get d "stream_url" = None)
  /\ will_stream (final o) = false
  /\ results (final o) = results self
  /\ _built_object (final o) = _built_object self
  /\ trace o = [].
Proof.
  intros Hmsg Hplain Hit Hfiles.
  destruct (chat_files_run self self Hfiles) as [fs Hfs].
  simpl. rewrite (chat_plain_run self text_output fs Hmsg Hplain Hit Hfs).
  simpl. split; [reflexivity|]. split; [|repeat split].
  assert (Hnn : is_VNone (text_of py_str text_output) = false).
  { unfold text_of. by destruct text_output. }
  unfold model_dump; simpl. rewrite Hnn; simpl.
  destruct (is_VNone (params_get (params self) "sender" VNone));
    destruct (is_VNone (params_get (params self) "sender_name" VNone));
    simpl; eexists; (split; [reflexivity|]); repeat split.
Qed.


(** X14: On a chat message and on the unbuilt placeholder the method hands the
    message parameter back (unescaped when it is a string, [None] when
    unset) and leaves the result store, the built object and [will_stream]
    as they were.  On the placeholder the artifacts stay too: the vertex is
    unchanged.  On a chat message the artifacts are the dump, without null
    fields, of the envelope [from_message] makes of it. *)
Theorem chat_message_parameter_passes_through (self : Vertex)
    (text_output : value) :
  pydict_get (results self) "message" = Some text_output ->
  is_iterable (params_get (params self) "files" (VList [])) = true ->
  let o := chat self in
  let sender := params_get (params self) "sender" VNone in
  let sender_name := params_get (params self) "sender_name" VNone in
  (is_UnbuiltObject text_output = true ->
   res o = inr (input self) /\ final o = self)
  /\ (is_AIMessage text_output = true ->
      res o = inr (input self)
      /\ final o
         = set_artifacts
             (model_dump true (from_message text_output sender sender_name))
             self).
Proof.
  intros Hmsg Hfiles.
  destruct (chat_files_run self self Hfiles) as [fs Hfs].
  simpl. split; intros Hshape;
    unfold _process_chat_component, bind, get_self; simpl;
    rewrite Hfs; simpl; unfold py_getitem; rewrite Hmsg; simpl;
    destruct text_output; try discriminate Hshape; simpl; by split.
Qed.

(** X15: When the chat path builds an envelope of its own and returns, the
    vertex streams exactly if the message parameter is a stream and the text
    result is a plain value, and the envelope agrees with the flag: type
    [STREAM] with the stream address of the vertex if it streams, type
    [OBJECT] without a [stream_url] entry if it does not. *)
Theorem chat_stream_flag_matches_envelope (self : Vertex)
    (text_output m : value) :
  pydict_get (results self) "message" = Some text_output ->
  builds_envelope text_output = true ->
  res (chat self) = inr m ->
  let o := chat self in
  will_stream (final o)
  = is_iterator (params_get (params self) INPUT_FIELD_NAME VNone)
    && plain_text_output text_output
  /\ exists d,
       artifacts (final o) = VDict d
       /\ pydict_get d "type"
          = Some (VArtifactType
                    (if will_stream (final o) then STREAM else OBJECT))
       /\ pydict_get d "stream_url"
          = (if will_stream (final o)
             then Some (VStr (build_stream_url self)) else None).
Proof.
  intros Hmsg Hbuilds. simpl.
  rewrite <- (is_iterator_input_message INPUT_FIELD_NAME unescape_string).
  unfold input_message.
  unfold _process_chat_component, bind, get_self; simpl.
  destruct (chat_files_total self self) as [[e|fs] Hfs]; rewrite Hfs; simpl;
    [discriminate|].
  unfold py_getitem. rewrite Hmsg; simpl.
  unfold builds_envelope in Hbuilds.
  apply andb_true_iff in Hbuilds as [HA HU].
  apply negb_true_iff in HA. apply negb_true_iff in HU.
  rewrite HA, HU; simpl.
  set (message :=
    match params_get (params self) INPUT_FIELD_NAME VNone with
    | VStr s => VStr (unescape_string s)
    | _ => params_get (params self) INPUT_FIELD_NAME VNone
    end).
  assert (Hurl : forall ms v tr,
    chat_message_case py_str serialize_field message text_output self
    = Outcome (inr ms) v tr ->
    snd ms = (if is_iterator message && plain_text_output text_output
              then VStr (build_stream_url self) else VNone)).
  { intros ms v tr.
    destruct text_output; try discriminate HA; try discriminate HU; simpl;
      rewrite ?andb_true_r, ?andb_false_r;
      try (destruct (is_iterator message);
           [apply chat_stream_case_url|by intros [= <- _ _]]).
    - unfold bind, dict_to_codeblock.
      match goal with
      | |- context [json_dumps ?x] => destruct (json_dumps x)
      end; simpl; [discriminate|by intros [= <- _ _]].
    - by intros [= <- _ _]. }
  destruct (chat_message_case py_str serialize_field message text_output self)
    as [[e|ms] v tr] eqn:Hcase; cbn -[model_dump]; [discriminate|].
  intros _. rewrite (Hurl ms v tr eq_refl).
  destruct (is_iterator message && plain_text_output text_output);
    (split; [reflexivity|]); unfold model_dump; simpl;
    destruct (is_VNone (fst ms)); destruct (is_VNone fs);
    destruct (is_VNone (params_get (params self) "sender" VNone));
    destruct (is_VNone (params_get (params self) "sender_name" VNone));
    simpl; eexists; (split; [reflexivity|]); split; reflexivity.
Qed.

End ChatProps.

Lemma chat_plain_text_result_witness :
  let o :=
    _process_chat_component sample_input_field sample_unescape sample_str
      sample_from_message sample_serialize answered_vertex in
  res o = inr (VStr "hi") /\ will_stream (final o) = false.
Proof.
  destruct (chat_plain_text_result sample_input_field sample_unescape
              sample_str sample_from_message sample_serialize answered_vertex
              (VStr "hi") eq_refl eq_refl eq_refl eq_refl)
    as (Hres & _ & Hwill & _).
  split; [exact Hres|exact Hwill].
Defined.


Lemma chat_message_parameter_passes_through_witness :
  let o :=
    _process_chat_component sample_input_field sample_unescape sample_str
      sample_from_message sample_serialize waiting_vertex in
  res o = inr (VStr "hello") /\ final o = waiting_vertex.
Proof.
  destruct (chat_message_parameter_passes_through sample_input_field
              sample_unescape sample_str sample_from_message sample_serialize
              waiting_vertex VUnbuilt eq_refl eq_refl) as (Hunbuilt & _).
  destruct (Hunbuilt eq_refl) as (Hres & Hfinal).
  split; [exact Hres|exact Hfinal].
Defined.

Lemma chat_stream_flag_matches_envelope_witness :
  let chat :=
    _process_chat_component sample_input_field sample_unescape sample_str
      sample_from_message sample_serialize in
  will_stream (final (chat streaming_vertex)) = true
  /\ will_stream (final (chat answered_vertex)) = false.
Proof.
  split.
  - destruct (chat_stream_flag_matches_envelope sample_input_field
                sample_unescape sample_str sample_from_message
                sample_serialize streaming_vertex (VIter false hello_world)
                (VStr "") eq_refl eq_refl eq_refl) as (Hwill & _).
    exact Hwill.
  - destruct (chat_stream_flag_matches_envelope sample_input_field
                sample_unescape sample_str sample_from_message
                sample_serialize answered_vertex (VStr "hi") (VStr "hi")
                eq_refl eq_refl eq_refl) as (Hwill & _).
    exact Hwill.
Defined.

(** ** The [files] parameter *)




(** ** [InterfaceVertex.consume_async_generator] and failing hooks *)

Lemma yields_of_other_events (t : list event) :
  yields (List.filter
            (fun e => match e with Yield _ => false | _ => true end) t)
  = [].
Proof.
  induction t as [|e t IH]; [reflexivity|].
  destruct e; simpl; exact IH.
Qed.

Section ConsumeProps.

Variable INPUT_FIELD_NAME : string.
Variable _finalize_build : Vertex -> exn + Vertex.
Variable _validate_built_object : Vertex -> exn + Vertex.

Local Abbreviation run_stream :=
  (stream INPUT_FIELD_NAME _finalize_build _validate_built_object).
Local Abbreviation consume :=
  (consume_async_generator INPUT_FIELD_NAME _finalize_build
     _validate_built_object).

(** X17: Consuming the stream hands no chunk to the caller, whatever happens;
    and on a stream of text chunks (the base-class methods keeping a record
    build, [files] walkable) it returns with the vertex built, the input
    field holding the whole text and the built object the record of that
    text. *)
Theorem consume_builds_without_yielding (self : Vertex) :
  yields (trace (consume self)) = []
  /\ (forall is_async items texts,
        keeps_record_build _finalize_build ->
        keeps_record_build _validate_built_object ->
        is_iterable (params_get (params self) "files" (VList [])) = true ->
        params self !! INPUT_FIELD_NAME = Some (VIter is_async items) ->
        map preferred_text items = map VStr texts ->
        let o := consume self in
        res o = inr tt
        /\ params (final o) !! INPUT_FIELD_NAME
           = Some (VStr (concat_texts texts))
        /\ _built_object (final o)
           = VRecord (VStr (concat_texts texts)) (artifacts (final o)) []
        /\ _built (final o) = true).
Proof.
  split; [apply yields_of_other_events|].
  intros is_async items texts Hfin Hval Hfiles Hparam Htexts.
  apply preferred_texts_are_chunk_texts in Htexts.
  destruct (stream_run INPUT_FIELD_NAME _finalize_build _validate_built_object
              self is_async items texts Hfin Hval Hparam Htexts Hfiles)
    as (fs & Hres & _ & _ & Hparams & Hobj & Hbuilt).
  simpl in *. split; [exact Hres|]. split; [|by split].
  rewrite Hparams. apply lookup_insert_eq.
Qed.

(** X18: When [_finalize_build] raises after the stream has been drained, the
    error is the call's error and the vertex is not marked built by the
    call, but what [stream] stored before stays: every chunk has been
    yielded, the input field holds the whole text in place of the stream,
    and the artifacts are the envelope of that text.  Nothing is logged
    about the build. *)
Theorem stream_finalize_failure_keeps_stored_text (self : Vertex)
    (is_async : bool) (items : list value) (texts : list string) (e : exn) :
  params self !! INPUT_FIELD_NAME = Some (VIter is_async items) ->
  map preferred_text items = map VStr texts ->
  is_iterable (params_get (params self) "files" (VList [])) = true ->
  (forall v, _finalize_build v = inl e) ->
  let o := run_stream self in
  res o = inl e
  /\ trace o = map (fun s => Yield (VStr s)) texts
  /\ _built (final o) = _built self
  /\ params (final o) !! INPUT_FIELD_NAME = Some (VStr (concat_texts texts))
  /\ _built_result (final o) = VStr (concat_texts texts)
  /\ exists d,
       artifacts (final o) = VDict d
       /\ pydict_get d "message" = Some (VStr (concat_texts texts)).
Proof.
  intros Hparam Htexts Hfiles Hfin.
  apply preferred_texts_are_chunk_texts in Htexts.
  destruct (stream_store_run INPUT_FIELD_NAME self is_async items texts
              Htexts Hfiles) as [fs Hstore].
  simpl in Hstore. simpl.
  unfold stream, bind, get_self; simpl.
  rewrite (params_get_Some _ _ VNone _ Hparam); simpl.
  rewrite Hstore. unfold stream_finish, bind, call. rewrite Hfin; simpl.
  split; [reflexivity|]. split; [by rewrite app_nil_r|].
  split; [reflexivity|]. split; [apply lookup_insert_eq|].
  split; [reflexivity|]. eexists. split; reflexivity.
Qed.

End ConsumeProps.

Lemma consume_builds_without_yielding_witness :
  let o :=
    consume_async_generator sample_input_field sample_hook sample_hook
      streaming_vertex in
  res o = inr tt
  /\ params (final o) !! sample_input_field = Some (VStr "Hello world")
  /\ _built (final o) = true.
Proof.
  destruct (consume_builds_without_yielding sample_input_field sample_hook
              sample_hook streaming_vertex) as (_ & Hrun).
  destruct (Hrun false hello_world ["Hello "; "world"]
              sample_hook_keeps_record_build sample_hook_keeps_record_build
              eq_refl eq_refl eq_refl) as (Hres & Hparam & _ & Hbuilt).
  split; [exact Hres|]. split; [exact Hparam|exact Hbuilt].
Defined.

Lemma stream_finalize_failure_keeps_stored_text_witness :
  let o :=
    stream sample_input_field (fun _ => inl (ValueError [Lit "no"]))
      sample_hook streaming_vertex in
  res o = inl (ValueError [Lit "no"])
  /\ _built (final o) = false
  /\ params (final o) !! sample_input_field = Some (VStr "Hello world").
Proof.
  destruct (stream_finalize_failure_keeps_stored_text sample_input_field
              (fun _ => inl (ValueError [Lit "no"])) sample_hook
              streaming_vertex false hello_world ["Hello "; "world"]
              (ValueError [Lit "no"]) eq_refl eq_refl eq_refl
              (fun _ => eq_refl))
    as (Hres & _ & Hbuilt & Hparam & _).
  split; [exact Hres|]. split; [exact Hbuilt|exact Hparam].
Defined.

(** ** [InterfaceVertex._run] *)

Lemma bind_outcome {A B} (m : M A) (k : A -> M B) (self : Vertex) :
  bind m k self
  = match m self with
    | Outcome (inl e) self' t => Outcome (inl e) self' t
    | Outcome (inr a) self' t =>
        match k a self' with
        | Outcome r self'' t' => Outcome r self'' (t ++ t')
        end
    end.
Proof. reflexivity. Qed.

Section RunProps.

Variable INPUT_FIELD_NAME : string.
Variable unescape_string : string -> string.
Variable py_str : value -> string.
Variable from_message : value -> value -> value -> ChatOutputResponse.
Variable serialize_field : value -> value.
Variable CHAT_COMPONENTS : list string.
Variable RECORDS_COMPONENTS : list string.
Variable super_run : Vertex -> exn + Vertex.

Local Abbreviation chat :=
  (_process_chat_component INPUT_FIELD_NAME unescape_string py_str
     from_message serialize_field).
Local Abbreviation run :=
  (_run INPUT_FIELD_NAME unescape_string py_str from_message serialize_field
     CHAT_COMPONENTS RECORDS_COMPONENTS super_run).

(** The whole run of the chat path in its streaming sub-case. *)
Lemma chat_stream_run (self : Vertex) (text_output record : value)
    (is_async : bool) (items : list value) :
  pydict_get (results self) "message" = Some text_output ->
  plain_text_output text_output = true ->
  params self !! INPUT_FIELD_NAME = Some (VIter is_async items) ->
  pydict_get (results self) "record" = Some record ->
  takes_attributes record = true ->
  is_iterable (params_get (params self) "files" (VList [])) = true ->
  exists store arts,
    chat self
    = Outcome (inr (VStr ""))
        (set_artifacts arts
           (set_will_stream true
              (set_built_object (VDict store) (set_results store self)))) []
    /\ pydict_get store "message" = Some (VStr "").
Proof.
  intros Hmsg Hplain Hparam Hrec Htakes Hfiles.
  destruct (chat_files_run self self Hfiles) as [fs Hfs].
  destruct (py_getattr_setattr record "message" (VStr "")
              (set_results (pydict_set (results self) "message" (VStr "")) self)
              Htakes) as (record' & Hset & _).
  assert (Hrec' : pydict_get (pydict_set (results self) "message" (VStr ""))
                    "record" = Some record).
  { rewrite pydict_get_set_ne by discriminate. exact Hrec. }
  set (store := pydict_set (pydict_set (results self) "message" (VStr ""))
                  "record" record').
  exists store. eexists. split.
  - unfold _process_chat_component, bind, get_self; simpl.
    rewrite Hfs; simpl. unfold py_getitem. rewrite Hmsg; simpl.
    rewrite (params_get_Some _ _ VNone _ Hparam); simpl.
    assert (Hms : chat_message_case py_str serialize_field
                    (VIter is_async items) text_output self
                  = chat_stream_case self).
    { by destruct text_output. }
    assert (HA : is_AIMessage text_output = false) by (by destruct text_output).
    assert (HU : is_UnbuiltObject text_output = false)
      by (by destruct text_output).
    rewrite HA, HU; simpl. rewrite Hms.
    unfold chat_stream_case, bind, get_self, modify, py_getitem; simpl.
    rewrite Hrec'; simpl. rewrite Hset; simpl. reflexivity.
  - unfold store. rewrite pydict_get_set_ne by discriminate.
    apply pydict_get_set_eq.
Qed.

(** X19: Whenever the interface branch of [_run] returns, the built result is
    the built object. *)
Theorem run_result_is_built_object (self : Vertex) (vertex_type : string) :
  res (run true vertex_type self) = inr tt ->
  _built_result (final (run true vertex_type self))
  = _built_object (final (run true vertex_type self)).
Proof.
  unfold _run. rewrite bind_outcome.
  match goal with
  | |- context [match ?a self with _ => _ end] =>
      destruct (a self) as [[e0|message] v0 tr0]
  end; [discriminate|].
  unfold bind, get_self, modify; simpl.
  destruct (is_iterator (_built_object v0));
    [destruct (py_truthy (params_get (params v0) "return_record"
                            (VBool false)));
     destruct message as [m|]|];
    simpl; try discriminate; try (intros _; reflexivity).
  destruct (Record_init m (artifacts v0) v0) as [[e1|record] v1 t1]; simpl;
    [discriminate|intros _; reflexivity].
Qed.

(** X20: A stream as the built object is replaced for chat components only.  On
    an interface component that is no chat component it makes [_run] fail
    with an unbound local and leaves the vertex as it was: [artifacts] in
    the record path, which knows records and lists only, and [message] when
    the component is neither a chat nor a record component. *)
Theorem run_stream_build_outside_chat (self : Vertex) (vertex_type : string) :
  existsb (String.eqb vertex_type) CHAT_COMPONENTS = false ->
  is_iterator (_built_object self) = true ->
  let o := run true vertex_type self in
  res o
  = inl (UnboundLocalError
           (if existsb (String.eqb vertex_type) RECORDS_COMPONENTS
            then "artifacts" else "message"))
  /\ final o = self
  /\ trace o = [].
Proof.
  intros Hchat Hit. simpl. unfold _run. rewrite Hchat.
  destruct (existsb (String.eqb vertex_type) RECORDS_COMPONENTS).
  - assert (Hrec : _process_record_component self
                   = Outcome (inl (UnboundLocalError "artifacts")) self []).
    { unfold _process_record_component, bind, get_self; simpl.
      by destruct (_built_object self). }
    rewrite !bind_outcome, Hrec. repeat split.
  - unfold bind, get_self; simpl. rewrite Hit.
    by destruct (py_truthy (params_get (params self) "return_record"
                              (VBool false))).
Qed.

(** X21: An interface component that is neither a chat nor a record component
    and whose built object is no stream: [_run] copies the built object to
    the built result and changes nothing else. *)
Theorem run_other_kind_copies_build (self : Vertex) (vertex_type : string) :
  existsb (String.eqb vertex_type) CHAT_COMPONENTS = false ->
  existsb (String.eqb vertex_type) RECORDS_COMPONENTS = false ->
  is_iterator (_built_object self) = false ->
  run true vertex_type self
  = Outcome (inr tt) (set_built_result (_built_object self) self) [].
Proof.
  intros Hchat Hrec Hit. unfold _run. rewrite Hchat, Hrec.
  unfold bind, get_self, modify; simpl. by rewrite Hit.
Qed.

(** X22: A chat component whose built object is a stream while its text result
    is a plain value and its message parameter no stream: the built object
    is replaced by the message, the artifacts staying the envelope of the
    chat path; or, with [return_record] set, by the record of the message
    and the artifacts, and making that record writes the message into the
    artifacts under [text].  The built result is the replacement. *)
Theorem run_chat_replaces_stream_build (self : Vertex)
    (vertex_type : string) (text_output : value) :
  existsb (String.eqb vertex_type) CHAT_COMPONENTS = true ->
  is_iterator (_built_object self) = true ->
  pydict_get (results self) "message" = Some text_output ->
  plain_text_output text_output = true ->
  is_iterator (params_get (params self) INPUT_FIELD_NAME VNone) = false ->
  is_iterable (params_get (params self) "files" (VList [])) = true ->
  let o := run true vertex_type self in
  let message := text_of py_str text_output in
  exists envelope,
    artifacts (final (chat self)) = VDict envelope
    /\ pydict_get envelope "text" = None
    /\ res o = inr tt
    /\ _built_result (final o) = _built_object (final o)
    /\ (if py_truthy (params_get (params self) "return_record" (VBool false))
        then artifacts (final o) = VDict (envelope ++ [("text", message)])
             /\ _built_object (final o)
                = VRecord message (artifacts (final o)) []
        else artifacts (final o) = VDict envelope
             /\ _built_object (final o) = message).
Proof.
  intros Hkind Hit Hmsg Hplain Hinput Hfiles.
  destruct (chat_files_run self self Hfiles) as [fs Hfs].
  pose proof (chat_plain_run INPUT_FIELD_NAME unescape_string py_str
                from_message serialize_field self text_output fs Hmsg Hplain
                Hinput Hfs) as Hchat.
  assert (Hnn : is_VNone (text_of py_str text_output) = false).
  { unfold text_of. by destruct text_output. }
  cbv zeta. unfold _run. rewrite Hkind. rewrite !bind_outcome. rewrite Hchat.
  unfold model_dump. cbn. rewrite Hnn, Hit. cbn.
  destruct (py_truthy (params_get (params self) "return_record" (VBool false)));
    destruct (is_VNone (params_get (params self) "sender" VNone));
    destruct (is_VNone (params_get (params self) "sender_name" VNone));
    cbn; eexists; repeat split.
Qed.

(** X23: A chat component in the streaming sub-case: the chat path has made the
    result store the built object, so [return_record] has no say; [_run]
    returns with the result store, its message the empty string, as built
    object and built result, and the vertex set to stream. *)
Theorem run_chat_streaming_keeps_result_store (self : Vertex)
    (vertex_type : string) (text_output record : value) (is_async : bool)
    (items : list value) :
  existsb (String.eqb vertex_type) CHAT_COMPONENTS = true ->
  pydict_get (results self) "message" = Some text_output ->
  plain_text_output text_output = true ->
  params self !! INPUT_FIELD_NAME = Some (VIter is_async items) ->
  pydict_get (results self) "record" = Some record ->
  takes_attributes record = true ->
  is_iterable (params_get (params self) "files" (VList [])) = true ->
  let o := run true vertex_type self in
  res o = inr tt
  /\ _built_object (final o) = VDict (results (final o))
  /\ _built_result (final o) = VDict (results (final o))
  /\ pydict_get (results (final o)) "message" = Some (VStr "")
  /\ will_stream (final o) = true.
Proof.
  intros Hkind Hmsg Hplain Hparam Hrec Htakes Hfiles.
  destruct (chat_stream_run self text_output record is_async items Hmsg Hplain
              Hparam Hrec Htakes Hfiles) as (store & arts & Hchat & Hstore).
  simpl. unfold _run. rewrite Hkind. rewrite !bind_outcome. rewrite Hchat.
  cbn. repeat split. exact Hstore.
Qed.

End RunProps.

Lemma run_result_is_built_object_witness :
  let o :=
    _run sample_input_field sample_unescape sample_str sample_from_message
      sample_serialize sample_chat_components sample_records_components
      sample_hook true "ChatOutput" answered_vertex in
  _built_result (final o) = _built_object (final o).
Proof.
  exact (run_result_is_built_object sample_input_field sample_unescape
           sample_str sample_from_message sample_serialize
           sample_chat_components sample_records_components sample_hook
           answered_vertex "ChatOutput" eq_refl).
Defined.

Lemma run_stream_build_outside_chat_witness :
  let run :=
    _run sample_input_field sample_unescape sample_str sample_from_message
      sample_serialize sample_chat_components sample_records_components
      sample_hook true in
  let v := set_built_object (VIter false hello_world) (blank_vertex "x") in
  res (run "RecordsOutput" v) = inl (UnboundLocalError "artifacts")
  /\ res (run "TextOutput" v) = inl (UnboundLocalError "message").
Proof.
  intros run v. split.
  - destruct (run_stream_build_outside_chat sample_input_field
                sample_unescape sample_str sample_from_message
                sample_serialize sample_chat_components
                sample_records_components sample_hook v "RecordsOutput"
                eq_refl eq_refl) as (Hres & _).
    exact Hres.
  - destruct (run_stream_build_outside_chat sample_input_field
                sample_unescape sample_str sample_from_message
                sample_serialize sample_chat_components
                sample_records_components sample_hook v "TextOutput"
                eq_refl eq_refl) as (Hres & _).
    exact Hres.
Defined.

Lemma run_other_kind_copies_build_witness :
  _built_result
    (final (_run sample_input_field sample_unescape sample_str
              sample_from_message sample_serialize sample_chat_components
              sample_records_components sample_hook true "TextOutput"
              producer))
  = VDict [("out", VInt 42)].
Proof.
  rewrite (run_other_kind_copies_build sample_input_field sample_unescape
             sample_str sample_from_message sample_serialize
             sample_chat_components sample_records_components sample_hook
             producer "TextOutput" eq_refl eq_refl eq_refl).
  reflexivity.
Defined.

Lemma run_chat_replaces_stream_build_witness :
  let run :=
    _run sample_input_field sample_unescape sample_str sample_from_message
      sample_serialize sample_chat_components sample_records_components
      sample_hook true "ChatOutput" in
  _built_object (final (run (answered_stream_build false))) = VStr "hi"
  /\ pydict_get_text (artifacts (final (run (answered_stream_build false))))
     = None
  /\ _built_object (final (run (answered_stream_build true)))
     = VRecord (VStr "hi")
         (artifacts (final (run (answered_stream_build true)))) []
  /\ pydict_get_text (artifacts (final (run (answered_stream_build true))))
     = Some (VStr "hi").
Proof.
  intros run.
  destruct (run_chat_replaces_stream_build sample_input_field
              sample_unescape sample_str sample_from_message
              sample_serialize sample_chat_components
              sample_records_components sample_hook
              (answered_stream_build false) "ChatOutput" (VStr "hi")
              eq_refl eq_refl eq_refl eq_refl eq_refl eq_refl)
    as (envelope & Hchat & Htext & _ & _ & Harts & Hobj).
  destruct (run_chat_replaces_stream_build sample_input_field
              sample_unescape sample_str sample_from_message
              sample_serialize sample_chat_components
              sample_records_components sample_hook
              (answered_stream_build true) "ChatOutput" (VStr "hi")
              eq_refl eq_refl eq_refl eq_refl eq_refl eq_refl)
    as (envelope' & Hchat' & Htext' & _ & _ & Harts' & Hobj').
  split; [exact Hobj|]. split; [|split; [exact Hobj'|]].
  - unfold run. rewrite Harts. exact Htext.
  - unfold run. rewrite Harts'. cbn in Hchat'. injection Hchat' as <-.
    reflexivity.
Defined.

Lemma run_chat_streaming_keeps_result_store_witness :
  let o :=
    _run sample_input_field sample_unescape sample_str sample_from_message
      sample_serialize sample_chat_components sample_records_components
      sample_hook true "ChatOutput" streaming_vertex in
  res o = inr tt
  /\ _built_result (final o) = VDict (results (final o))
  /\ will_stream (final o) = true.
Proof.
  destruct (run_chat_streaming_keeps_result_store sample_input_field
              sample_unescape sample_str sample_from_message sample_serialize
              sample_chat_components sample_records_components sample_hook
              streaming_vertex "ChatOutput" (VIter false hello_world)
              (VRecord (VStr "") (VDict []) []) false hello_world
              eq_refl eq_refl eq_refl eq_refl eq_refl eq_refl eq_refl)
    as (Hres & _ & Hresult & _ & Hwill).
  split; [exact Hres|]. split; [exact Hresult|exact Hwill].
Defined.

(** ** [dict_to_codeblock] on a mapping JSON cannot carry *)

Lemma dumps_members_first_bad (lvl : nat) (pre post : pydict) (k : string)
    (y : value) :
  (forall kv, In kv pre -> json_native (snd kv) = true) ->
  has_no_json_form y = true ->
  dumps_members lvl (pre ++ (k, y) :: post) = inl y.
Proof.
  intros Hpre Hbad. induction pre as [|[k' v'] pre IH]; simpl.
  - by destruct y.
  - destruct (json_native_reads_back v' (Hpre (k', v') (or_introl eq_refl))
                (S lvl)) as (out & Hout & _).
    rewrite Hout, IH; [reflexivity|].
    intros kv Hin. apply Hpre. by right.
Qed.

Section CodeblockFailure.

Variable INPUT_FIELD_NAME : string.
Variable unescape_string : string -> string.
Variable py_str : value -> string.
Variable from_message : value -> value -> value -> ChatOutputResponse.
Variable serialize_field : value -> value.

(** X24: A mapping whose serialized fields are JSON values up to a first field
    that has no JSON form: [dict_to_codeblock] raises the type error of
    [json.dumps] at that field's serialized value; and the chat path, given
    such a mapping as its text result, raises the same error and leaves the
    vertex as it was, without artifacts of the call. *)
Theorem dict_to_codeblock_first_unserializable (self : Vertex)
    (pre post : pydict) (k : string) (x : value) :
  let d := pre ++ (k, x) :: post in
  distinct_keys (map fst d) = true ->
  (forall kv, In kv pre -> json_native (serialize_field (snd kv)) = true) ->
  has_no_json_form (serialize_field x) = true ->
  dict_to_codeblock serialize_field d self
  = Outcome (inl (not_serializable_error (serialize_field x))) self []
  /\ (pydict_get (results self) "message" = Some (VDict d) ->
      is_iterable (params_get (params self) "files" (VList [])) = true ->
      let o :=
        _process_chat_component INPUT_FIELD_NAME unescape_string py_str
          from_message serialize_field self in
      res o = inl (not_serializable_error (serialize_field x))
      /\ final o = self).
Proof.
  intros d Hkeys Hpre Hbad.
  set (g := fun kv : string * value => (fst kv, serialize_field (snd kv))).
  assert (Hfst : map fst (map g d) = map fst d).
  { rewrite map_map. reflexivity. }
  assert (Hdumps : json_dumps (VDict (dict_of_pairs (map g d)))
                   = inl (serialize_field x)).
  { rewrite dict_of_pairs_distinct by (by rewrite Hfst).
    assert (Hmem : dumps_members 0 (map g d) = inl (serialize_field x)).
    { unfold d. rewrite map_app. simpl.
      apply dumps_members_first_bad; [|exact Hbad].
      intros kv Hin. apply in_map_iff in Hin as ((k0 & v0) & <- & Hin).
      exact (Hpre _ Hin). }
    unfold json_dumps.
    destruct (map g d) as [|kv rest] eqn:Hmap; [discriminate Hmem|].
    by rewrite dumps_at_dict, Hmem. }
  assert (Hblock :
    dict_to_codeblock serialize_field d self
    = Outcome (inl (not_serializable_error (serialize_field x))) self []).
  { unfold dict_to_codeblock. fold g. by rewrite Hdumps. }
  split; [exact Hblock|].
  intros Hmsg Hfiles.
  destruct (chat_files_run self self Hfiles) as [fs Hfs].
  simpl. unfold _process_chat_component, bind, get_self; simpl.
  rewrite Hfs; simpl. unfold py_getitem. rewrite Hmsg; simpl.
  fold d. rewrite ?bind_outcome.
  unfold bind. rewrite Hblock. by split.
Qed.

End CodeblockFailure.

Lemma dict_to_codeblock_first_unserializable_witness :
  dict_to_codeblock sample_serialize
    [("a", VInt 1); ("b", VUnbuilt); ("c", VStr "x")] (blank_vertex "x")
  = Outcome (inl (not_serializable_error VUnbuilt)) (blank_vertex "x") [].
Proof.
  destruct (dict_to_codeblock_first_unserializable sample_input_field
              sample_unescape sample_str sample_from_message sample_serialize
              (blank_vertex "x") [("a", VInt 1)] [("c", VStr "x")] "b"
              VUnbuilt eq_refl) as (Hblock & _).
  - intros kv [<-|[]]. reflexivity.
  - reflexivity.
  - exact Hblock.
Defined.
